(** * PVMantz / PBala: the dispatch engine

    A shallow embedding of the master ([src/PBala.c]: the start of the PVM
    daemon, lines 274-286, and [main] from the start of the fleet, line 347,
    to its last [return]) and of the worker ([task_fork.c], [main]), with
    the status codes of [antz_errcodes.h].

    - C [int] values are [Z]; the value [sscanf] stores is cut to 32 bits
      the way glibc does it.  C strings are [string]; a C [double] is a
      binary64 value of [spec_float].
    - A PVM message is the list of the items packed into it.  [pvm_upk*]
      takes the next item; when there is none of the asked type it returns
      an error code, which neither program looks at, and the variable keeps
      the value it had.
    - What the programs get from outside (lines of the data file as [fgets]
      cuts them, messages that arrive, results of [fork], [waitid],
      [pvm_spawn], [pvm_start_pvmd], [memcheck], of the writers of the
      wrapper scripts and of the shell commands of lines 690-720) is an
      input of the model; what they do (messages sent, lines printed about
      slots and tasks, files written) is a trace of events.  Files are
      taken to open; node_info.txt and the INFO lines of the master are
      left out.
    - The array [buffer] of the master is the string of the characters it
      is known to hold, the character 0 among them.  Where a program writes
      behind a block or reads what nothing has written, the model stops
      with an outcome of its own.
    - Macros whose header is not among the sources ([MSG_*], [ST_MEM_ERR],
      [E_PVM_DUP], [E_IO], [PvmDupHost]; [BUFFER_SIZE], [FNAME_SIZE],
      [E_MPL], [PvmNoParent]) are fields of the classes [Macros] and
      [Headers]. *)

From Stdlib Require Import ZArith List String Ascii Bool Lia SpecFloat.
From Stdlib Require Import Decimal DecimalString DecimalPos.
Import ListNotations.

#[local] Open Scope string_scope.
#[local] Open Scope list_scope.
#[local] Open Scope Z_scope.

(** ** The C library, as far as the two programs use it *)

Module CLib.

(** [(int) x] for a [long] x: the low 32 bits, signed. *)
Definition wrap32 (z : Z) : Z := (z + 2 ^ 31) mod 2 ^ 32 - 2 ^ 31.

(** What [strtol] gives for a digit string whose value is [z]. *)
Definition clamp64 (z : Z) : Z := Z.max (- 2 ^ 63) (Z.min (2 ^ 63 - 1) z).

Definition INT_MIN : Z := - 2 ^ 31.
Definition INT_MAX : Z := 2 ^ 31 - 1.

Definition isspace (c : ascii) : bool :=
  let n := N_of_ascii c in
  (n =? 32)%N || ((9 <=? n)%N && (n <=? 13)%N).

Definition isdigit (c : ascii) : bool :=
  let n := N_of_ascii c in (48 <=? n)%N && (n <=? 57)%N.

Fixpoint skip_space (s : string) : string :=
  match s with
  | String c r => if isspace c then skip_space r else s
  | EmptyString => s
  end.

(** The longest prefix of decimal digits. *)
Fixpoint digits_prefix (s : string) : string :=
  match s with
  | String c r => if isdigit c then String c (digits_prefix r) else EmptyString
  | EmptyString => EmptyString
  end.

(** [sscanf(s, "%d", &n)]: white space, an optional sign, then at least one
    digit.  [Some n] when the call returns 1. *)
Definition sscanf_d (s : string) : option Z :=
  let s1 := skip_space s in
  let '(neg, s2) :=
    match s1 with
    | String "-"%char r => (true, r)
    | String "+"%char r => (false, r)
    | _ => (false, s1)
    end in
  match digits_prefix s2 with
  | EmptyString => None
  | ds =>
      match NilEmpty.uint_of_string ds with
      | Some u =>
          let v := Z.of_N (N.of_uint u) in
          Some (wrap32 (clamp64 (if neg then - v else v)))
      | None => None
      end
  end.

(** [sprintf(dst, "%d", n)]. *)
Definition sprintf_d (n : Z) : string := NilZero.string_of_int (Z.to_int n).

(** [s[strlen(s) - 1] = 0]: the last character is cut off. *)
Fixpoint strip_last (s : string) : string :=
  match s with
  | EmptyString => EmptyString
  | String c EmptyString => EmptyString
  | String c r => String c (strip_last r)
  end.

(** [&s[k]] for a string [s]. *)
Fixpoint drop (k : nat) (s : string) : string :=
  match k, s with
  | O, _ => s
  | S k', String _ r => drop k' r
  | S _, EmptyString => EmptyString
  end.

(** The character 34, which C writes as a backslash and a quote. *)
Definition dquote : string := String (ascii_of_nat 34) EmptyString.

(** A [char] array is the string of its characters, the character 0 being
    one of them; nothing is known of what lies behind the array. *)
Definition NUL : ascii := Ascii.zero.

(** [a[i] = c]. *)
Fixpoint poke (i : nat) (c : ascii) (a : string) : string :=
  match a, i with
  | EmptyString, _ => EmptyString
  | String _ r, O => String c r
  | String x r, S i' => String x (poke i' c r)
  end.

(** The C string at [a]: the characters before the first 0.  [None] when
    the array holds no 0: reading goes on behind the array. *)
Fixpoint cstring (a : string) : option string :=
  match a with
  | EmptyString => None
  | String c r =>
      if Ascii.eqb c NUL then Some EmptyString
      else match cstring r with
           | Some x => Some (String c x)
           | None => None
           end
  end.

(** What [fgets] leaves in the array [a] when it has read [line]: the
    line, a 0, and behind them what the array held before. *)
Definition store (line a : string) : string :=
  (line ++ String NUL (drop (S (String.length line)) a))%string.

End CLib.

Import CLib.

(** ** Status codes: [antz_errcodes.h] *)

Definition E_ARGS : Z := 10.
Definition E_NODE_LINES : Z := 11.
Definition E_NODE_OPEN : Z := 12.
Definition E_NODE_READ : Z := 13.
Definition E_CWD : Z := 14.
Definition E_PVM_MYTID : Z := 15.
Definition E_PVM_PARENT : Z := 16.
Definition E_DATAFILE_LINES : Z := 17.
Definition E_OUTFILE_OPEN : Z := 18.
Definition E_PVM_SPAWN : Z := 19.
Definition E_DATAFILE_FIRSTCOL : Z := 20.
Definition E_OUTDIR : Z := 21.
Definition E_WRONG_TASK : Z := 22.

Definition ST_FORK_ERR : Z := 10.
Definition ST_TASK_KILLED : Z := 11.

(** ** A task out of a line of the data file: [PBala.c], lines 400-418 *)

(** [buffer] is what [fgets] returned.  The task number is scanned, printed
    again to find out how many characters it takes, the last character of
    the line is cut off, and the arguments are read from
    [buffer[aux_size + 1]] on. *)
Inductive parsed_line :=
| NoTaskId                                   (* sscanf did not return 1 *)
| OutsideLine (taskNumber : Z)               (* buffer[aux_size+1] lies behind the line's end *)
| Task (taskNumber : Z) (aux_str : string).

Definition task_of_line (buffer : string) : parsed_line :=
  match sscanf_d buffer with
  | None => NoTaskId
  | Some taskNumber =>
      let aux_size := String.length (sprintf_d taskNumber) in
      if (aux_size + 1 <=? String.length buffer)%nat
      then Task taskNumber (drop (aux_size + 1) (strip_last buffer))
      else OutsideLine taskNumber
  end.

Definition newline : string := String (ascii_of_nat 10) EmptyString.

(** ** The transport: PVM message buffers *)

(** A C [double]: an IEEE 754 binary64 value; [dadd] is its [+]. *)
Definition double := spec_float.

Definition dadd (a b : double) : double := SFadd 53 1024 a b.

Inductive pkitem :=
| PkInt (n : Z)          (* pvm_pkint *)
| PkLong (n : Z)         (* pvm_pklong *)
| PkStr (s : string)     (* pvm_pkstr *)
| PkDouble (d : double). (* pvm_pkdouble *)

Definition buffer := list pkitem.

(** [pvm_upkint(&x,1,1)] and its siblings: the new value of [x] and what is
    left in the receive buffer.  [old] is the value [x] had. *)
Definition pvm_upkint (old : Z) (b : buffer) : Z * buffer :=
  match b with PkInt n :: r => (n, r) | _ => (old, b) end.

Definition pvm_upklong (old : Z) (b : buffer) : Z * buffer :=
  match b with PkLong n :: r => (n, r) | _ => (old, b) end.

Definition pvm_upkstr (old : string) (b : buffer) : string * buffer :=
  match b with PkStr s :: r => (s, r) | _ => (old, b) end.

Definition pvm_upkdouble (old : double) (b : buffer) : double * buffer :=
  match b with PkDouble d :: r => (d, r) | _ => (old, b) end.

(** Macros of the headers that are not among the sources: the message tags
    of the library header, the status and exit codes that
    [antz_errcodes.h] does not define, and [PvmDupHost] of [pvm3.h]. *)
Class Macros := {
  MSG_GREETING : Z;
  MSG_WORK : Z;
  MSG_RESULT : Z;
  MSG_STOP : Z;
  ST_MEM_ERR : Z;
  E_PVM_DUP : Z;
  E_IO : Z;
  PvmDupHost : Z
}.

(** Macros of headers that are not among the sources: the buffer sizes and
    E_MPL of the PBala headers, PvmNoParent of pvm3.h. *)
Class Headers := {
  BUFFER_SIZE : Z;
  FNAME_SIZE : Z;
  E_MPL : Z;
  PvmNoParent : Z
}.

(** ** The worker: [task_fork.c] *)

Module Worker.

(** What the exit of the child looked like to [waitid]. *)
Record siginfo := { si_code : Z; si_status : Z }.

Definition CLD_EXITED : Z := 1.
Definition CLD_KILLED : Z := 2.

(** One turn of the [while (1)] loop, as the outside answers it: the value
    of [memcheck], the message [pvm_recv(myparent, MSG_WORK)] delivers, the
    value of [fork] (negative: no child; 0: this process is the child;
    positive: this process is the worker and has a child), and what
    [waitid] stores. *)
Record turn := {
  memcheck_ret : Z;
  work_msg : buffer;
  fork_pid : Z;
  infop : siginfo
}.

(** The turn [t] with another answer of [waitid]. *)
Definition with_infop (info : siginfo) (t : turn) : turn :=
  {| memcheck_ret := memcheck_ret t; work_msg := work_msg t;
     fork_pid := fork_pid t; infop := info |}.

(** The variables of [main] that live across turns. *)
Record vars := {
  me : Z;
  task_type : Z;
  max_task_size : Z;
  work_code : Z;
  taskNumber : Z;
  inp_programFile : string;
  out_dir : string;
  arguments : string
}.

(** What the forked child does (lines 105-218). *)
Inductive cevent :=
| COpen (path : string) (flags : list string) (mode : Z)
| CDup2 (newfd : Z)
| CClose
| CExecvp (file : string) (args : list string)
| COverrun (written : string). (* the string, with its final 0, is written
                                  into a block that is too small for it *)

Inductive event :=
| Sleep (seconds : Z)
| Stderr_fork_failed (taskNumber : Z)
| Fork (child : list cevent)
| Waitid
| Prtusage (taskNumber : Z) (out_dir : string)
| Send (tag : Z) (msg : buffer)
| PvmExit
| InChild (actions : list cevent).

Inductive ending :=
| Exit (code : Z)
| Child      (* the process is the forked child: it has become the
                program, or has left through [exit(err)] *)
| Undefined  (* the process is the forked child: it has written behind a
                block, and the C language says nothing of it *)
| Waiting.   (* the worker is alive and nothing more is known to arrive *)

(** The octal constant 0666. *)
Definition mode_0666 : Z := 6 * 64 + 6 * 8 + 6.

Section Child.
Context {Hd : Headers}.

(** Lines 134-137: what [sprintf] writes into the four blocks of line 132. *)
Definition maple_args (taskNumber : Z) (arguments inp_programFile : string)
  : list string :=
  [ "maple";
    "-tc " ++ dquote ++ "taskId:=" ++ sprintf_d taskNumber ++ dquote;
    "-c " ++ dquote ++ "taskArgs:=[" ++ arguments ++ "]" ++ dquote;
    inp_programFile ]%string.

(** The string [x] and its final 0 find room in a block of [BUFFER_SIZE]
    characters. *)
Definition fits (x : string) : bool :=
  Z.of_nat (String.length x) <? BUFFER_SIZE.

(** The first of [l] that finds no room, if there is one. *)
Definition too_long (l : list string) : option string :=
  find (fun x => negb (fits x)) l.

(** Lines 119-218.  For a Maple task (type 0) lines 124-138 build the
    argument vector in four blocks of [BUFFER_SIZE] characters and line 141
    calls the program; when [execvp] returns the child leaves through
    [exit(err)].  For every other type the child goes through lines
    148-149, where [strcpy] writes [arguments] and its final 0 into the
    [strlen(arguments)] characters that [malloc] was asked for: the C
    language says nothing of the child from there on.  (A child that comes
    through unharmed goes on as follows: for types 1 and 2 line 166 (193)
    copies [arguments] once more, to where line 152 has moved the pointer,
    and lines 180 (208) copy from the null pointer when [arguments] holds an
    empty field; for the other types the child leaves the [if] of line 105
    and goes on with lines 221-233 and the loop, as if it were the
    worker.) *)
Definition program_call (v : vars) : cevent :=
  if task_type v =? 0 then
    let args := maple_args (taskNumber v) (arguments v) (inp_programFile v) in
    match too_long args with
    | None => CExecvp "maple" args
    | Some x => COverrun x
    end
  else COverrun (arguments v).

(** The child has called the program, or has left through [exit(err)]. *)
Definition calls_program (v : vars) : bool :=
  match program_call v with CExecvp _ _ => true | _ => false end.

(** What the forked child does: lines 109-118, then [program_call]. *)
Definition child (v : vars) : list cevent :=
  [ COpen (out_dir v ++ "/" ++ sprintf_d (taskNumber v) ++ "_out.txt")%string
          ["O_WRONLY"; "O_CREAT"] mode_0666;
    CDup2 1;
    CClose;
    COpen (out_dir v ++ "/" ++ sprintf_d (taskNumber v) ++ "_err.txt")%string
          ["O_WRONLY"; "O_CREAT"] mode_0666;
    CDup2 2;
    CClose;
    program_call v ].

End Child.

Section Loop.
Context {K : Macros} {Hd : Headers}.

(** Lines 55-58: the worker reads three items of the greeting. *)
Definition greet (v : vars) (greeting : buffer) : vars :=
  let '(me', b1) := pvm_upkint (me v) greeting in
  let '(task_type', b2) := pvm_upkint (task_type v) b1 in
  let '(max_task_size', _) := pvm_upklong (max_task_size v) b2 in
  {| me := me'; task_type := task_type'; max_task_size := max_task_size';
     work_code := work_code v; taskNumber := taskNumber v;
     inp_programFile := inp_programFile v; out_dir := out_dir v;
     arguments := arguments v |}.

(** Lines 96-100 and 229-233: what is packed into a result. *)
Definition result_msg (v : vars) (state : Z) : buffer :=
  [PkInt (me v); PkInt (taskNumber v); PkInt state].

(** Lines 67-234, one turn of the loop for each element of [ts]. *)
Fixpoint work (ts : list turn) (v : vars) : list event * ending :=
  match ts with
  | [] => ([], Waiting)
  | t :: ts' =>
      if memcheck_ret t =? 1 then
        let '(evs, e) := work ts' v in (Sleep 60 :: evs, e)
      else
        let '(work_code', b1) := pvm_upkint (work_code v) (work_msg t) in
        if work_code' =? MSG_STOP then ([PvmExit], Exit 0)
        else
          let '(taskNumber', b2) := pvm_upkint (taskNumber v) b1 in
          let '(inp_programFile', b3) := pvm_upkstr (inp_programFile v) b2 in
          let '(out_dir', b4) := pvm_upkstr (out_dir v) b3 in
          let '(arguments', _) := pvm_upkstr (arguments v) b4 in
          let v' :=
            {| me := me v; task_type := task_type v;
               max_task_size := max_task_size v;
               work_code := work_code'; taskNumber := taskNumber';
               inp_programFile := inp_programFile'; out_dir := out_dir';
               arguments := arguments' |} in
          if fork_pid t <? 0 then
            ([Stderr_fork_failed taskNumber';
              Send MSG_RESULT (result_msg v' 1);
              PvmExit], Exit 1)
          else if fork_pid t =? 0 then
            ([InChild (child v')],
             if calls_program v' then Child else Undefined)
          else
            let '(evs, e) := work ts' v' in
            (Fork (child v') :: Waitid :: Prtusage taskNumber' out_dir'
               :: Send MSG_RESULT (result_msg v' 0) :: evs, e)
  end.

(** A result of the worker: three integers, the last of them 0 or 1. *)
Definition three_ints (e : event) : Prop :=
  match e with
  | Send tag msg =>
      tag = MSG_RESULT /\
      exists slot task state,
        msg = [PkInt slot; PkInt task; PkInt state] /\ (state = 0 \/ state = 1)
  | _ => True
  end.

(** [main]: [v0] holds what the variables contain before they are set. *)
Definition main (v0 : vars) (greeting : buffer) (ts : list turn)
  : list event * ending :=
  work ts (greet v0 greeting).

End Loop.

End Worker.

(** ** The master: [PBala.c] *)

Module Master.

(** [struct arguments], the fields used after the command line is read. *)
Record arguments := {
  max_mem_size : Z;
  maple_single_cpu : Z;
  create_err : Z;
  create_mem : Z;
  custom_path : Z;
  program_path : string
}.

(** What [main] knows when it starts the fleet, and what the calls whose
    code is not among the sources answer. *)
Record setup := {
  args : arguments;
  task_type : Z;
  inp_programFile : string;
  out_dir : string;
  nodes : list (string * Z);        (* nodes[i] and nodeCores[i], from parseNodefile *)
  nTasks : Z;                       (* getLineCount(inp_dataFile) *)
  spawn_numt : Z -> Z;              (* pvm_spawn for slot itid *)
  script_ret : Z -> string -> Z;    (* parifile, sagefile, octavefile *)
  mv_ret : Z;                       (* system("[ ! -f ... ] || mv ..."), line 694 *)
  rm_ret : Z;                       (* system("rm ..."), line 715 *)
  rm_removes : bool                 (* that command removes unfinished_tasks.txt *)
}.

(** [cfg] with other values for the flags that follow [max_mem_size] in the
    greeting. *)
Definition with_flags (cfg : setup) (e m c : Z) (p : string) : setup :=
  {| args := {| max_mem_size := max_mem_size (args cfg);
                maple_single_cpu := maple_single_cpu (args cfg);
                create_err := e; create_mem := m; custom_path := c;
                program_path := p |};
     task_type := task_type cfg; inp_programFile := inp_programFile cfg;
     out_dir := out_dir cfg; nodes := nodes cfg; nTasks := nTasks cfg;
     spawn_numt := spawn_numt cfg; script_ret := script_ret cfg;
     mv_ret := mv_ret cfg; rm_ret := rm_ret cfg;
     rm_removes := rm_removes cfg |}.

(** A result as the master sees it after the four unpack calls that follow
    [pvm_recv(-1, MSG_RESULT)]. *)
Record result := {
  r_itid : Z;
  r_taskNumber : Z;
  r_status : Z;
  r_aux_str : string
}.

(** Lines the master prints about slots and tasks. *)
Inductive line :=
| CREATED_SLAVE (itid : Z)
| ERROR_creating_task (numt : Z) (host : string)
| ERROR_first_column
| CREATED_SCRIPT (taskNumber : Z)
| TASK_SENT (taskNumber : Z)
| ERROR_out_of_memory (taskNumber itid : Z)
| ERROR_could_not_fork (taskNumber itid : Z)
| ERROR_stopped_or_killed (taskNumber : Z)
| TASK_COMPLETED (taskNumber : Z) (exec_time : double)
| INFO_shutting_down (itid : Z) (total_time : double)
| END_OF_EXECUTION (total_total_time : double)
| ERROR_clean_up_maple           (* line 695 *)
| ERROR_clean_up_unfinished.     (* line 718 *)

Inductive event :=
| PvmSpawn (host : string) (itid : Z)
| PvmSend (slot : Z) (tag : Z) (msg : buffer)   (* pvm_send(taskId[slot], tag) *)
| PvmRecv (r : result)
| PvmHalt
| Stdout (l : line)
| Stderr (l : line)
| WriteScript (taskNumber : Z) (aux_str : string)
| RestoreProgram
| RemoveScripts
| RemoveUnfinished.   (* system("rm <out_dir>/unfinished_tasks.txt") *)

(** The variables of [main] that change while tasks are dispatched, the
    read position in the data file, the messages still to arrive, and the
    content of unfinished_tasks.txt ([None]: there is no such file). *)
Record state := {
  f_data : list string;
  inbox : list buffer;
  rbuf : buffer;
  itid : Z;
  taskNumber : Z;
  status : Z;
  aux_str : string;
  exec_time : double;
  total_time : double;
  total_total_time : double;
  unfinished_tasks_present : Z;
  unfinishedTasks : option string;
  line_buffer : string          (* the array [buffer] that [fgets] fills:
                                   the characters it holds, as far as
                                   they are given *)
}.

Inductive outcome (A : Type) :=
| Next (a : A)            (* go on with the next statement *)
| Return (code : Z)       (* main returns *)
| Blocked                 (* pvm_recv waits and no message arrives *)
| Undefined.              (* an index outside its array, or behind the
                             characters that are given of it *)
Arguments Next {A} a.
Arguments Return {A} code.
Arguments Blocked {A}.
Arguments Undefined {A}.

(** A statement: the events it causes, how it ends, the state after it. *)
Definition M (A : Type) := state -> list event * outcome A * state.

Definition ret {A} (a : A) : M A := fun s => ([], Next a, s).

Definition bind {A B} (m : M A) (k : A -> M B) : M B := fun s =>
  let '(e1, o, s1) := m s in
  match o with
  | Next a => let '(e2, o2, s2) := k a s1 in (e1 ++ e2, o2, s2)
  | Return c => (e1, Return c, s1)
  | Blocked => (e1, Blocked, s1)
  | Undefined => (e1, Undefined, s1)
  end.

Declare Scope master_scope.
Delimit Scope master_scope with master.
Notation "x <- m ;; k" := (bind m (fun x => k))
  (at level 61, m at next level, right associativity) : master_scope.
Notation "m ;; k" := (bind m (fun _ => k))
  (at level 61, right associativity) : master_scope.
#[local] Open Scope master_scope.

Definition emit (e : event) : M unit := fun s => ([e], Next tt, s).
Definition return_ {A} (code : Z) : M A := fun s => ([], Return code, s).
Definition undefined {A} : M A := fun s => ([], Undefined, s).
Definition get {A} (f : state -> A) : M A := fun s => ([], Next (f s), s).
Definition modify (f : state -> state) : M unit := fun s => ([], Next tt, f s).

(** [for (i = from; ...; i++) body], [n] turns of it. *)
Fixpoint for_ (n : nat) (from : Z) (body : Z -> M unit) : M unit :=
  match n with
  | O => ret tt
  | S n' => body from ;; for_ n' (from + 1) body
  end.

Fixpoint times (n : nat) (body : M unit) : M unit :=
  match n with
  | O => ret tt
  | S n' => body ;; times n' body
  end.

(** *** Assignments *)

Definition set_itid (i : Z) (s : state) : state :=
  {| f_data := f_data s; inbox := inbox s; rbuf := rbuf s;
     itid := i; taskNumber := taskNumber s; status := status s;
     aux_str := aux_str s; exec_time := exec_time s;
     total_time := total_time s; total_total_time := total_total_time s;
     unfinished_tasks_present := unfinished_tasks_present s;
     unfinishedTasks := unfinishedTasks s;
     line_buffer := line_buffer s |}.

Definition set_task (n : Z) (a : string) (s : state) : state :=
  {| f_data := f_data s; inbox := inbox s; rbuf := rbuf s;
     itid := itid s; taskNumber := n; status := status s;
     aux_str := a; exec_time := exec_time s;
     total_time := total_time s; total_total_time := total_total_time s;
     unfinished_tasks_present := unfinished_tasks_present s;
     unfinishedTasks := unfinishedTasks s;
     line_buffer := line_buffer s |}.

Definition set_f_data (l : list string) (s : state) : state :=
  {| f_data := l; inbox := inbox s; rbuf := rbuf s;
     itid := itid s; taskNumber := taskNumber s; status := status s;
     aux_str := aux_str s; exec_time := exec_time s;
     total_time := total_time s; total_total_time := total_total_time s;
     unfinished_tasks_present := unfinished_tasks_present s;
     unfinishedTasks := unfinishedTasks s;
     line_buffer := line_buffer s |}.

(** [pvm_recv] made [b] the receive buffer; lines 468-471 (630-633). *)
Definition unpack_result (b : buffer) (rest : list buffer) (s : state) : state :=
  let '(itid', b1) := pvm_upkint (itid s) b in
  let '(taskNumber', b2) := pvm_upkint (taskNumber s) b1 in
  let '(status', b3) := pvm_upkint (status s) b2 in
  let '(aux_str', b4) := pvm_upkstr (aux_str s) b3 in
  {| f_data := f_data s; inbox := rest; rbuf := b4;
     itid := itid'; taskNumber := taskNumber'; status := status';
     aux_str := aux_str'; exec_time := exec_time s;
     total_time := total_time s; total_total_time := total_total_time s;
     unfinished_tasks_present := unfinished_tasks_present s;
     unfinishedTasks := unfinishedTasks s;
     line_buffer := line_buffer s |}.

(** [pvm_upkdouble(&exec_time,1,1)]. *)
Definition unpack_exec_time (s : state) : state :=
  let '(d, b) := pvm_upkdouble (exec_time s) (rbuf s) in
  {| f_data := f_data s; inbox := inbox s; rbuf := b;
     itid := itid s; taskNumber := taskNumber s; status := status s;
     aux_str := aux_str s; exec_time := d;
     total_time := total_time s; total_total_time := total_total_time s;
     unfinished_tasks_present := unfinished_tasks_present s;
     unfinishedTasks := unfinishedTasks s;
     line_buffer := line_buffer s |}.

(** [pvm_upkdouble(&total_time,1,1)]. *)
Definition unpack_total_time (s : state) : state :=
  let '(d, b) := pvm_upkdouble (total_time s) (rbuf s) in
  {| f_data := f_data s; inbox := inbox s; rbuf := b;
     itid := itid s; taskNumber := taskNumber s; status := status s;
     aux_str := aux_str s; exec_time := exec_time s;
     total_time := d; total_total_time := total_total_time s;
     unfinished_tasks_present := unfinished_tasks_present s;
     unfinishedTasks := unfinishedTasks s;
     line_buffer := line_buffer s |}.

(** [total_total_time += total_time]. *)
Definition add_total_time (s : state) : state :=
  {| f_data := f_data s; inbox := inbox s; rbuf := rbuf s;
     itid := itid s; taskNumber := taskNumber s; status := status s;
     aux_str := aux_str s; exec_time := exec_time s;
     total_time := total_time s;
     total_total_time := dadd (total_total_time s) (total_time s);
     unfinished_tasks_present := unfinished_tasks_present s;
     unfinishedTasks := unfinishedTasks s;
     line_buffer := line_buffer s |}.

Definition set_unfinished (present : Z) (file : option string) (s : state)
  : state :=
  {| f_data := f_data s; inbox := inbox s; rbuf := rbuf s;
     itid := itid s; taskNumber := taskNumber s; status := status s;
     aux_str := aux_str s; exec_time := exec_time s;
     total_time := total_time s; total_total_time := total_total_time s;
     unfinished_tasks_present := present;
     unfinishedTasks := file;
     line_buffer := line_buffer s |}.

Definition set_line_buffer (a : string) (s : state) : state :=
  {| f_data := f_data s; inbox := inbox s; rbuf := rbuf s;
     itid := itid s; taskNumber := taskNumber s; status := status s;
     aux_str := aux_str s; exec_time := exec_time s;
     total_time := total_time s; total_total_time := total_total_time s;
     unfinished_tasks_present := unfinished_tasks_present s;
     unfinishedTasks := unfinishedTasks s;
     line_buffer := a |}.

(** [buffer[strlen(buffer) - 1] = 0], [buffer] holding the line [line]. *)
Definition cut_line (line : string) (s : state) : state :=
  set_line_buffer (poke (String.length line - 1) NUL (line_buffer s)) s.

(** What is in a file, an absent file holding nothing. *)
Definition content (file : option string) : string :=
  match file with Some c => c | None => EmptyString end.

(** [fprintf(unfinishedTasks, "%d,%s\n", taskNumber, aux_str)]. *)
Definition unfinished_line (taskNumber : Z) (aux_str : string) : string :=
  (sprintf_d taskNumber ++ "," ++ aux_str ++ newline)%string.

Section Main.
Context {K : Macros}.
Variable cfg : setup.

(** Lines 312-315. *)
Definition maxConcurrentTasks : Z :=
  fold_left (fun acc node => acc + snd node) (nodes cfg) 0.

(** Lines 395-396. *)
Definition firstBatchSize : Z :=
  if nTasks cfg <? maxConcurrentTasks then nTasks cfg else maxConcurrentTasks.

(** [taskId[i]], an array of [maxConcurrentTasks] task identifiers; the
    worker of slot [i] is named by [i] itself. *)
Definition taskId (i : Z) : M Z :=
  if (0 <=? i) && (i <? maxConcurrentTasks) then ret i else undefined.

(** Lines 366-375. *)
Definition greeting_msg (itid : Z) : buffer :=
  [PkInt itid; PkInt (task_type cfg); PkLong (max_mem_size (args cfg));
   PkInt (create_err (args cfg)); PkInt (create_mem (args cfg));
   PkInt (custom_path (args cfg))]
  ++ (if custom_path (args cfg) =? 0 then []
      else [PkStr (program_path (args cfg))]).

(** Lines 354-386, the body of the inner loop. *)
Definition spawn_one (host : string) : M unit :=
  i <- get itid ;;
  slot <- taskId i ;;
  emit (PvmSpawn host slot) ;;
  if spawn_numt cfg i =? 1 then
    emit (PvmSend slot MSG_GREETING (greeting_msg i)) ;;
    emit (Stdout (CREATED_SLAVE i)) ;;
    modify (set_itid (i + 1))
  else
    emit (Stderr (ERROR_creating_task (spawn_numt cfg i) host)) ;;
    emit PvmHalt ;;
    return_ E_PVM_SPAWN.

(** Lines 352-388. *)
Fixpoint spawn_all (l : list (string * Z)) : M unit :=
  match l with
  | [] => ret tt
  | (host, cores) :: l' =>
      times (Z.to_nat cores) (spawn_one host) ;; spawn_all l'
  end.

(** [fgets(buffer, BUFFER_SIZE, f_data)]; [None] is [NULL].  The elements
    of [f_data] are what the calls return, one after the other. *)
Definition fgets : M (option string) := fun s =>
  match f_data s with
  | [] => ([], Next None, s)
  | buffer :: l =>
      ([], Next (Some buffer),
       set_line_buffer (store buffer (line_buffer s)) (set_f_data l s))
  end.

(** Lines 408-412 and 419 (517-521 and 526); [work_code] holds
    [MSG_GREETING] from line 397 on. *)
Definition work_msg (taskNumber : Z) (aux_str : string) : buffer :=
  [PkInt MSG_GREETING; PkInt taskNumber; PkStr (inp_programFile cfg);
   PkStr (out_dir cfg); PkStr aux_str].

(** Lines 421-442 (528-549). *)
Definition write_script (taskNumber : Z) (aux_str : string) : M unit :=
  if (task_type cfg =? 3) || (task_type cfg =? 4) || (task_type cfg =? 5) then
    emit (WriteScript taskNumber aux_str) ;;
    if script_ret cfg taskNumber aux_str =? -1 then return_ E_IO
    else emit (Stdout (CREATED_SCRIPT taskNumber))
  else ret tt.

(** Lines 419-449 (526-558): the task is sent to the worker of [slot]. *)
Definition send_task (slot n : Z) (a : string) : M unit :=
  modify (set_task n a) ;;
  write_script n a ;;
  t <- taskId slot ;;
  emit (PvmSend t MSG_WORK (work_msg n a)) ;;
  emit (Stdout (TASK_SENT n)).

(** Lines 400-449 (510-558): the line [buffer], which [fgets] has just
    stored, is made a task and sent to the worker of [slot].  When
    [buffer[aux_size + 1]] lies behind the end of the line, the arguments
    are the characters that earlier lines have left there, up to the next
    0. *)
Definition dispatch (slot : Z) (buffer : string) : M unit :=
  match task_of_line buffer with
  | NoTaskId =>
      emit (Stderr ERROR_first_column) ;; emit PvmHalt ;;
      return_ E_DATAFILE_FIRSTCOL
  | OutsideLine n =>
      modify (cut_line buffer) ;;
      behind <- get (fun s =>
        cstring (drop (String.length (sprintf_d n) + 1) (line_buffer s))) ;;
      match behind with
      | Some a => send_task slot n a
      | None => undefined
      end
  | Task n a =>
      modify (cut_line buffer) ;;
      send_task slot n a
  end.

(** Lines 398-451. *)
Definition first_batch : M unit :=
  for_ (Z.to_nat firstBatchSize) 0 (fun i =>
    l <- fgets ;;
    match l with
    | Some buffer => dispatch i buffer
    | None => ret tt
    end).

(** Lines 458-463. *)
Definition create_unfinished : M unit :=
  modify (set_unfinished 0 (Some EmptyString)).

(** Lines 477-480 (and their five copies). *)
Definition append_unfinished : M unit :=
  modify (fun s =>
    set_unfinished 1
      (Some (content (unfinishedTasks s)
             ++ unfinished_line (taskNumber s) (aux_str s))%string) s).

(** Lines 467-471 (629-633). *)
Definition recv_result : M unit := fun s =>
  match inbox s with
  | [] => ([], Blocked, s)
  | b :: rest =>
      let s' := unpack_result b rest s in
      ([PvmRecv {| r_itid := itid s'; r_taskNumber := taskNumber s';
                   r_status := status s'; r_aux_str := aux_str s' |}],
       Next tt, s')
  end.

(** Lines 473-504 (635-666). *)
Definition classify : M unit :=
  st <- get status ;;
  n <- get taskNumber ;;
  i <- get itid ;;
  if st =? ST_MEM_ERR then
    emit (Stderr (ERROR_out_of_memory n i)) ;; append_unfinished
  else if st =? ST_FORK_ERR then
    emit (Stderr (ERROR_could_not_fork n i)) ;; append_unfinished
  else
    modify unpack_exec_time ;;
    if st =? ST_TASK_KILLED then
      emit (Stderr (ERROR_stopped_or_killed n)) ;; append_unfinished
    else
      t <- get exec_time ;;
      emit (Stdout (TASK_COMPLETED n t)).

(** Lines 467-504 and their copy, lines 629-666. *)
Definition receive : M unit := recv_result ;; classify.

(** Lines 464-623. *)
Definition steady : M unit :=
  if nTasks cfg >? maxConcurrentTasks then
    for_ (Z.to_nat (nTasks cfg - maxConcurrentTasks)) maxConcurrentTasks
      (fun _ =>
        receive ;;
        l <- fgets ;;
        match l with
        | Some buffer => i <- get itid ;; dispatch i buffer
        | None => ret tt
        end)
  else ret tt.

(** Lines 626-676; [work_code] is [MSG_STOP] here. *)
Definition drain : M unit :=
  for_ (Z.to_nat firstBatchSize) 0 (fun _ =>
    receive ;;
    modify unpack_total_time ;;
    i <- get itid ;;
    t <- taskId i ;;
    emit (PvmSend t MSG_STOP [PkInt MSG_STOP]) ;;
    tt <- get total_time ;;
    emit (Stdout (INFO_shutting_down i tt)) ;;
    modify add_total_time).

(** Lines 678-723. *)
Definition finish : M unit :=
  t <- get total_total_time ;;
  emit (Stdout (END_OF_EXECUTION t)) ;;
  (if maple_single_cpu (args cfg) =? 0 then ret tt
   else
     emit RestoreProgram ;;
     if mv_ret cfg =? 0 then ret tt
     else emit (Stderr ERROR_clean_up_maple)) ;;
  (if (task_type cfg =? 3) || (task_type cfg =? 4) || (task_type cfg =? 5)
   then emit RemoveScripts else ret tt) ;;
  p <- get unfinished_tasks_present ;;
  (if p =? 0 then
     emit RemoveUnfinished ;;
     (if rm_removes cfg then modify (fun s => set_unfinished p None s)
      else ret tt) ;;
     if rm_ret cfg =? 0 then ret tt
     else emit (Stderr ERROR_clean_up_unfinished)
   else ret tt) ;;
  emit PvmHalt.

(** Lines 347-676: the fleet is started and the tasks are dispatched. *)
Definition schedule : M unit :=
  modify (set_itid 0) ;;
  spawn_all (nodes cfg) ;;
  first_batch ;;
  create_unfinished ;;
  steady ;;
  drain.

(** Lines 347-725. *)
Definition main : M unit :=
  schedule ;;
  finish ;;
  return_ 0.

End Main.

(** *** Starting the PVM daemon: lines 274-286 *)

Inductive start_event := StartPvmd | HaltPvmd | RemoveTmp.

Inductive started :=
| Failed (code : Z)             (* main returns with this code *)
| Started (start_status : Z).   (* main goes on to line 287 *)

Section Start.
Context {K : Macros}.

(** [answer k] is what call number [k] of [pvm_start_pvmd] returns; [fuel]
    bounds the number of turns of the [while] loop. *)
Fixpoint start_pvmd (fuel : nat) (answer : nat -> Z) (call : nat)
  (start_tries : Z) : option (list start_event * started) :=
  match fuel with
  | O => None
  | S fuel' =>
      let start_status := answer call in
      if start_status =? PvmDupHost then
        let start_tries' := start_tries + 1 in
        if start_tries' >? 3 then
          Some ([StartPvmd; HaltPvmd; RemoveTmp], Failed E_PVM_DUP)
        else
          match start_pvmd fuel' answer (S call) start_tries' with
          | Some (evs, r) => Some (StartPvmd :: HaltPvmd :: RemoveTmp :: evs, r)
          | None => None
          end
      else Some ([StartPvmd], Started start_status)
  end.

(** How many of the calls [from], [from + 1], ... report a duplicate host
    before one does not, looking at [n] calls at most. *)
Fixpoint leading_dups (answer : nat -> Z) (from n : nat) : nat :=
  match n with
  | O => O
  | S n' =>
      if answer from =? PvmDupHost
      then S (leading_dups answer (S from) n')
      else O
  end.

(** How often the daemon is started. *)
Fixpoint starts (evs : list start_event) : nat :=
  match evs with
  | [] => O
  | StartPvmd :: r => S (starts r)
  | _ :: r => starts r
  end.

End Start.

End Master.

(** ** Reading a trace *)

Module Trace.
Import Master.

Section Reading.
Context {K : Macros}.

(** The tags of the messages sent to [slot], in the order they are sent. *)
Fixpoint sends_to (slot : Z) (evs : list event) : list Z :=
  match evs with
  | [] => []
  | PvmSend i tag _ :: r =>
      if i =? slot then tag :: sends_to slot r else sends_to slot r
  | _ :: r => sends_to slot r
  end.

(** The results received, in the order they are received. *)
Fixpoint results (evs : list event) : list result :=
  match evs with
  | [] => []
  | PvmRecv r :: l => r :: results l
  | _ :: l => results l
  end.

Definition results_from (slot : Z) (evs : list event) : list result :=
  filter (fun r => r_itid r =? slot) (results evs).

(** The messages exchanged about tasks: work sent and results received. *)
Fixpoint task_traffic (evs : list event) : list event :=
  match evs with
  | [] => []
  | PvmSend i tag m :: r =>
      if tag =? MSG_WORK then PvmSend i tag m :: task_traffic r
      else task_traffic r
  | PvmRecv x :: r => PvmRecv x :: task_traffic r
  | _ :: r => task_traffic r
  end.

(** What lines 468-471 (630-633) read out of a message that begins with
    three integers and a string; [None] for a message of another shape. *)
Definition read_result (msg : buffer) : option result :=
  match msg with
  | PkInt i :: PkInt n :: PkInt st :: PkStr a :: _ =>
      Some {| r_itid := i; r_taskNumber := n; r_status := st;
              r_aux_str := a |}
  | _ => None
  end.

Definition readable (msg : buffer) : Prop := read_result msg <> None.

(** A result whose status is one of the three the master names. *)
Definition not_ok (r : result) : bool :=
  (r_status r =? ST_MEM_ERR) || (r_status r =? ST_FORK_ERR)
  || (r_status r =? ST_TASK_KILLED).

(** The lines of unfinished_tasks.txt for a list of results. *)
Fixpoint unfinished_lines (rs : list result) : string :=
  match rs with
  | [] => EmptyString
  | r :: l =>
      (unfinished_line (r_taskNumber r) (r_aux_str r) ++ unfinished_lines l)%string
  end.

(** The messages sent and received, in their order. *)
Fixpoint comm (evs : list event) : list event :=
  match evs with
  | [] => []
  | PvmSend i tag m :: r => PvmSend i tag m :: comm r
  | PvmRecv x :: r => PvmRecv x :: comm r
  | _ :: r => comm r
  end.

(** [from], [from + 1], ..., [n] numbers. *)
Fixpoint zseq (from : Z) (n : nat) : list Z :=
  match n with
  | O => []
  | S n' => from :: zseq (from + 1) n'
  end.

(** [e] sends the task of the line [buffer] to the worker of [slot]: the
    five items of lines 408-419, with the number of the line and, when they
    lie inside the line, its arguments. *)
Definition carries (cfg : setup) (slot : Z) (buffer : string) (e : event)
  : Prop :=
  exists n a,
    e = PvmSend slot MSG_WORK
          [PkInt MSG_GREETING; PkInt n; PkStr (inp_programFile cfg);
           PkStr (out_dir cfg); PkStr a]
    /\ match task_of_line buffer with
       | Task n' a' => n = n' /\ a = a'
       | OutsideLine n' => n = n'
       | NoTaskId => False
       end.

(** The array [buffer] when line 399 has read [line] into the array [mem]
    and line 416 has put a 0 for the last character of the line. *)
Definition read_and_cut (mem line : string) : string :=
  poke (String.length line - 1) NUL (store line mem).

(** The arguments lines 414-418 find for each of [lines], read one after
    the other into the array [mem]: those the line holds, and, for a line
    that ends with its number, the C string that is at [buffer[aux_size + 1]]
    from earlier lines.  [None] where the line has no task number or the
    array no such string. *)
Fixpoint line_args (mem : string) (lines : list string)
  : list (option string) :=
  match lines with
  | [] => []
  | line :: r =>
      match task_of_line line with
      | Task _ a => Some a
      | OutsideLine n =>
          cstring (drop (String.length (sprintf_d n) + 1)
                     (read_and_cut mem line))
      | NoTaskId => None
      end :: line_args (read_and_cut mem line) r
  end.

(** The fifth item of each message sent with tag MSG_WORK, in the order of
    sending; [None] for a message that has no string there. *)
Fixpoint work_args (evs : list event) : list (option string) :=
  match evs with
  | [] => []
  | PvmSend _ tag msg :: r =>
      if tag =? MSG_WORK then
        match nth_error msg 4 with
        | Some (PkStr a) => Some a
        | _ => None
        end :: work_args r
      else work_args r
  | _ :: r => work_args r
  end.

(** How many workers the spawn loops start on the nodes [l]. *)
Fixpoint slots_of (l : list (string * Z)) : nat :=
  match l with
  | [] => O
  | (_, cores) :: l' => (Z.to_nat cores + slots_of l')%nat
  end.

(** The greeting of a slot. *)
Definition greets (cfg : setup) (i : Z) : event :=
  PvmSend i MSG_GREETING (greeting_msg cfg i).

(** A result, and the work sent in answer to it. *)
Definition answered (p : result * event) : list event :=
  [PvmRecv (fst p); snd p].

(** A result, and the stop sent in answer to it. *)
Definition stopped (r : result) : list event :=
  [PvmRecv r; PvmSend (r_itid r) MSG_STOP [PkInt MSG_STOP]].

(** The [n] results received last. *)
Definition last_results (n : nat) (evs : list event) : list result :=
  skipn (List.length (results evs) - n) (results evs).

(** If [P] relates the events so far and the state before the statement
    [m], then [Q] relates them after it when [m] goes on to the next
    statement, and [X] when it does not: [X] is given the code [main]
    returns, if it returns. *)
Definition triple {A} (P : list event -> state -> Prop) (m : M A)
  (Q : list event -> state -> Prop)
  (X : list event -> state -> option Z -> Prop) : Prop :=
  forall pre s evs o s',
    P pre s -> m s = (evs, o, s') ->
    match o with
    | Next _ => Q (pre ++ evs) s'
    | Return c => X (pre ++ evs) s' (Some c)
    | Blocked | Undefined => X (pre ++ evs) s' None
    end.

(** No result has been received and unfinished_tasks.txt is as it was. *)
Definition untouched (file : option string) (pre : list event) (s : state)
  : Prop :=
  results pre = [] /\ unfinishedTasks s = file.

(** unfinished_tasks.txt holds the lines of the results received so far
    whose status is one of the three, and the flag is set if there are any. *)
Definition listed (pre : list event) (s : state) : Prop :=
  content (unfinishedTasks s) = unfinished_lines (filter not_ok (results pre))
  /\ (unfinished_tasks_present s = 0 -> filter not_ok (results pre) = []).

(** The codes with which [main] returns before its end. *)
Definition early_exit (c : Z) : Prop :=
  c = E_PVM_SPAWN \/ c = E_DATAFILE_FIRSTCOL \/ c = E_IO.

(** What is asked of unfinished_tasks.txt when the run is over: [file0] is
    the file as the run found it, [code] the code [main] returned. *)
Definition listed_at_exit (file0 : option string) (pre : list event)
  (s : state) (code : option Z) : Prop :=
  file0 = None \/ (code = Some 0 /\ E_IO <> 0) ->
  content (unfinishedTasks s) = unfinished_lines (filter not_ok (results pre)).

(** Nothing is asked of the events and the state. *)
Definition anything (pre : list event) (s : state) : Prop := True.

(** [main] returns, if it does, with one of the three codes. *)
Definition exits_early (pre : list event) (s : state) (code : option Z)
  : Prop :=
  forall c, code = Some c -> early_exit c.

(** An event other than the receipt of a result. *)
Definition silent (e : event) : Prop :=
  match e with PvmRecv _ => False | _ => True end.

End Reading.

End Trace.

(** ** Concrete runs *)

Module Demo.
Import Master.

(** [PvmDupHost] is -28 in pvm3.h; the other values are picked. *)
#[export] Instance macros : Macros := {|
  MSG_GREETING := 1; MSG_WORK := 2; MSG_RESULT := 3; MSG_STOP := 4;
  ST_MEM_ERR := 9; E_PVM_DUP := 23; E_IO := 25; PvmDupHost := -28
|}.

(** [PvmNoParent] is -23 in pvm3.h; the other values are picked. *)
#[export] Instance headers : Headers := {|
  BUFFER_SIZE := 1024; FNAME_SIZE := 256; E_MPL := 24; PvmNoParent := -23
|}.

Definition no_options : arguments := {|
  max_mem_size := 0; maple_single_cpu := 0; create_err := 0; create_mem := 0;
  custom_path := 0; program_path := EmptyString
|}.

(** One node with two cores, a C program, [n] lines in the data file. *)
Definition two_cores (n : Z) : setup := {|
  args := no_options; task_type := 1;
  inp_programFile := "./prog"; out_dir := "out";
  nodes := [("a01", 2)]; nTasks := n;
  spawn_numt := fun _ => 1; script_ret := fun _ _ => 0;
  mv_ret := 0; rm_ret := 0; rm_removes := true
|}.

(** The same for a Maple library. *)
Definition maple_cores (n : Z) : setup := {|
  args := no_options; task_type := 0;
  inp_programFile := "./prog"; out_dir := "out";
  nodes := [("a01", 2)]; nTasks := n;
  spawn_numt := fun _ => 1; script_ret := fun _ _ => 0;
  mv_ret := 0; rm_ret := 0; rm_removes := true
|}.

(** Some durations, in seconds. *)
Definition zero : double := S754_zero false.
Definition quarter : double := S754_finite false 1 (-2).
Definition half : double := S754_finite false 1 (-1).
Definition one : double := S754_finite false 1 0.
Definition two : double := S754_finite false 1 1.
Definition four : double := S754_finite false 1 2.

(** A result of the shape the master reads. *)
Definition full_result (slot task st : Z) (a : string) (t life : double)
  : buffer :=
  [PkInt slot; PkInt task; PkInt st; PkStr a; PkDouble t; PkDouble life].

Definition start (lines : list string) (msgs : list buffer) : state := {|
  f_data := lines; inbox := msgs; rbuf := [];
  itid := 0; taskNumber := 0; status := 0; aux_str := EmptyString;
  exec_time := zero; total_time := zero; total_total_time := zero;
  unfinished_tasks_present := 0; unfinishedTasks := None;
  line_buffer := EmptyString
|}.

Definition line (s : string) : string := (s ++ newline)%string.

(** Two cores and a single task. *)
Definition one_task : list event * outcome unit * state :=
  main (two_cores 1) (start [line "1,5,6"]
    [full_result 0 1 0 "5,6" half two]).

(** Two cores and three tasks; the second task is killed. *)
Definition three_tasks : list event * outcome unit * state :=
  main (two_cores 3) (start [line "1,5,6"; line "2,7,8"; line "3,9,10"]
    [full_result 1 2 ST_TASK_KILLED "7,8" quarter one;
     full_result 0 1 0 "5,6" half two;
     full_result 1 3 0 "9,10" half four]).

Definition worker_vars : Worker.vars := {|
  Worker.me := 0; Worker.task_type := 0; Worker.max_task_size := 0;
  Worker.work_code := 0; Worker.taskNumber := 0;
  Worker.inp_programFile := EmptyString; Worker.out_dir := EmptyString;
  Worker.arguments := EmptyString
|}.

(** A turn in which the worker is given task 7 and the fork gives [pid]. *)
Definition task7 (pid : Z) (info : Worker.siginfo) : Worker.turn := {|
  Worker.memcheck_ret := 0;
  Worker.work_msg := work_msg (two_cores 1) 7 "5,6";
  Worker.fork_pid := pid;
  Worker.infop := info
|}.

(** A state in which a completed result has just been unpacked. *)
Definition after_ok_result : state := {|
  f_data := []; inbox := []; rbuf := [PkDouble half; PkDouble two];
  itid := 0; taskNumber := 1; status := 0; aux_str := "5,6";
  exec_time := zero; total_time := zero; total_total_time := zero;
  unfinished_tasks_present := 0; unfinishedTasks := Some EmptyString;
  line_buffer := EmptyString
|}.

(** The worker of slot 1 could not fork for task 7. *)
Definition failed_worker : Worker.vars := {|
  Worker.me := 1; Worker.task_type := 1; Worker.max_task_size := 0;
  Worker.work_code := 1; Worker.taskNumber := 7;
  Worker.inp_programFile := "./prog"; Worker.out_dir := "out";
  Worker.arguments := "5,6"
|}.

End Demo.
(** ** Reading more of the traces *)

Module WorkerTrace.
Import Worker.

(** The messages the worker sends, in their order. *)
Fixpoint sent (evs : list event) : list buffer :=
  match evs with
  | [] => []
  | Send _ msg :: r => msg :: sent r
  | _ :: r => sent r
  end.

(** How many children the worker has made. *)
Fixpoint forked (evs : list event) : nat :=
  match evs with
  | [] => O
  | Fork _ :: r => S (forked r)
  | _ :: r => forked r
  end.

(** How many forks have failed. *)
Fixpoint failures (evs : list event) : nat :=
  match evs with
  | [] => O
  | Stderr_fork_failed _ :: r => S (failures r)
  | _ :: r => failures r
  end.

(** How often [pvm_exit] is called. *)
Fixpoint exits (evs : list event) : nat :=
  match evs with
  | [] => O
  | PvmExit :: r => S (exits r)
  | _ :: r => exits r
  end.

(** A turn in which [memcheck] answers [m] and [msg] is delivered. *)
Definition turn_of (m : Z) (msg : buffer) (pid : Z) (info : siginfo) : turn :=
  {| memcheck_ret := m; work_msg := msg; fork_pid := pid; infop := info |}.

End WorkerTrace.

Module Report.
Import Master Trace.

Section Reading.
Context {K : Macros}.

(** What the master prints about a result. *)
Inductive verdict :=
| Completed (taskNumber : Z)     (* TASK_COMPLETED on stdout *)
| Unfinished (taskNumber : Z).   (* one of the three ERROR lines on stderr *)

Definition verdict_of (r : result) : verdict :=
  if not_ok r then Unfinished (r_taskNumber r) else Completed (r_taskNumber r).

Fixpoint verdicts (evs : list event) : list verdict :=
  match evs with
  | [] => []
  | Stdout (TASK_COMPLETED n _) :: r => Completed n :: verdicts r
  | Stderr (ERROR_out_of_memory n _) :: r => Unfinished n :: verdicts r
  | Stderr (ERROR_could_not_fork n _) :: r => Unfinished n :: verdicts r
  | Stderr (ERROR_stopped_or_killed n) :: r => Unfinished n :: verdicts r
  | _ :: r => verdicts r
  end.

(** How often [pvm_halt] is called. *)
Fixpoint halts (evs : list event) : nat :=
  match evs with
  | [] => O
  | PvmHalt :: r => S (halts r)
  | _ :: r => halts r
  end.

(** [pvm_halt] is called once, and it is the last thing done. *)
Definition ends_with_halt (evs : list event) : Prop :=
  exists pre, evs = pre ++ [PvmHalt] /\ halts pre = O.

(** The lifetimes printed when slots are shut down. *)
Fixpoint lifetimes (evs : list event) : list double :=
  match evs with
  | [] => []
  | Stdout (INFO_shutting_down _ t) :: r => t :: lifetimes r
  | _ :: r => lifetimes r
  end.

(** The events of starting slots and sending tasks. *)
Definition plain (e : event) : Prop :=
  match e with
  | PvmSpawn _ _ | PvmSend _ _ _ | WriteScript _ _
  | RestoreProgram | RemoveScripts | RemoveUnfinished => True
  | Stdout (CREATED_SLAVE _) | Stdout (CREATED_SCRIPT _)
  | Stdout (TASK_SENT _) => True
  | Stderr (ERROR_creating_task _ _) | Stderr ERROR_first_column
  | Stderr ERROR_clean_up_maple | Stderr ERROR_clean_up_unfinished => True
  | _ => False
  end.

(** [R] is kept by the events of starting slots and sending tasks and by
    assignments that leave unfinished_tasks.txt, its flag, the summed time
    and the messages still to arrive alone; [X] follows from it where
    [main] stops. *)
Definition plainly (R : list event -> state -> Prop)
  (X : list event -> state -> option Z -> Prop) : Prop :=
  (forall pre s e, plain e -> R pre s -> R (pre ++ [e]) s)
  /\ (forall pre s s2,
        unfinishedTasks s2 = unfinishedTasks s ->
        unfinished_tasks_present s2 = unfinished_tasks_present s ->
        total_total_time s2 = total_total_time s ->
        inbox s2 = inbox s ->
        R pre s -> R pre s2)
  /\ (forall pre s, R pre s -> X pre s None)
  /\ (forall pre s a c,
        plain a -> c = E_PVM_SPAWN \/ c = E_DATAFILE_FIRSTCOL ->
        R pre s -> X (pre ++ [a; PvmHalt]) s (Some c))
  /\ (forall pre s, R pre s -> X pre s (Some E_IO)).

(** Lines 667-675: what follows the receipt of a result in the drain. *)
Definition shut_down (cfg : setup) : M unit :=
  (modify unpack_total_time ;;
   i <- get itid ;;
   t <- taskId cfg i ;;
   emit (PvmSend t MSG_STOP [PkInt MSG_STOP]) ;;
   tt <- get total_time ;;
   emit (Stdout (INFO_shutting_down i tt)) ;;
   modify add_total_time)%master.

(** No [pvm_halt] so far. *)
Definition not_halted (pre : list event) (s : state) : Prop := halts pre = O.

(** How [main] leaves the daemon when it stops. *)
Definition halted_at_exit (pre : list event) (s : state) (code : option Z)
  : Prop :=
  match code with
  | Some c =>
      (ends_with_halt pre
       /\ (c = 0 \/ c = E_PVM_SPAWN \/ c = E_DATAFILE_FIRSTCOL))
      \/ (c = E_IO /\ halts pre = O)
  | None => halts pre = O
  end.

(** One line is printed for each result, in the order of receipt. *)
Definition reported (pre : list event) (s : state) : Prop :=
  verdicts pre = map verdict_of (results pre).

Definition reported_at_exit (pre : list event) (s : state) (code : option Z)
  : Prop :=
  verdicts pre = map verdict_of (results pre).

(** The summed time is the sum of the lifetimes printed, from [t0] on. *)
Definition summed (t0 : double) (pre : list event) (s : state) : Prop :=
  total_total_time s = fold_left dadd (lifetimes pre) t0.

Definition summed_at_exit (t0 : double) (pre : list event) (s : state)
  (code : option Z) : Prop :=
  total_total_time s = fold_left dadd (lifetimes pre) t0
  /\ (code = Some 0 -> E_IO <> 0 ->
      In (Stdout (END_OF_EXECUTION (total_total_time s))) pre).

(** The results received so far are what [read_result] makes of the
    messages taken from [inbox0], in their order. *)
Definition read_so_far (inbox0 : list buffer) (pre : list event) (s : state)
  : Prop :=
  exists msgs,
    inbox0 = msgs ++ inbox s
    /\ map Some (results pre) = map read_result msgs.

Definition read_at_exit (inbox0 : list buffer) (pre : list event)
  (s : state) (code : option Z) : Prop :=
  read_so_far inbox0 pre s.

(** unfinished_tasks.txt is there, and its flag is 0 as long as no result
    with one of the three statuses has been received. *)
Definition tracked (pre : list event) (s : state) : Prop :=
  unfinishedTasks s <> None
  /\ (unfinished_tasks_present s = 0 <-> filter not_ok (results pre) = []).

Definition kept_at_exit (cfg : setup) (pre : list event) (s : state)
  (code : option Z) : Prop :=
  code = Some 0 -> E_IO <> 0 ->
  (unfinishedTasks s = None
   <-> filter not_ok (results pre) = [] /\ rm_removes cfg = true).

End Reading.

End Report.

(** ** Message tags between the two programs *)

Module Protocol.
Import Master.

Section Tags.
Context {K : Macros}.

(** The messages [pvm_recv(myparent, tag)] can deliver to the worker of
    [slot]: those the master has sent to [taskId[slot]] with that tag. *)
Fixpoint sent_with (tag slot : Z) (evs : list event) : list buffer :=
  match evs with
  | [] => []
  | PvmSend i t msg :: r =>
      if (i =? slot) && (t =? tag) then msg :: sent_with tag slot r
      else sent_with tag slot r
  | _ :: r => sent_with tag slot r
  end.

(** A message sent with tag MSG_WORK carries MSG_GREETING, the value of
    [work_code] from line 397 to line 625, as its first item. *)
Definition work_coded (e : event) : Prop :=
  match e with
  | PvmSend _ tag msg =>
      tag = MSG_WORK -> exists rest, msg = PkInt MSG_GREETING :: rest
  | _ => True
  end.

End Tags.

End Protocol.

(** ** The command line and the start of [main]: [PBala.c], lines 78-345 *)

(** What goes wrong outside the C language. *)
Inductive fault :=
| UnsetArg        (* an element of [arguments.args] is read before it is set *)
| Overrun         (* a string is written past the end of its buffer *)
| NullFile        (* [fprintf] to the null pointer [fopen] returned *)
| OutOfRange      (* [nodes[i]] outside the array *)
| IntOverflow     (* a sum of [int]s outside the range of [int] *)
| Unbounded.      (* the loop of lines 279-286 takes more than four turns *)

Module Args.

(** [sscanf(s, "%ld", &n)]: as "%d", but nothing is cut off to 32 bits. *)
Definition sscanf_ld (s : string) : option Z :=
  let s1 := skip_space s in
  let '(neg, s2) :=
    match s1 with
    | String "-"%char r => (true, r)
    | String "+"%char r => (false, r)
    | _ => (false, s1)
    end in
  match digits_prefix s2 with
  | EmptyString => None
  | ds =>
      match NilEmpty.uint_of_string ds with
      | Some u =>
          let v := Z.of_N (N.of_uint u) in
          Some (clamp64 (if neg then - v else v))
      | None => None
      end
  end.

(** The characters up to the first white space. *)
Fixpoint word (s : string) : string :=
  match s with
  | String c r => if isspace c then EmptyString else String c (word r)
  | EmptyString => EmptyString
  end.

Inductive scanned :=
| NoInput              (* the call returns EOF: nothing is written *)
| Word (w : string)    (* the call returns 1 *)
| TooLong.             (* the word and its final 0 do not fit *)

(** [sscanf(s, "%s", dst)] for a buffer [dst] of [size] characters. *)
Definition sscanf_s (size : Z) (s : string) : scanned :=
  match word (skip_space s) with
  | EmptyString => NoInput
  | w => if Z.of_nat (String.length w) <? size then Word w else TooLong
  end.

(** [struct arguments]; the pointers of [args] and the buffer
    [program_path] hold nothing until they are written. *)
Record arguments := {
  args : list (option string);
  kill : Z;
  max_mem_size : Z;
  maple_single_cpu : Z;
  create_err : Z;
  create_mem : Z;
  create_slave : Z;
  custom_path : Z;
  program_path : option string
}.

(** Lines 146-153. *)
Definition initial : arguments := {|
  args := repeat None 5; kill := 0; max_mem_size := 0;
  maple_single_cpu := 0; create_err := 0; create_mem := 0;
  create_slave := 0; custom_path := 0; program_path := None
|}.

Definition set_args (l : list (option string)) (a : arguments) :=
  {| args := l; kill := kill a; max_mem_size := max_mem_size a;
     maple_single_cpu := maple_single_cpu a; create_err := create_err a;
     create_mem := create_mem a; create_slave := create_slave a;
     custom_path := custom_path a; program_path := program_path a |}.

Definition set_kill (v : Z) (a : arguments) :=
  {| args := args a; kill := v; max_mem_size := max_mem_size a;
     maple_single_cpu := maple_single_cpu a; create_err := create_err a;
     create_mem := create_mem a; create_slave := create_slave a;
     custom_path := custom_path a; program_path := program_path a |}.

Definition set_max_mem_size (v : Z) (a : arguments) :=
  {| args := args a; kill := kill a; max_mem_size := v;
     maple_single_cpu := maple_single_cpu a; create_err := create_err a;
     create_mem := create_mem a; create_slave := create_slave a;
     custom_path := custom_path a; program_path := program_path a |}.

Definition set_maple_single_cpu (v : Z) (a : arguments) :=
  {| args := args a; kill := kill a; max_mem_size := max_mem_size a;
     maple_single_cpu := v; create_err := create_err a;
     create_mem := create_mem a; create_slave := create_slave a;
     custom_path := custom_path a; program_path := program_path a |}.

Definition set_create_err (v : Z) (a : arguments) :=
  {| args := args a; kill := kill a; max_mem_size := max_mem_size a;
     maple_single_cpu := maple_single_cpu a; create_err := v;
     create_mem := create_mem a; create_slave := create_slave a;
     custom_path := custom_path a; program_path := program_path a |}.

Definition set_create_mem (v : Z) (a : arguments) :=
  {| args := args a; kill := kill a; max_mem_size := max_mem_size a;
     maple_single_cpu := maple_single_cpu a; create_err := create_err a;
     create_mem := v; create_slave := create_slave a;
     custom_path := custom_path a; program_path := program_path a |}.

Definition set_create_slave (v : Z) (a : arguments) :=
  {| args := args a; kill := kill a; max_mem_size := max_mem_size a;
     maple_single_cpu := maple_single_cpu a; create_err := create_err a;
     create_mem := create_mem a; create_slave := v;
     custom_path := custom_path a; program_path := program_path a |}.

Definition set_custom_path (v : Z) (p : option string) (a : arguments) :=
  {| args := args a; kill := kill a; max_mem_size := max_mem_size a;
     maple_single_cpu := maple_single_cpu a; create_err := create_err a;
     create_mem := create_mem a; create_slave := create_slave a;
     custom_path := v; program_path := p |}.

(** [l[i] = x]. *)
Fixpoint assign {A} (i : nat) (x : A) (l : list A) : list A :=
  match l, i with
  | [], _ => []
  | _ :: r, O => x :: r
  | y :: r, S i' => y :: assign i' x r
  end.

(** The key of a short option is its character. *)
Definition chr (c : ascii) : Z := Z.of_N (N_of_ascii c).

(** argp.h. *)
Definition ARGP_KEY_ARG : Z := 0.
Definition ARGP_KEY_END : Z := 16777217.   (* 0x1000001 *)

(** How a call of [parse_opt] ends. *)
Inductive error_t :=
| Returns_0 (a : arguments)
| Returns_ARGP_ERR_UNKNOWN
| Usage                      (* [argp_usage]: the program exits *)
| Faulty (f : fault).

(** How [argp_parse] ends. *)
Inductive parsed :=
| Parsed (a : arguments)     (* it returns to [main] *)
| Usage_exit                 (* the program has exited in [argp_usage] *)
| Crashed (f : fault).

Section Parser.
Context {Hd : Headers}.

(** Lines 78-121; [arg_num] is [state->arg_num]. *)
Definition parse_opt (key : Z) (arg : string) (arg_num : Z) (a : arguments)
  : error_t :=
  if key =? chr "k" then Returns_0 (set_kill 1 a)
  else if key =? chr "m" then
    match sscanf_ld arg with
    | Some n => Returns_0 (set_max_mem_size n a)
    | None => Returns_0 a
    end
  else if key =? chr "s" then Returns_0 (set_maple_single_cpu 1 a)
  else if key =? chr "e" then Returns_0 (set_create_err 1 a)
  else if key =? 103 then Returns_0 (set_create_mem 1 a)
  else if key =? 104 then Returns_0 (set_create_slave 1 a)
  else if key =? chr "c" then
    match sscanf_s BUFFER_SIZE arg with
    | Word w => Returns_0 (set_custom_path 1 (Some w) a)
    | NoInput => Returns_0 (set_custom_path 1 (program_path a) a)
    | TooLong => Faulty Overrun
    end
  else if key =? ARGP_KEY_ARG then
    if arg_num >=? 5 then Usage
    else Returns_0 (set_args (assign (Z.to_nat arg_num) (Some arg) (args a)) a)
  else if key =? ARGP_KEY_END then
    if (arg_num <? 5) && negb (kill a =? 1) then Usage else Returns_0 a
  else Returns_ARGP_ERR_UNKNOWN.

(** [argp_parse] calls the parser once for each option and each argument
    it finds on the command line, [calls] in their order, and then with
    ARGP_KEY_END; [arg_num] is incremented after each ARGP_KEY_ARG call
    that returns.  A call that returns ARGP_ERR_UNKNOWN is passed over: the
    library makes such calls with keys of its own. *)
Fixpoint argp_calls (calls : list (Z * string)) (arg_num : Z)
  (a : arguments) : parsed :=
  match calls with
  | [] =>
      match parse_opt ARGP_KEY_END EmptyString arg_num a with
      | Returns_0 a' => Parsed a'
      | Returns_ARGP_ERR_UNKNOWN => Parsed a
      | Usage => Usage_exit
      | Faulty f => Crashed f
      end
  | (key, arg) :: r =>
      match parse_opt key arg arg_num a with
      | Returns_0 a' =>
          argp_calls r (if key =? ARGP_KEY_ARG then arg_num + 1 else arg_num)
            a'
      | Returns_ARGP_ERR_UNKNOWN => argp_calls r arg_num a
      | Usage => Usage_exit
      | Faulty f => Crashed f
      end
  end.

(** Line 196, after lines 146-153. *)
Definition argp_parse (calls : list (Z * string)) : parsed :=
  argp_calls calls 0 initial.

End Parser.

(** The arguments that are no options, in their order. *)
Definition positionals (calls : list (Z * string)) : list string :=
  map snd (filter (fun c => fst c =? ARGP_KEY_ARG) calls).

Definition keys (calls : list (Z * string)) : list Z := map fst calls.

(** The words given with the option -c fit into [program_path]. *)
Definition paths_fit {Hd : Headers} (calls : list (Z * string)) : Prop :=
  Forall (fun c =>
    fst c = chr "c" -> sscanf_s BUFFER_SIZE (snd c) <> TooLong) calls.

End Args.

Module Boot.
Import Args.

(** What the calls answer whose code is not among the sources, and the
    system. *)
Record world := {
  killPBala : Z;
  mapleSingleCPU : string -> Z;
  fopen_w : string -> bool;                 (* false: fopen returns NULL *)
  getLineCount : string -> Z;
  parseNodefile : string -> Z -> Z * list (string * Z);
                                   (* err, and nodes[i] with nodeCores[i] *)
  getcwd : option string;
  pvm_start_pvmd : nat -> Z;                (* call number k *)
  pvm_mytid : Z;
  pvm_parent : Z
}.

Inductive message :=
| ERROR_reading_arguments
| ERROR_wrong_task_type
| ERROR_cannot_create_file (name dir : string)
| ERROR_cannot_open_file (name : string)
| ERROR_while_reading_node_file (name : string)
| ERROR_cannot_resolve_current_directory
| ERROR_cannot_open_output_file (name : string)
| ERROR_cannot_open_data_file (name : string)
| INFO_will_use (program data nodefile dir : string)     (* lines 326-338 *)
| INFO_will_create (nodes : list (string * Z))
    (nTasks maxConcurrentTasks : Z).                      (* lines 340-345 *)

Inductive event :=
| KillPBala
| Stderr (m : message)
| Stdout (m : message)
| MapleSingleCPU (file : string)
| Fopen_w (name : string)
| Fprintf (name content : string)
| Pvmd (e : Master.start_event)
| PvmCatchout
| PvmMytid
| PvmParent
| PvmPerror
| PvmHalt.

(** The variables of [main] at line 346. *)
Record variables := {
  arguments_ : arguments;
  task_type : Z;
  inp_programFile : string;
  inp_dataFile : string;
  inp_nodes : string;
  out_dir : string;
  nodes : list (string * Z);
  mytid : Z;
  myparent : Z;
  maxConcurrentTasks : Z;
  nTasks : Z
}.

Inductive outcome (A : Type) :=
| Go (a : A)             (* go on with the next statement *)
| Exit (code : Z)        (* main returns *)
| Fault (f : fault).
Arguments Go {A} a.
Arguments Exit {A} code.
Arguments Fault {A} f.

Definition B (A : Type) := (list event * outcome A)%type.

Definition ret {A} (a : A) : B A := ([], Go a).
Definition emit (e : event) : B unit := ([e], Go tt).
Definition exit_ {A} (code : Z) : B A := ([], Exit code).
Definition fault_ {A} (f : fault) : B A := ([], Fault f).

Definition bind {A C} (m : B A) (k : A -> B C) : B C :=
  match m with
  | (e1, Go a) => let '(e2, o) := k a in (e1 ++ e2, o)
  | (e1, Exit c) => (e1, Exit c)
  | (e1, Fault f) => (e1, Fault f)
  end.

Declare Scope boot_scope.
Delimit Scope boot_scope with boot.
Notation "x <- m ;; k" := (bind m (fun x => k))
  (at level 61, m at next level, right associativity) : boot_scope.
Notation "m ;; k" := (bind m (fun _ => k))
  (at level 61, right associativity) : boot_scope.
#[local] Open Scope boot_scope.

Section Startup.
Context {K : Macros} {Hd : Headers}.
Variable w : world.

(** [arguments.args[i]], read. *)
Definition arg (a : arguments) (i : nat) : B string :=
  match nth i (args a) None with
  | Some s => ret s
  | None => fault_ UnsetArg
  end.

(** A file name scanned into a buffer of FNAME_SIZE characters; [None]
    when [sscanf] does not return 1. *)
Definition scan_name (s : string) : B (option string) :=
  match sscanf_s FNAME_SIZE s with
  | Word n => ret (Some n)
  | NoInput => ret None
  | TooLong => fault_ Overrun
  end.

(** Lines 202-206, to the first call that does not return 1. *)
Definition scan_arguments (a : arguments)
  : B (option (Z * string * string * string * string)) :=
  a0 <- arg a 0 ;;
  match sscanf_d a0 with
  | None => ret None
  | Some task_type =>
      a1 <- arg a 1 ;;
      p <- scan_name a1 ;;
      match p with
      | None => ret None
      | Some inp_programFile =>
          a2 <- arg a 2 ;;
          d <- scan_name a2 ;;
          match d with
          | None => ret None
          | Some inp_dataFile =>
              a3 <- arg a 3 ;;
              n <- scan_name a3 ;;
              match n with
              | None => ret None
              | Some inp_nodes =>
                  a4 <- arg a 4 ;;
                  o <- scan_name a4 ;;
                  match o with
                  | None => ret None
                  | Some out_dir =>
                      ret (Some (task_type, inp_programFile, inp_dataFile,
                                 inp_nodes, out_dir))
                  end
              end
          end
      end
  end.

(** Writing [s] and its final 0 into a buffer of FNAME_SIZE characters. *)
Definition fits (s : string) : B unit :=
  if Z.of_nat (String.length s) <? FNAME_SIZE then ret tt
  else fault_ Overrun.

(** Lines 226-238. *)
Definition node_info (a : arguments) (out_dir : string) : B unit :=
  if create_slave a =? 0 then ret tt
  else
    let nodeInfoFileName := (out_dir ++ "/node_info.txt")%string in
    fits nodeInfoFileName ;;
    emit (Fopen_w nodeInfoFileName) ;;
    if fopen_w w nodeInfoFileName then
      emit (Fprintf nodeInfoFileName ("# NODE CODENAMES" ++ newline))
    else
      emit (Stderr (ERROR_cannot_create_file nodeInfoFileName out_dir)) ;;
      exit_ E_OUTDIR.

(** [nodes[0]], ..., [nodes[nNodes - 1]] with their [nodeCores]. *)
Definition first_nodes (nNodes : Z) (l : list (string * Z))
  : B (list (string * Z)) :=
  if nNodes <=? Z.of_nat (List.length l)
  then ret (firstn (Z.to_nat nNodes) l)
  else fault_ OutOfRange.

Definition host_lines (l : list (string * Z)) : string :=
  String.concat EmptyString (map (fun n => fst n ++ newline)%string l).

(** Lines 261-272. *)
Definition hostfile (nNodes : Z) (l : list (string * Z)) : B unit :=
  match getcwd w with
  | None =>
      emit (Stderr ERROR_cannot_resolve_current_directory) ;; exit_ E_CWD
  | Some cwd =>
      emit (Fopen_w "hostfile") ;;
      if fopen_w w "hostfile" then
        emit (Fprintf "hostfile"
                ("* ep=" ++ cwd ++ " wd=" ++ cwd ++ newline)) ;;
        used <- first_nodes nNodes l ;;
        emit (Fprintf "hostfile" (host_lines used))
      else fault_ NullFile
  end.

(** Lines 312-315: [maxConcurrentTasks += nodeCores[i]]. *)
Fixpoint sum_cores (l : list (string * Z)) (acc : Z) : B Z :=
  match l with
  | [] => ret acc
  | node :: r =>
      let acc' := acc + snd node in
      if (INT_MIN <=? acc') && (acc' <=? INT_MAX) then sum_cores r acc'
      else fault_ IntOverflow
  end.

(** Lines 274-286. *)
Definition start_daemon : B Z :=
  match Master.start_pvmd 4 (pvm_start_pvmd w) 0 0 with
  | Some (evs, Master.Started start_status) =>
      (map Pvmd evs, Go start_status)
  | Some (evs, Master.Failed code) => (map Pvmd evs, Exit code)
  | None => fault_ Unbounded
  end.

(** Lines 287-308. *)
Definition enroll (out_dir : string) : B (Z * Z) :=
  let out_file := (out_dir ++ "/outfile.txt")%string in
  fits out_file ;;
  emit (Fopen_w out_file) ;;
  if fopen_w w out_file then
    emit PvmCatchout ;;
    emit PvmMytid ;;
    if pvm_mytid w <? 0 then
      emit PvmPerror ;; emit PvmHalt ;; exit_ E_PVM_MYTID
    else
      emit PvmParent ;;
      if (pvm_parent w <? 0) && negb (pvm_parent w =? PvmNoParent) then
        emit PvmPerror ;; emit PvmHalt ;; exit_ E_PVM_PARENT
      else ret (pvm_mytid w, pvm_parent w)
  else
    emit (Stderr (ERROR_cannot_open_output_file out_file)) ;;
    emit PvmHalt ;; exit_ E_OUTFILE_OPEN.

(** Lines 199-345. *)
Definition startup (a : arguments) : B variables :=
  (if kill a =? 0 then ret tt
   else emit KillPBala ;; exit_ (killPBala w)) ;;
  scanned <- scan_arguments a ;;
  match scanned with
  | None => emit (Stderr ERROR_reading_arguments) ;; exit_ E_ARGS
  | Some (task_type, inp_programFile, inp_dataFile, inp_nodes, out_dir) =>
      (if maple_single_cpu a =? 0 then ret tt
       else
         emit (MapleSingleCPU inp_programFile) ;;
         if mapleSingleCPU w inp_programFile =? 0 then ret tt
         else exit_ E_MPL) ;;
      (if negb (task_type =? 0) && negb (task_type =? 1)
          && negb (task_type =? 2) && negb (task_type =? 3)
          && negb (task_type =? 4) && negb (task_type =? 5)
       then emit (Stderr ERROR_wrong_task_type) ;; exit_ E_WRONG_TASK
       else ret tt) ;;
      node_info a out_dir ;;
      let nNodes := getLineCount w inp_nodes in
      (if nNodes =? -1 then
         emit (Stderr (ERROR_cannot_open_file inp_nodes)) ;;
         exit_ E_NODE_LINES
       else ret tt) ;;
      let '(err, l) := parseNodefile w inp_nodes nNodes in
      (if err =? 1 then
         emit (Stderr (ERROR_cannot_open_file inp_nodes)) ;;
         exit_ E_NODE_OPEN
       else if err =? 2 then
         emit (Stderr (ERROR_while_reading_node_file inp_nodes)) ;;
         exit_ E_NODE_READ
       else ret tt) ;;
      hostfile nNodes l ;;
      start_daemon ;;
      ids <- enroll out_dir ;;
      used <- first_nodes nNodes l ;;
      maxConcurrentTasks <- sum_cores used 0 ;;
      let nTasks := getLineCount w inp_dataFile in
      (if nTasks =? -1 then
         emit (Stderr (ERROR_cannot_open_data_file inp_dataFile)) ;;
         emit PvmHalt ;; exit_ E_DATAFILE_LINES
       else ret tt) ;;
      emit (Stdout (INFO_will_use inp_programFile inp_dataFile inp_nodes
                      out_dir)) ;;
      (if 0 <? nNodes then ret tt else fault_ OutOfRange) ;;
      emit (Stdout (INFO_will_create used nTasks maxConcurrentTasks)) ;;
      ret {| arguments_ := a; task_type := task_type;
             inp_programFile := inp_programFile;
             inp_dataFile := inp_dataFile; inp_nodes := inp_nodes;
             out_dir := out_dir; nodes := used;
             mytid := fst ids; myparent := snd ids;
             maxConcurrentTasks := maxConcurrentTasks; nTasks := nTasks |}
  end.

End Startup.

(** How often [pvm_start_pvmd] and [pvm_halt] are called. *)
Fixpoint daemon_starts (evs : list event) : nat :=
  match evs with
  | [] => O
  | Pvmd Master.StartPvmd :: r => S (daemon_starts r)
  | _ :: r => daemon_starts r
  end.

Fixpoint daemon_halts (evs : list event) : nat :=
  match evs with
  | [] => O
  | Pvmd Master.HaltPvmd :: r => S (daemon_halts r)
  | PvmHalt :: r => S (daemon_halts r)
  | _ :: r => daemon_halts r
  end.

(** An event that neither starts nor halts the daemon. *)
Definition quiet (e : event) : Prop :=
  match e with Pvmd _ | PvmHalt => False | _ => True end.

(** No daemon has been started. *)
Definition asleep (evs : list event) : Prop :=
  daemon_starts evs = O /\ daemon_halts evs = O.

(** Every daemon that was started has been halted, but the last one. *)
Definition running (evs : list event) : Prop :=
  daemon_starts evs = S (daemon_halts evs) /\ (daemon_starts evs <= 4)%nat.

(** Every daemon that was started has been halted. *)
Definition halted (evs : list event) : Prop :=
  daemon_starts evs = daemon_halts evs /\ (daemon_starts evs <= 4)%nat.

(** If [P] holds of the events before [m], then [Q] holds of the events
    after it when [m] goes on to the next statement, [X] when [main]
    returns, and [F] at a fault. *)
Definition hoare {A} (P : list event -> Prop) (m : B A)
  (Q : A -> list event -> Prop) (X : Z -> list event -> Prop)
  (F : fault -> list event -> Prop) : Prop :=
  forall pre, P pre ->
    match m with
    | (evs, Go a) => Q a (pre ++ evs)
    | (evs, Exit c) => X c (pre ++ evs)
    | (evs, Fault f) => F f (pre ++ evs)
    end.

End Boot.

(** A command line and a system to try the start of [main] on. *)
Module BootDemo.
Import Args Boot.

(** The sizes and codes of [Demo.headers]. *)
#[export] Instance headers : Headers := Demo.headers.

(** [PBala -e 1 ./prog data.txt nodes.txt out]. *)
Definition command_line : list (Z * string) :=
  [(chr "e", EmptyString); (ARGP_KEY_ARG, "1"); (ARGP_KEY_ARG, "./prog");
   (ARGP_KEY_ARG, "data.txt"); (ARGP_KEY_ARG, "nodes.txt");
   (ARGP_KEY_ARG, "out")].

(** [PBala -s 7 lib.mpl data.txt nodes.txt out]. *)
Definition wrong_type : list (Z * string) :=
  [(chr "s", EmptyString); (ARGP_KEY_ARG, "7"); (ARGP_KEY_ARG, "lib.mpl");
   (ARGP_KEY_ARG, "data.txt"); (ARGP_KEY_ARG, "nodes.txt");
   (ARGP_KEY_ARG, "out")].

Definition five (t p d n o : string) : arguments :=
  set_args [Some t; Some p; Some d; Some n; Some o] initial.

(** Two nodes, three tasks; the daemon answers a duplicate host once. *)
Definition system (data_lines : Z) : world := {|
  killPBala := 0;
  mapleSingleCPU := fun _ => 0;
  fopen_w := fun _ => true;
  getLineCount := fun f => if String.eqb f "nodes.txt" then 2 else data_lines;
  parseNodefile := fun _ _ => (0, [("a01", 2); ("a02", 4)]);
  getcwd := Some "/home/u";
  pvm_start_pvmd := fun k => match k with O => -28 | _ => 0 end;
  pvm_mytid := 262146;
  pvm_parent := -23
|}.

(** What [argp_parse] makes of the two command lines. *)
Definition accepted : arguments :=
  set_create_err 1 (five "1" "./prog" "data.txt" "nodes.txt" "out").

Definition with_maple : arguments :=
  set_maple_single_cpu 1 (five "7" "lib.mpl" "data.txt" "nodes.txt" "out").

(** The variables at line 346 for the first command line and three tasks. *)
Definition ready : variables := {|
  arguments_ := accepted; task_type := 1; inp_programFile := "./prog";
  inp_dataFile := "data.txt"; inp_nodes := "nodes.txt"; out_dir := "out";
  nodes := [("a01", 2); ("a02", 4)]; mytid := 262146; myparent := -23;
  maxConcurrentTasks := 6; nTasks := 3
|}.

(** A turn in which the worker has no memory for a task. *)
Definition no_memory : Worker.turn := {|
  Worker.memcheck_ret := 1; Worker.work_msg := [];
  Worker.fork_pid := 0;
  Worker.infop := {| Worker.si_code := 0; Worker.si_status := 0 |}
|}.

End BootDemo.

Import Master Trace.
#[local] Open Scope master_scope.

(** * Properties *)

(** ** Lines of the data file *)

Example task_of_line_plain :
  task_of_line ("12,3,4" ++ newline)%string = Task 12 "3,4".
Proof. reflexivity. Qed.

Example task_of_line_no_args :
  task_of_line ("5" ++ newline)%string = Task 5 "".
Proof. reflexivity. Qed.

Example task_of_line_text :
  task_of_line ("x,3,4" ++ newline)%string = NoTaskId.
Proof. reflexivity. Qed.

Example task_of_line_no_newline :
  task_of_line "3,a,b" = Task 3 "a,".
Proof. reflexivity. Qed.


(** *** Lines written the way [sprintf] writes the number *)

Section Canonical.

Lemma string_append_empty_r (a : string) : (a ++ EmptyString)%string = a.
Proof. induction a as [|c a IH]; cbn; [reflexivity | now rewrite IH]. Qed.

Lemma string_append_assoc (a b c : string) :
  ((a ++ b) ++ c)%string = (a ++ (b ++ c))%string.
Proof. induction a as [|x a IH]; cbn; [reflexivity | now rewrite IH]. Qed.

Lemma length_append (a b : string) :
  String.length (a ++ b) = (String.length a + String.length b)%nat.
Proof. induction a as [|x a IH]; cbn; [reflexivity | now rewrite IH]. Qed.

Lemma strip_last_newline (x : string) : strip_last (x ++ newline) = x.
Proof.
  induction x as [|c x IH]; [reflexivity|].
  cbn [append strip_last]. rewrite IH.
  destruct x; reflexivity.
Qed.

Lemma drop_append (a b : string) (k : nat) :
  drop (String.length a + k) (a ++ b) = drop k b.
Proof. induction a as [|c a IH]; [reflexivity | exact IH]. Qed.

Lemma digits_prefix_uint (u : uint) (t : string) :
  digits_prefix (NilEmpty.string_of_uint u ++ t)
  = (NilEmpty.string_of_uint u ++ digits_prefix t)%string.
Proof. induction u; cbn; rewrite ?IHu; reflexivity. Qed.

Lemma wrap32_small (z : Z) : INT_MIN <= z <= INT_MAX -> wrap32 (clamp64 z) = z.
Proof.
  unfold INT_MIN, INT_MAX, wrap32, clamp64. intros H.
  rewrite Z.min_r, Z.max_r by lia.
  rewrite Z.mod_small by lia. lia.
Qed.

(** The digits of [u], followed by something that is no digit. *)
Lemma digits_then (u : uint) (t : string) :
  u <> Nil ->
  digits_prefix t = EmptyString ->
  let s := (NilEmpty.string_of_uint u ++ t)%string in
  skip_space s = s
  /\ digits_prefix s = NilEmpty.string_of_uint u
  /\ NilEmpty.string_of_uint u <> EmptyString
  /\ (forall r, s <> String "-" r) /\ (forall r, s <> String "+" r).
Proof.
  intros Hu Ht s. subst s.
  rewrite digits_prefix_uint, Ht, string_append_empty_r.
  destruct u; try contradiction; cbn;
    (split; [reflexivity|]; split; [reflexivity|];
     split; [discriminate|]; split; intros r E; discriminate E).
Qed.

(** [sscanf] on a string that begins with neither white space nor sign. *)
Lemma sscanf_d_unsigned (s : string) :
  skip_space s = s ->
  (forall r, s <> String "-" r) ->
  (forall r, s <> String "+" r) ->
  sscanf_d s =
    match digits_prefix s with
    | EmptyString => None
    | ds =>
        match NilEmpty.uint_of_string ds with
        | Some u => Some (wrap32 (clamp64 (Z.of_N (N.of_uint u))))
        | None => None
        end
    end.
Proof.
  intros Hs Hm Hp. unfold sscanf_d. rewrite Hs.
  destruct s as [|c r]; [reflexivity|].
  destruct c as [[|] [|] [|] [|] [|] [|] [|] [|]]; try reflexivity;
    first [now elim (Hm r) | now elim (Hp r)].
Qed.

Lemma sscanf_d_digits (u : uint) (t : string) :
  u <> Nil ->
  digits_prefix t = EmptyString ->
  sscanf_d (NilEmpty.string_of_uint u ++ t)
  = Some (wrap32 (clamp64 (Z.of_N (N.of_uint u)))).
Proof.
  intros Hu Ht.
  destruct (digits_then u t Hu Ht) as (Hs & Hd & Hne & Hm & Hp).
  rewrite (sscanf_d_unsigned _ Hs Hm Hp), Hd.
  destruct (NilEmpty.string_of_uint u) as [|c r] eqn:Eu; [now elim Hne|].
  rewrite <- Eu, NilEmpty.usu. reflexivity.
Qed.

Lemma sscanf_d_minus_digits (u : uint) (t : string) :
  u <> Nil ->
  digits_prefix t = EmptyString ->
  sscanf_d (String "-" (NilEmpty.string_of_uint u ++ t))
  = Some (wrap32 (clamp64 (- Z.of_N (N.of_uint u)))).
Proof.
  intros Hu Ht.
  destruct (digits_then u t Hu Ht) as (Hs & Hd & Hne & Hm & Hp).
  unfold sscanf_d.
  change (skip_space (String "-" (NilEmpty.string_of_uint u ++ t)))
    with (String "-" (NilEmpty.string_of_uint u ++ t)).
  cbv beta iota. rewrite Hd.
  destruct (NilEmpty.string_of_uint u) as [|c r] eqn:Eu; [now elim Hne|].
  rewrite <- Eu, NilEmpty.usu. reflexivity.
Qed.

Lemma string_of_uint_nonnil (u : uint) :
  u <> Nil -> NilZero.string_of_uint u = NilEmpty.string_of_uint u.
Proof. destruct u; [contradiction | reflexivity ..]. Qed.

Lemma sscanf_d_sprintf_d (n : Z) (t : string) :
  INT_MIN <= n <= INT_MAX ->
  digits_prefix t = EmptyString ->
  sscanf_d (sprintf_d n ++ t) = Some n.
Proof.
  intros Hn Ht. unfold sprintf_d. destruct n as [|p|p]; cbn [Z.to_int].
  - unfold sscanf_d. cbn. now rewrite Ht.
  - pose proof (Unsigned.to_uint_nonnil p) as Hnn.
    cbn [NilZero.string_of_int].
    rewrite (string_of_uint_nonnil _ Hnn), sscanf_d_digits by assumption.
    unfold N.of_uint. rewrite Unsigned.of_to. cbn [Z.of_N].
    now rewrite wrap32_small.
  - pose proof (Unsigned.to_uint_nonnil p) as Hnn.
    cbn [NilZero.string_of_int].
    rewrite (string_of_uint_nonnil _ Hnn). cbn [append].
    rewrite sscanf_d_minus_digits by assumption.
    unfold N.of_uint. rewrite Unsigned.of_to. cbn [Z.of_N Z.opp].
    now rewrite wrap32_small.
Qed.

(** A line that is the number as [sprintf] writes it, a comma, the
    arguments and a newline gives the number and the arguments. *)
Lemma task_of_line_canonical (n : Z) (rest : string) :
  INT_MIN <= n <= INT_MAX ->
  task_of_line (sprintf_d n ++ "," ++ rest ++ newline) = Task n rest.
Proof.
  intros Hn. unfold task_of_line.
  rewrite sscanf_d_sprintf_d by (assumption || reflexivity).
  rewrite !length_append.
  destruct (Nat.leb_spec (String.length (sprintf_d n) + 1)
              (String.length (sprintf_d n)
               + (String.length "," + (String.length rest
                                       + String.length newline))));
    [|cbn in *; lia].
  f_equal.
  replace (sprintf_d n ++ "," ++ rest ++ newline)%string
    with ((sprintf_d n ++ "," ++ rest) ++ newline)%string
    by (now rewrite !string_append_assoc).
  rewrite strip_last_newline, drop_append. reflexivity.
Qed.

End Canonical.

(** ** The worker *)

Section WorkerFacts.
Context {K : Macros} {Hd : Headers}.

Lemma work_with_infop (info : Worker.siginfo) (ts : list Worker.turn) :
  forall v, Worker.work (map (Worker.with_infop info) ts) v = Worker.work ts v.
Proof.
  induction ts as [|t ts IH]; intros v; [reflexivity|].
  cbn [map Worker.work Worker.with_infop Worker.memcheck_ret Worker.work_msg
       Worker.fork_pid].
  destruct (Worker.memcheck_ret t =? 1); [now rewrite IH|].
  destruct (pvm_upkint (Worker.work_code v) (Worker.work_msg t)) as [c b1].
  destruct (c =? MSG_STOP); [reflexivity|].
  destruct (pvm_upkint (Worker.taskNumber v) b1) as [n b2].
  destruct (pvm_upkstr (Worker.inp_programFile v) b2) as [f b3].
  destruct (pvm_upkstr (Worker.out_dir v) b3) as [d b4].
  destruct (pvm_upkstr (Worker.arguments v) b4) as [a b5].
  destruct (Worker.fork_pid t <? 0); [reflexivity|].
  destruct (Worker.fork_pid t =? 0); [reflexivity|].
  now rewrite IH.
Qed.

#[local] Ltac three_ints_now :=
  split; [reflexivity|];
  unfold Worker.result_msg; do 3 eexists; split; [reflexivity | lia].

Lemma work_sends_three_ints (ts : list Worker.turn) :
  forall v, Forall Worker.three_ints (fst (Worker.work ts v)).
Proof.
  induction ts as [|t ts IH]; intros v; [constructor|].
  cbn [Worker.work].
  destruct (Worker.memcheck_ret t =? 1).
  - specialize (IH v). destruct (Worker.work ts v) as [evs e].
    cbn [fst] in *. apply Forall_cons; [exact I | exact IH].
  - destruct (pvm_upkint (Worker.work_code v) (Worker.work_msg t)) as [c b1].
    destruct (c =? MSG_STOP);
      [cbn [fst]; apply Forall_cons; [exact I | constructor]|].
    destruct (pvm_upkint (Worker.taskNumber v) b1) as [n b2].
    destruct (pvm_upkstr (Worker.inp_programFile v) b2) as [f b3].
    destruct (pvm_upkstr (Worker.out_dir v) b3) as [d b4].
    destruct (pvm_upkstr (Worker.arguments v) b4) as [a b5].
    destruct (Worker.fork_pid t <? 0).
    + cbn [fst].
      apply Forall_cons; [exact I|].
      apply Forall_cons; [three_ints_now|].
      apply Forall_cons; [exact I | constructor].
    + destruct (Worker.fork_pid t =? 0);
        [cbn [fst]; apply Forall_cons; [exact I | constructor]|].
      match goal with |- context [Worker.work ts ?v'] =>
        specialize (IH v'); destruct (Worker.work ts v') as [evs e] end.
      cbn [fst].
      do 3 (apply Forall_cons; [exact I|]).
      apply Forall_cons; [three_ints_now | exact IH].
Qed.

End WorkerFacts.

Section WorkerClaims.
Context {K : Macros} {Hd : Headers}.

(** The variables after the work message of a task has been unpacked. *)
Lemma work_task (v : Worker.vars) (t : Worker.turn) (ts : list Worker.turn)
  (code n : Z) (f d a : string) :
  Worker.work_msg t = [PkInt code; PkInt n; PkStr f; PkStr d; PkStr a] ->
  Worker.memcheck_ret t <> 1 ->
  code <> MSG_STOP ->
  let v' := {| Worker.me := Worker.me v; Worker.task_type := Worker.task_type v;
               Worker.max_task_size := Worker.max_task_size v;
               Worker.work_code := code; Worker.taskNumber := n;
               Worker.inp_programFile := f; Worker.out_dir := d;
               Worker.arguments := a |} in
  Worker.work (t :: ts) v =
    if Worker.fork_pid t <? 0 then
      ([Worker.Stderr_fork_failed n;
        Worker.Send MSG_RESULT (Worker.result_msg v' 1);
        Worker.PvmExit], Worker.Exit 1)
    else if Worker.fork_pid t =? 0 then
      ([Worker.InChild (Worker.child v')],
       if Worker.calls_program v' then Worker.Child else Worker.Undefined)
    else
      (Worker.Fork (Worker.child v') :: Worker.Waitid :: Worker.Prtusage n d
         :: Worker.Send MSG_RESULT (Worker.result_msg v' 0)
         :: fst (Worker.work ts v'),
       snd (Worker.work ts v')).
Proof.
  intros Hmsg Hmem Hcode v'.
  cbn [Worker.work]. rewrite Hmsg.
  destruct (Z.eqb_spec (Worker.memcheck_ret t) 1) as [E|_]; [contradiction|].
  cbn [pvm_upkint pvm_upkstr].
  destruct (Z.eqb_spec code MSG_STOP) as [E|_]; [contradiction|].
  fold v'.
  destruct (Worker.fork_pid t <? 0); [reflexivity|].
  destruct (Worker.fork_pid t =? 0); [reflexivity|].
  destruct (Worker.work ts v') as [evs e]. reflexivity.
Qed.

(** C1.  When the child of a task has been waited for, the worker sends the
    three integers slot, task number and 0: the state is 0 whatever [waitid]
    stored about the child's end, and no duration is in the message. *)
Theorem worker_reports_state_0_after_wait
  (v0 : Worker.vars) (g : buffer) (t : Worker.turn) (ts : list Worker.turn)
  (code n : Z) (f d a : string) :
  Worker.work_msg t = [PkInt code; PkInt n; PkStr f; PkStr d; PkStr a] ->
  Worker.memcheck_ret t <> 1 ->
  code <> MSG_STOP ->
  0 < Worker.fork_pid t ->
  (exists child rest,
     fst (Worker.main v0 g (t :: ts)) =
       Worker.Fork child :: Worker.Waitid :: Worker.Prtusage n d
         :: Worker.Send MSG_RESULT
              [PkInt (Worker.me (Worker.greet v0 g)); PkInt n; PkInt 0]
         :: rest)
  /\ (forall info,
        Worker.main v0 g (map (Worker.with_infop info) (t :: ts)) =
        Worker.main v0 g (t :: ts))
  /\ 0 <> ST_TASK_KILLED.
Proof.
  intros Hmsg Hmem Hcode Hpid. split; [|split].
  - unfold Worker.main. rewrite (work_task _ _ _ _ _ _ _ _ Hmsg Hmem Hcode).
    destruct (Z.ltb_spec (Worker.fork_pid t) 0) as [E|_]; [lia|].
    destruct (Z.eqb_spec (Worker.fork_pid t) 0) as [E|_]; [lia|].
    cbn [fst Worker.result_msg Worker.me Worker.taskNumber]. eauto.
  - intros info. unfold Worker.main. apply work_with_infop.
  - discriminate.
Qed.

(** C4.  Every message the worker sends is a result of three integers:
    slot, task number and a state that is 0 or 1.  No string and no double
    is packed into it. *)
Theorem worker_results_are_three_ints
  (v0 : Worker.vars) (g : buffer) (ts : list Worker.turn) :
  Forall Worker.three_ints (fst (Worker.main v0 g ts)).
Proof. unfold Worker.main. apply work_sends_three_ints. Qed.

(** C5.  When the fork fails the worker writes a line to stderr, sends the
    three integers slot, task number and 1, and exits with code 1: the
    state is not [ST_FORK_ERR] and the arguments are not in the message. *)
Theorem worker_fork_failure_sends_state_1
  (v0 : Worker.vars) (g : buffer) (t : Worker.turn) (ts : list Worker.turn)
  (code n : Z) (f d a : string) :
  Worker.work_msg t = [PkInt code; PkInt n; PkStr f; PkStr d; PkStr a] ->
  Worker.memcheck_ret t <> 1 ->
  code <> MSG_STOP ->
  Worker.fork_pid t < 0 ->
  Worker.main v0 g (t :: ts) =
    ([Worker.Stderr_fork_failed n;
      Worker.Send MSG_RESULT
        [PkInt (Worker.me (Worker.greet v0 g)); PkInt n; PkInt 1];
      Worker.PvmExit], Worker.Exit 1)
  /\ 1 <> ST_FORK_ERR.
Proof.
  intros Hmsg Hmem Hcode Hpid. split; [|discriminate].
  unfold Worker.main. rewrite (work_task _ _ _ _ _ _ _ _ Hmsg Hmem Hcode).
  destruct (Z.ltb_spec (Worker.fork_pid t) 0) as [_|E]; [reflexivity | lia].
Qed.

Lemma greet_with_flags (cfg : setup) (e m c : Z) (p : string) (slot : Z)
  (v0 : Worker.vars) :
  Worker.greet v0 (greeting_msg (with_flags cfg e m c p) slot) =
  Worker.greet v0 (greeting_msg cfg slot).
Proof. reflexivity. Qed.

(** C10.  The child of every task opens <out_dir>/<task>_err.txt with
    O_WRONLY|O_CREAT and mode 0666 and makes it file descriptor 2; and the
    worker does the same whatever the master packed into the greeting for
    create_err, create_mem, custom_path and the program path. *)
Theorem worker_ignores_greeting_flags
  (cfg : setup) (slot : Z) (v0 : Worker.vars)
  (t : Worker.turn) (ts : list Worker.turn)
  (code n : Z) (f d a : string) :
  Worker.work_msg t = [PkInt code; PkInt n; PkStr f; PkStr d; PkStr a] ->
  Worker.memcheck_ret t <> 1 ->
  code <> MSG_STOP ->
  0 < Worker.fork_pid t ->
  (exists child rest,
     fst (Worker.main v0 (greeting_msg cfg slot) (t :: ts)) =
       Worker.Fork child :: rest
     /\ nth_error child 3 =
          Some (Worker.COpen (d ++ "/" ++ sprintf_d n ++ "_err.txt")%string
                  ["O_WRONLY"; "O_CREAT"] Worker.mode_0666)
     /\ nth_error child 4 = Some (Worker.CDup2 2))
  /\ (forall e m c p ts',
        Worker.main v0 (greeting_msg (with_flags cfg e m c p) slot) ts' =
        Worker.main v0 (greeting_msg cfg slot) ts').
Proof.
  intros Hmsg Hmem Hcode Hpid. split.
  - unfold Worker.main. rewrite (work_task _ _ _ _ _ _ _ _ Hmsg Hmem Hcode).
    destruct (Z.ltb_spec (Worker.fork_pid t) 0) as [E|_]; [lia|].
    destruct (Z.eqb_spec (Worker.fork_pid t) 0) as [E|_]; [lia|].
    cbn [fst]. do 2 eexists. split; [reflexivity|]. split; reflexivity.
  - intros e m c p ts'. unfold Worker.main. now rewrite greet_with_flags.
Qed.

End WorkerClaims.

(** ** The master: start of the daemon *)

Section StartFacts.
Context {K : Macros}.

(** C8.  The daemon is started once and, as long as the start reports a
    duplicate host, halted, its files in /tmp removed and started again, three
    more times at most; only when the fourth start reports a duplicate
    host too does [main] return [E_PVM_DUP]. *)
Theorem start_pvmd_retries (answer : nat -> Z) (fuel : nat) :
  (4 <= fuel)%nat ->
  let dups := leading_dups answer 0 4 in
  exists evs r,
    start_pvmd fuel answer 0 0 = Some (evs, r)
    /\ evs = List.concat (repeat [StartPvmd; HaltPvmd; RemoveTmp] dups)
              ++ (if (dups <? 4)%nat then [StartPvmd] else [])
    /\ r = (if (dups <? 4)%nat then Started (answer dups)
            else Failed E_PVM_DUP)
    /\ (starts evs - 1 <= 3)%nat
    /\ (forall code, r = Failed code ->
          code = E_PVM_DUP /\ starts evs = 4%nat /\
          forall k, (k < 4)%nat -> answer k = PvmDupHost).
Proof.
  intros Hfuel dups. subst dups.
  do 4 (destruct fuel as [|fuel]; [lia|]).
  cbn [start_pvmd leading_dups].
  destruct (Z.eqb_spec (answer 0%nat) PvmDupHost) as [E0|N0];
    [|do 2 eexists; repeat split; try reflexivity; cbn; try lia; discriminate].
  destruct (Z.eqb_spec (answer 1%nat) PvmDupHost) as [E1|N1];
    [|do 2 eexists; repeat split; try reflexivity; cbn; try lia; discriminate].
  destruct (Z.eqb_spec (answer 2%nat) PvmDupHost) as [E2|N2];
    [|do 2 eexists; repeat split; try reflexivity; cbn; try lia; discriminate].
  destruct (Z.eqb_spec (answer 3%nat) PvmDupHost) as [E3|N3];
    [|do 2 eexists; repeat split; try reflexivity; cbn; try lia; discriminate].
  do 2 eexists. split; [reflexivity|]. split; [reflexivity|].
  split; [reflexivity|]. split; [cbn; lia|].
  intros code [= <-]. split; [reflexivity|]. split; [reflexivity|].
  intros k Hk.
  destruct k as [|[|[|[|k]]]]; try assumption; lia.
Qed.

End StartFacts.

(** ** The master: results *)

Section ResultFacts.
Context {K : Macros}.

Lemma classify_completed (s : state) :
  status s <> ST_MEM_ERR ->
  status s <> ST_FORK_ERR ->
  status s <> ST_TASK_KILLED ->
  classify s =
    ([Stdout (TASK_COMPLETED (taskNumber s) (exec_time (unpack_exec_time s)))],
     Next tt, unpack_exec_time s).
Proof.
  intros Hm Hf Hk. unfold classify, bind, get, emit, modify.
  destruct (Z.eqb_spec (status s) ST_MEM_ERR) as [E|_]; [contradiction|].
  destruct (Z.eqb_spec (status s) ST_FORK_ERR) as [E|_]; [contradiction|].
  destruct (Z.eqb_spec (status s) ST_TASK_KILLED) as [E|_]; [contradiction|].
  unfold unpack_exec_time.
  destruct (pvm_upkdouble (exec_time s) (rbuf s)) as [d b]. reflexivity.
Qed.

(** C9.  A result whose status is none of [ST_MEM_ERR], [ST_FORK_ERR] and
    [ST_TASK_KILLED] makes the master unpack a double into [exec_time] and
    print TASK_COMPLETED; unfinished_tasks.txt is left as it is.  The result
    the worker sends when its fork fails has status 1 and is treated so
    (when [ST_MEM_ERR] is not 1 as well). *)
Theorem completed_branch_takes_other_statuses
  (s s2 : state) (v : Worker.vars) (rest : list buffer) :
  status s <> ST_MEM_ERR ->
  status s <> ST_FORK_ERR ->
  status s <> ST_TASK_KILLED ->
  inbox s2 = Worker.result_msg v 1 :: rest ->
  ST_MEM_ERR <> 1 ->
  (classify s =
     ([Stdout (TASK_COMPLETED (taskNumber s)
                 (fst (pvm_upkdouble (exec_time s) (rbuf s))))],
      Next tt, unpack_exec_time s)
   /\ rbuf (unpack_exec_time s) = snd (pvm_upkdouble (exec_time s) (rbuf s))
   /\ unfinishedTasks (unpack_exec_time s) = unfinishedTasks s
   /\ unfinished_tasks_present (unpack_exec_time s)
      = unfinished_tasks_present s)
  /\ exists s3,
       receive s2 =
         ([PvmRecv {| r_itid := Worker.me v;
                      r_taskNumber := Worker.taskNumber v;
                      r_status := 1; r_aux_str := aux_str s2 |};
           Stdout (TASK_COMPLETED (Worker.taskNumber v) (exec_time s2))],
          Next tt, s3)
       /\ unfinishedTasks s3 = unfinishedTasks s2
       /\ unfinished_tasks_present s3 = unfinished_tasks_present s2.
Proof.
  intros Hm Hf Hk Hin H1. split.
  - rewrite (classify_completed s Hm Hf Hk). unfold unpack_exec_time.
    destruct (pvm_upkdouble (exec_time s) (rbuf s)) as [d b].
    repeat split.
  - unfold receive, bind, recv_result. rewrite Hin.
    unfold Worker.result_msg, unpack_result. cbn [pvm_upkint pvm_upkstr].
    rewrite classify_completed; cbn [status]; try (intros E; discriminate E).
    + eexists. split; [reflexivity|]. split; reflexivity.
    + congruence.
Qed.

End ResultFacts.

(** ** The master: statements and what they keep *)

Section Monad.
Context {K : Macros}.

Lemma bind_Next {A B} (m : M A) (k : A -> M B) s evs b s' :
  bind m k s = (evs, Next b, s') ->
  exists e1 a s1 e2,
    m s = (e1, Next a, s1) /\ k a s1 = (e2, Next b, s') /\ evs = e1 ++ e2.
Proof.
  unfold bind. destruct (m s) as [[e1 o] s1].
  destruct o as [a| | |]; try discriminate.
  destruct (k a s1) as [[e2 o2] s2] eqn:Ek.
  intros [= <- -> <-]. exists e1, a, s1, e2. auto.
Qed.

Lemma results_app (l1 l2 : list event) :
  results (l1 ++ l2) = results l1 ++ results l2.
Proof.
  induction l1 as [|e l1 IH]; [reflexivity|].
  destruct e; simpl; rewrite ?IH; reflexivity.
Qed.

Section Triples.
Variable X : list event -> state -> option Z -> Prop.

Lemma triple_ret {A} (a : A) P : triple P (ret a) P X.
Proof. intros pre s evs o s' HP [= <- <- <-]. now rewrite app_nil_r. Qed.

Lemma triple_get {A} (f : state -> A) P : triple P (get f) P X.
Proof. intros pre s evs o s' HP [= <- <- <-]. now rewrite app_nil_r. Qed.

Lemma triple_undefined {A} P Q :
  (forall pre s, P pre s -> X pre s None) -> triple P (@undefined A) Q X.
Proof.
  intros H pre s evs o s' HP [= <- <- <-]. rewrite app_nil_r. now apply H.
Qed.

Lemma triple_return {A} (c : Z) P Q :
  (forall pre s, P pre s -> X pre s (Some c)) -> triple P (@return_ A c) Q X.
Proof.
  intros H pre s evs o s' HP [= <- <- <-]. rewrite app_nil_r. now apply H.
Qed.

Lemma triple_emit (e : event) P Q :
  (forall pre s, P pre s -> Q (pre ++ [e]) s) -> triple P (emit e) Q X.
Proof. intros H pre s evs o s' HP [= <- <- <-]. now apply H. Qed.

Lemma triple_modify (f : state -> state) P Q :
  (forall pre s, P pre s -> Q pre (f s)) -> triple P (modify f) Q X.
Proof.
  intros H pre s evs o s' HP [= <- <- <-]. rewrite app_nil_r. now apply H.
Qed.

Lemma triple_bind {A B} (m : M A) (k : A -> M B) P Q U :
  triple P m Q X -> (forall a, triple Q (k a) U X) -> triple P (bind m k) U X.
Proof.
  intros Hm Hk pre s evs o s' HP. unfold bind.
  destruct (m s) as [[e1 o1] s1] eqn:Em.
  pose proof (Hm pre s e1 o1 s1 HP Em) as H1.
  destruct o1 as [a|c| |].
  - destruct (k a s1) as [[e2 o2] s2] eqn:Ek. intros [= <- <- <-].
    rewrite app_assoc. exact (Hk a _ _ _ _ _ H1 Ek).
  - now intros [= <- <- <-].
  - now intros [= <- <- <-].
  - now intros [= <- <- <-].
Qed.

Lemma triple_for (body : Z -> M unit) (n : nat) P :
  (forall i, triple P (body i) P X) ->
  forall from, triple P (for_ n from body) P X.
Proof.
  intros Hb. induction n as [|n IH]; intros from; cbn [for_].
  - apply triple_ret.
  - eapply triple_bind; [apply Hb | intros _; apply IH].
Qed.

Lemma triple_times (body : M unit) (n : nat) P :
  triple P body P X -> triple P (times n body) P X.
Proof.
  intros Hb. induction n as [|n IH]; cbn [times].
  - apply triple_ret.
  - eapply triple_bind; [apply Hb | intros _; apply IH].
Qed.

End Triples.

End Monad.

(** ** The master: unfinished_tasks.txt *)

Section Stable.
Context {K : Macros}.
Variable cfg : setup.
Variable X : list event -> state -> option Z -> Prop.
Variable R : list event -> state -> Prop.
Hypothesis R_silent :
  forall pre s e, silent e -> R pre s -> R (pre ++ [e]) s.
Hypothesis R_state :
  forall pre s s2,
    unfinishedTasks s2 = unfinishedTasks s ->
    unfinished_tasks_present s2 = unfinished_tasks_present s ->
    R pre s -> R pre s2.
Hypothesis R_exit : forall pre s, R pre s -> X pre s None.
Hypothesis R_early :
  forall pre s c, early_exit c -> R pre s -> X pre s (Some c).

#[local] Ltac quiet :=
  first
    [ apply triple_ret
    | apply triple_get
    | apply triple_emit; intros; apply R_silent; [exact I | assumption]
    | apply triple_modify; intros; eapply R_state; [| |eassumption]; reflexivity
    | apply triple_undefined; assumption
    | apply triple_return; intros; eapply R_early; [|eassumption];
      unfold early_exit; tauto ].

Lemma triple_taskId (i : Z) : triple R (taskId cfg i) R X.
Proof. unfold taskId. destruct (_ && _); quiet. Qed.

Lemma triple_spawn_one (host : string) : triple R (spawn_one cfg host) R X.
Proof.
  unfold spawn_one.
  eapply triple_bind; [quiet | intros i].
  eapply triple_bind; [apply triple_taskId | intros slot].
  eapply triple_bind; [quiet | intros _].
  destruct (_ =? 1); repeat (eapply triple_bind; [quiet | intros _]); quiet.
Qed.

Lemma triple_spawn_all (l : list (string * Z)) :
  triple R (spawn_all cfg l) R X.
Proof.
  induction l as [|[host cores] l IH]; cbn [spawn_all]; [quiet|].
  eapply triple_bind; [|intros _; exact IH].
  apply triple_times, triple_spawn_one.
Qed.

Lemma triple_fgets : triple R fgets R X.
Proof.
  intros pre s evs o s' HR. unfold fgets.
  destruct (f_data s) as [|b l]; intros [= <- <- <-]; rewrite app_nil_r;
    [assumption|].
  eapply R_state; [| |eassumption]; reflexivity.
Qed.

Lemma triple_write_script (n : Z) (a : string) :
  triple R (write_script cfg n a) R X.
Proof.
  unfold write_script. destruct (_ || _); [|quiet].
  eapply triple_bind; [quiet | intros _].
  destruct (_ =? -1); quiet.
Qed.

Lemma triple_send_task (slot n : Z) (a : string) :
  triple R (send_task cfg slot n a) R X.
Proof.
  unfold send_task.
  eapply triple_bind; [quiet | intros _].
  eapply triple_bind; [apply triple_write_script | intros _].
  eapply triple_bind; [apply triple_taskId | intros t].
  eapply triple_bind; [quiet | intros _]. quiet.
Qed.

Lemma triple_dispatch (slot : Z) (buffer : string) :
  triple R (dispatch cfg slot buffer) R X.
Proof.
  unfold dispatch. destruct (task_of_line buffer) as [|n|n a].
  - repeat (eapply triple_bind; [quiet | intros _]); quiet.
  - eapply triple_bind; [quiet | intros _].
    eapply triple_bind; [quiet | intros [a|]];
      [apply triple_send_task | quiet].
  - eapply triple_bind; [quiet | intros _]. apply triple_send_task.
Qed.

Lemma triple_first_batch : triple R (first_batch cfg) R X.
Proof.
  unfold first_batch. apply triple_for. intros i.
  eapply triple_bind; [apply triple_fgets | intros [buffer|]].
  - apply triple_dispatch.
  - quiet.
Qed.

End Stable.

Section Unfinished.
Context {K : Macros}.

Lemma unfinished_lines_app (l1 l2 : list result) :
  unfinished_lines (l1 ++ l2)
  = (unfinished_lines l1 ++ unfinished_lines l2)%string.
Proof.
  induction l1 as [|r l1 IH]; [reflexivity|].
  change (unfinished_lines ((r :: l1) ++ l2))
    with (unfinished_line (r_taskNumber r) (r_aux_str r)
          ++ unfinished_lines (l1 ++ l2))%string.
  rewrite IH. symmetry. apply string_append_assoc.
Qed.

Lemma results_silent (pre : list event) (e : event) :
  silent e -> results (pre ++ [e]) = results pre.
Proof.
  intros He. rewrite results_app.
  destruct e; cbn in *; try contradiction; apply app_nil_r.
Qed.

Lemma untouched_silent file0 pre s e :
  silent e -> untouched file0 pre s -> untouched file0 (pre ++ [e]) s.
Proof. intros He [H1 H2]. split; [now rewrite results_silent | assumption]. Qed.

Lemma untouched_state file0 pre s s2 :
  unfinishedTasks s2 = unfinishedTasks s ->
  unfinished_tasks_present s2 = unfinished_tasks_present s ->
  untouched file0 pre s -> untouched file0 pre s2.
Proof. intros E _ [H1 H2]. split; [assumption | congruence]. Qed.

Lemma untouched_exit file0 pre s :
  untouched file0 pre s -> listed_at_exit file0 pre s None.
Proof.
  intros [H1 H2] [->|[E _]]; [|discriminate].
  now rewrite H2, H1.
Qed.

Lemma untouched_early file0 pre s c :
  early_exit c -> untouched file0 pre s -> listed_at_exit file0 pre s (Some c).
Proof.
  intros Hc [H1 H2] [->|[[= ->] E]].
  - now rewrite H2, H1.
  - destruct Hc as [Hc|[Hc|Hc]]; try discriminate Hc. now elim E.
Qed.

Lemma listed_silent pre s e : silent e -> listed pre s -> listed (pre ++ [e]) s.
Proof. intros He H. unfold listed. now rewrite results_silent. Qed.

Lemma listed_state pre s s2 :
  unfinishedTasks s2 = unfinishedTasks s ->
  unfinished_tasks_present s2 = unfinished_tasks_present s ->
  listed pre s -> listed pre s2.
Proof. intros E1 E2 [H1 H2]. unfold listed. rewrite E1, E2. now split. Qed.

Lemma listed_exit file0 pre s code :
  listed pre s -> listed_at_exit file0 pre s code.
Proof. intros [H1 _] _. exact H1. Qed.

Lemma unpack_result_file b rest s :
  unfinishedTasks (unpack_result b rest s) = unfinishedTasks s
  /\ unfinished_tasks_present (unpack_result b rest s)
     = unfinished_tasks_present s.
Proof.
  unfold unpack_result.
  destruct (pvm_upkint (itid s) b) as [i b1].
  destruct (pvm_upkint (taskNumber s) b1) as [n b2].
  destruct (pvm_upkint (status s) b2) as [st b3].
  destruct (pvm_upkstr (aux_str s) b3) as [a b4]. split; reflexivity.
Qed.

Lemma unpack_exec_time_fields s :
  unfinishedTasks (unpack_exec_time s) = unfinishedTasks s
  /\ unfinished_tasks_present (unpack_exec_time s) = unfinished_tasks_present s
  /\ taskNumber (unpack_exec_time s) = taskNumber s
  /\ aux_str (unpack_exec_time s) = aux_str s
  /\ itid (unpack_exec_time s) = itid s
  /\ status (unpack_exec_time s) = status s.
Proof.
  unfold unpack_exec_time.
  destruct (pvm_upkdouble (exec_time s) (rbuf s)) as [d b]. repeat split.
Qed.

(** The result [r] has just been received in state [s]. *)
Lemma listed_received pre s r :
  listed pre s ->
  not_ok r = true ->
  listed (pre ++ [PvmRecv r])
    (set_unfinished 1
       (Some (content (unfinishedTasks s)
              ++ unfinished_line (r_taskNumber r) (r_aux_str r))%string) s).
Proof.
  intros [H1 H2] Hr. unfold listed.
  rewrite results_app. cbn [results]. rewrite filter_app. cbn [filter].
  rewrite Hr, unfinished_lines_app. cbn [unfinished_lines set_unfinished
    unfinishedTasks unfinished_tasks_present content].
  rewrite string_append_empty_r, H1. split; [reflexivity | discriminate].
Qed.

Lemma listed_completed pre s r :
  listed pre s -> not_ok r = false -> listed (pre ++ [PvmRecv r]) s.
Proof.
  intros [H1 H2] Hr. unfold listed.
  rewrite results_app. cbn [results]. rewrite filter_app. cbn [filter].
  rewrite Hr, app_nil_r. now split.
Qed.

End Unfinished.

Section Listing.
Context {K : Macros}.
Variable cfg : setup.
Variable file0 : option string.

#[local] Ltac quiet_listed :=
  first
    [ apply triple_ret
    | apply triple_get
    | apply triple_emit; intros; apply listed_silent; [exact I | assumption]
    | apply triple_modify; intros; eapply listed_state; [| |eassumption];
      reflexivity ].

#[local] Ltac listed_side :=
  intros;
  first [ now apply listed_silent
        | eapply listed_state; eassumption
        | now apply listed_exit ].

#[local] Ltac untouched_side :=
  intros;
  first [ now apply untouched_silent
        | eapply untouched_state; eassumption
        | now apply untouched_exit
        | now apply untouched_early ].

Lemma app_two {A} (pre : list A) (a b : A) :
  pre ++ [a; b] = (pre ++ [a]) ++ [b].
Proof. now rewrite <- app_assoc. Qed.

Lemma triple_receive : triple listed receive listed (listed_at_exit file0).
Proof.
  intros pre s evs o s' HR. unfold receive, bind, recv_result.
  destruct (inbox s) as [|b rest].
  { intros [= <- <- <-]. rewrite app_nil_r. now apply listed_exit. }
  destruct (unpack_result_file b rest s) as [Ef Ep].
  set (s1 := unpack_result b rest s) in *.
  set (r := {| r_itid := itid s1; r_taskNumber := taskNumber s1;
               r_status := status s1; r_aux_str := aux_str s1 |}).
  assert (HR1 : listed pre s1) by (eapply listed_state; eassumption).
  unfold classify, bind, get, emit, modify, append_unfinished.
  destruct (status s1 =? ST_MEM_ERR) eqn:Em.
  { intros [= <- <- <-]. cbn [List.app].
    rewrite app_two.
    apply listed_silent; [exact I|].
    apply (listed_received pre s1 r HR1).
    unfold not_ok. cbn [r_status r]. now rewrite Em. }
  destruct (status s1 =? ST_FORK_ERR) eqn:Ef'.
  { intros [= <- <- <-]. cbn [List.app].
    rewrite app_two.
    apply listed_silent; [exact I|].
    apply (listed_received pre s1 r HR1).
    unfold not_ok. cbn [r_status r]. now rewrite Ef', orb_true_r. }
  destruct (unpack_exec_time_fields s1) as (F1 & F2 & F3 & F4 & F5 & F6).
  destruct (status s1 =? ST_TASK_KILLED) eqn:Ek.
  { intros [= <- <- <-]. cbn [List.app].
    rewrite app_two.
    apply listed_silent; [exact I|].
    rewrite F1, F3, F4.
    eapply listed_state;
      [| |apply (listed_received pre s1 r HR1);
           unfold not_ok; cbn [r_status r]; now rewrite Ek, orb_true_r];
      reflexivity. }
  intros [= <- <- <-]. cbn [List.app].
  rewrite app_two.
  apply listed_silent; [exact I|].
  eapply listed_state; [exact F1 | exact F2 |].
  apply listed_completed; [assumption|].
  unfold not_ok. cbn [r_status r]. now rewrite Em, Ef', Ek.
Qed.

Lemma triple_steady : triple listed (steady cfg) listed (listed_at_exit file0).
Proof.
  unfold steady. destruct (_ >? _); [|apply triple_ret].
  apply triple_for. intros _.
  eapply triple_bind; [apply triple_receive | intros _].
  eapply triple_bind;
    [apply triple_fgets; listed_side | intros [buffer|]]; [|apply triple_ret].
  eapply triple_bind; [apply triple_get | intros i].
  apply triple_dispatch; listed_side.
Qed.

Lemma triple_drain : triple listed (drain cfg) listed (listed_at_exit file0).
Proof.
  unfold drain. apply triple_for. intros _.
  eapply triple_bind; [apply triple_receive | intros _].
  eapply triple_bind.
  { apply triple_modify. intros pre s H. unfold unpack_total_time.
    destruct (pvm_upkdouble (total_time s) (rbuf s)) as [d b].
    eapply listed_state; [| |eassumption]; reflexivity. }
  intros _.
  eapply triple_bind; [apply triple_get | intros i].
  eapply triple_bind; [apply triple_taskId; listed_side | intros t].
  repeat (eapply triple_bind; [quiet_listed | intros ?]). quiet_listed.
Qed.

Lemma listed_silents pre s l :
  Forall silent l -> listed pre s -> listed (pre ++ l) s.
Proof.
  intros Hl. revert pre. induction Hl as [|e l He _ IH]; intros pre H.
  - now rewrite app_nil_r.
  - change (e :: l) with ([e] ++ l). rewrite app_assoc.
    apply IH. now apply listed_silent.
Qed.

Lemma triple_finish : triple listed (finish cfg) listed (listed_at_exit file0).
Proof.
  unfold finish.
  eapply triple_bind; [quiet_listed | intros t].
  eapply triple_bind; [quiet_listed | intros _].
  eapply triple_bind.
  { destruct (_ =? 0); [quiet_listed|].
    eapply triple_bind; [quiet_listed | intros _].
    destruct (_ =? 0); quiet_listed. }
  intros _.
  eapply triple_bind; [destruct (_ || _); quiet_listed | intros _].
  intros pre s evs o s' [H1 H2]. unfold bind, get, modify, emit, ret.
  destruct (Z.eqb_spec (unfinished_tasks_present s) 0) as [E|N];
    [destruct (rm_removes cfg); destruct (rm_ret cfg =? 0)|];
    intros [= <- <- <-]; cbn [List.app];
    (apply listed_silents; [repeat constructor|]);
    try (now split).
  all: unfold listed; cbn [set_unfinished unfinishedTasks content
         unfinished_tasks_present];
       rewrite (H2 E); split; [reflexivity | auto].
Qed.

Lemma triple_main :
  triple (untouched file0) (main cfg) listed (listed_at_exit file0).
Proof.
  unfold main, schedule.
  eapply triple_bind.
  { eapply triple_bind.
    { apply triple_modify. intros pre s H.
      eapply untouched_state; [| |eassumption]; reflexivity. }
    intros _. eapply triple_bind.
    { apply triple_spawn_all; untouched_side. }
    intros _. eapply triple_bind.
    { apply triple_first_batch; untouched_side. }
    intros _. eapply triple_bind.
    { apply triple_modify with (Q := listed). intros pre s [H1 H2].
      unfold listed. cbn [set_unfinished unfinishedTasks content
        unfinished_tasks_present]. rewrite H1. split; reflexivity. }
    intros _. eapply triple_bind; [apply triple_steady | intros _].
    apply triple_drain. }
  intros _. eapply triple_bind; [apply triple_finish | intros _].
  apply triple_return. intros pre s H. now apply listed_exit.
Qed.

End Listing.

(** ** The master: the messages of a run that goes on to its end *)

Section Shape.
Context {K : Macros}.
Variable cfg : setup.

Lemma comm_app (l1 l2 : list event) : comm (l1 ++ l2) = comm l1 ++ comm l2.
Proof.
  induction l1 as [|e l1 IH]; [reflexivity|].
  destruct e; simpl; rewrite ?IH; reflexivity.
Qed.

Lemma set_itid_same (s : state) : set_itid (itid s) s = s.
Proof. now destruct s. Qed.

Lemma set_itid_twice (i j : Z) (s : state) :
  set_itid i (set_itid j s) = set_itid i s.
Proof. reflexivity. Qed.

#[local] Ltac split_bind H :=
  let e1 := fresh "e" in let a := fresh "a" in let s1 := fresh "s" in
  let e2 := fresh "e" in let H1 := fresh "H" in
  apply bind_Next in H; destruct H as (e1 & a & s1 & e2 & H1 & H & ->);
  try (match type of a with unit => destruct a end).

#[local] Ltac prim H :=
  cbv [get emit modify ret] in H;
  first [ injection H as <- <- <- | injection H as <- <- ].

Lemma taskId_Next (i : Z) s evs t s' :
  taskId cfg i s = (evs, Next t, s') ->
  evs = [] /\ t = i /\ s' = s /\ 0 <= i < maxConcurrentTasks cfg.
Proof.
  unfold taskId.
  destruct (Z.leb_spec 0 i); destruct (Z.ltb_spec i (maxConcurrentTasks cfg));
    cbn [andb]; intros [= <- <- <-]; repeat split; lia.
Qed.

Lemma spawn_one_Next (host : string) s evs s' :
  spawn_one cfg host s = (evs, Next tt, s') ->
  comm evs = [greets cfg (itid s)]
  /\ s' = set_itid (itid s + 1) s
  /\ 0 <= itid s < maxConcurrentTasks cfg.
Proof.
  unfold spawn_one. intros H.
  split_bind H. prim H0.
  split_bind H. apply taskId_Next in H0 as (-> & -> & -> & Hi).
  split_bind H. prim H0.
  destruct (spawn_numt cfg (itid s) =? 1).
  - split_bind H. prim H0.
    split_bind H. prim H0.
    prim H. auto.
  - split_bind H. split_bind H. discriminate H.
Qed.

Lemma spawn_times_Next (host : string) (n : nat) :
  forall s evs s',
    times n (spawn_one cfg host) s = (evs, Next tt, s') ->
    comm evs = map (greets cfg) (zseq (itid s) n)
    /\ s' = set_itid (itid s + Z.of_nat n) s
    /\ (n <> O -> 0 <= itid s /\ itid s + Z.of_nat n <= maxConcurrentTasks cfg).
Proof.
  induction n as [|n IH]; intros s evs s' H; cbn [times] in H.
  - prim H. cbn [Z.of_nat]. rewrite Z.add_0_r, set_itid_same.
    repeat split; congruence.
  - split_bind H.
    apply spawn_one_Next in H0 as (Hc & -> & Hi).
    apply IH in H as (Hc2 & -> & Hb).
    cbn [itid set_itid] in Hc2, Hb.
    rewrite comm_app, Hc, Hc2. cbn [itid set_itid zseq map List.app].
    rewrite set_itid_twice. split; [reflexivity|].
    split; [f_equal; lia|]. intros _.
    destruct n as [|n]; [lia|].
    destruct Hb as [H1 H2]; [discriminate|]. lia.
Qed.

Lemma zseq_app (from : Z) (n m : nat) :
  zseq from (n + m) = zseq from n ++ zseq (from + Z.of_nat n) m.
Proof.
  revert from. induction n as [|n IH]; intros from.
  - cbn. now rewrite Z.add_0_r.
  - cbn [Nat.add zseq List.app]. rewrite IH.
    replace (from + 1 + Z.of_nat n) with (from + Z.of_nat (S n)) by lia.
    reflexivity.
Qed.

Lemma spawn_all_Next (l : list (string * Z)) :
  forall s evs s',
    spawn_all cfg l s = (evs, Next tt, s') ->
    comm evs = map (greets cfg) (zseq (itid s) (slots_of l))
    /\ s' = set_itid (itid s + Z.of_nat (slots_of l)) s
    /\ (slots_of l <> O ->
        0 <= itid s /\
        itid s + Z.of_nat (slots_of l) <= maxConcurrentTasks cfg).
Proof.
  induction l as [|[host cores] l IH]; intros s evs s' H; cbn [spawn_all] in H.
  - prim H. cbn [slots_of Z.of_nat]. rewrite Z.add_0_r, set_itid_same.
    repeat split; congruence.
  - split_bind H.
    apply spawn_times_Next in H0 as (Hc & -> & Hb).
    apply IH in H as (Hc2 & -> & Hb2).
    cbn [itid set_itid] in *. cbn [slots_of].
    rewrite comm_app, Hc, Hc2, zseq_app, map_app, set_itid_twice.
    split; [reflexivity|]. split; [f_equal; lia|]. intros Hn.
    destruct (Nat.eq_dec (Z.to_nat cores) O) as [E0|N0];
      destruct (Nat.eq_dec (slots_of l) O) as [E1|N1]; lia.
Qed.

Lemma fgets_Next s evs l s' :
  fgets s = (evs, Next l, s') ->
  evs = [] /\
  match f_data s with
  | [] => l = None /\ s' = s
  | b :: rest =>
      l = Some b
      /\ s' = set_line_buffer (store b (line_buffer s)) (set_f_data rest s)
  end.
Proof.
  unfold fgets. destruct (f_data s); intros [= <- <- <-]; auto.
Qed.

Lemma write_script_Next n a s evs s' :
  write_script cfg n a s = (evs, Next tt, s') -> comm evs = [] /\ s' = s.
Proof.
  unfold write_script. intros H. destruct (_ || _); [|prim H; auto].
  split_bind H. prim H0.
  destruct (_ =? -1); [discriminate H | prim H; auto].
Qed.

Lemma send_task_Next slot n a s evs s' :
  send_task cfg slot n a s = (evs, Next tt, s') ->
  comm evs = [PvmSend slot MSG_WORK (work_msg cfg n a)]
  /\ f_data s' = f_data s
  /\ 0 <= slot < maxConcurrentTasks cfg.
Proof.
  unfold send_task. intros H.
  split_bind H. prim H0.
  split_bind H. apply write_script_Next in H0 as (Hc & ->).
  split_bind H. apply taskId_Next in H0 as (-> & -> & -> & Hi).
  split_bind H. prim H0. prim H.
  rewrite !comm_app, Hc. cbn [List.app comm]. auto.
Qed.

Lemma dispatch_Next slot buffer s evs s' :
  dispatch cfg slot buffer s = (evs, Next tt, s') ->
  (exists e, comm evs = [e] /\ carries cfg slot buffer e)
  /\ f_data s' = f_data s
  /\ 0 <= slot < maxConcurrentTasks cfg.
Proof.
  unfold dispatch, carries. intros H.
  destruct (task_of_line buffer) as [|n|n a].
  - split_bind H. split_bind H. discriminate H.
  - split_bind H. prim H0. split_bind H. prim H0.
    destruct (cstring _) as [a|]; [|discriminate H].
    apply send_task_Next in H as (Hc & Hf & Hi).
    cbn [List.app]. rewrite Hc, Hf. unfold work_msg.
    split; [|split; [reflexivity | assumption]].
    eexists. split; [reflexivity|]. exists n, a. now split.
  - split_bind H. prim H0.
    apply send_task_Next in H as (Hc & Hf & Hi).
    cbn [List.app]. rewrite Hc, Hf. unfold work_msg.
    split; [|split; [reflexivity | assumption]].
    eexists. split; [reflexivity|]. exists n, a. now split.
Qed.

Lemma classify_Next s evs s' :
  classify s = (evs, Next tt, s') ->
  comm evs = [] /\ itid s' = itid s /\ f_data s' = f_data s.
Proof.
  unfold classify, append_unfinished. intros H.
  split_bind H. prim H0. split_bind H. prim H0. split_bind H. prim H0.
  destruct (_ =? ST_MEM_ERR).
  { split_bind H. prim H0. prim H. auto. }
  destruct (_ =? ST_FORK_ERR).
  { split_bind H. prim H0. prim H. auto. }
  split_bind H. prim H0.
  assert (E : itid (unpack_exec_time s) = itid s
              /\ f_data (unpack_exec_time s) = f_data s).
  { unfold unpack_exec_time.
    destruct (pvm_upkdouble (exec_time s) (rbuf s)); auto. }
  destruct E as [E1 E2].
  destruct (_ =? ST_TASK_KILLED).
  - split_bind H. prim H0. prim H. auto.
  - split_bind H. prim H0. prim H. auto.
Qed.

Lemma receive_Next s evs s' :
  receive s = (evs, Next tt, s') ->
  exists r,
    comm evs = [PvmRecv r] /\ itid s' = r_itid r /\ f_data s' = f_data s.
Proof.
  unfold receive. intros H. split_bind H.
  apply classify_Next in H as (Hc & Hi & Hf).
  unfold recv_result in H0. destruct (inbox s) as [|b rest]; [discriminate|].
  injection H0 as <- <-.
  eexists. rewrite comm_app, Hc, Hi, Hf. cbn [List.app comm r_itid].
  split; [reflexivity|]. split; [reflexivity|].
  unfold unpack_result.
  destruct (pvm_upkint (itid s) b) as [i b1].
  destruct (pvm_upkint (taskNumber s) b1) as [n b2].
  destruct (pvm_upkint (status s) b2) as [st b3].
  destruct (pvm_upkstr (aux_str s) b3) as [a b4]. reflexivity.
Qed.

(** Lines 398-451, [n] turns of the loop from slot [from] on. *)
Lemma batch_Next (n : nat) :
  forall from s evs s',
    for_ n from (fun i =>
      l <- fgets ;;
      match l with
      | Some buffer => dispatch cfg i buffer
      | None => ret tt
      end) s = (evs, Next tt, s') ->
    (n <= List.length (f_data s))%nat ->
    Forall2 (fun p e => carries cfg (fst p) (snd p) e)
      (combine (zseq from n) (firstn n (f_data s))) (comm evs)
    /\ f_data s' = skipn n (f_data s).
Proof.
  induction n as [|n IH]; intros from s evs s' H Hn; cbn [for_] in H.
  - prim H. split; [constructor | reflexivity].
  - split_bind H. split_bind H0.
    apply fgets_Next in H1 as (-> & Hl).
    destruct (f_data s) as [|b rest] eqn:Ef; [cbn in Hn; lia|].
    destruct Hl as [-> ->].
    apply dispatch_Next in H0 as ((e & Hc & Hcar) & Hf & _).
    cbn [f_data set_f_data set_line_buffer] in Hf.
    apply IH in H as (HF & Hs); [|rewrite Hf; cbn in Hn; lia].
    rewrite Hf in HF, Hs.
    cbn [List.app]. rewrite comm_app, Hc. cbn [zseq firstn combine skipn List.app].
    split; [constructor; assumption | assumption].
Qed.

(** Lines 465-622, [n] turns of the loop. *)
Lemma steady_Next (n : nat) :
  forall from s evs s',
    for_ n from (fun _ =>
      receive ;;
      l <- fgets ;;
      match l with
      | Some buffer => i <- get itid ;; dispatch cfg i buffer
      | None => ret tt
      end) s = (evs, Next tt, s') ->
    (n <= List.length (f_data s))%nat ->
    exists later,
      comm evs = flat_map answered later
      /\ Forall2 (fun l p => carries cfg (r_itid (fst p)) l (snd p))
           (firstn n (f_data s)) later
      /\ Forall (fun p => 0 <= r_itid (fst p) < maxConcurrentTasks cfg) later
      /\ f_data s' = skipn n (f_data s).
Proof.
  induction n as [|n IH]; intros from s evs s' H Hn; cbn [for_] in H.
  - prim H. exists []. repeat split; constructor.
  - split_bind H. split_bind H0.
    apply receive_Next in H1 as (r & Hr & Hi & Hf).
    split_bind H0. apply fgets_Next in H1 as (-> & Hl).
    rewrite Hf in Hl.
    destruct (f_data s) as [|b rest] eqn:Ef; [cbn in Hn; lia|].
    destruct Hl as [-> ->].
    split_bind H0. prim H1.
    cbn [itid set_f_data set_line_buffer] in H0. rewrite Hi in H0.
    apply dispatch_Next in H0 as ((e' & Hc & Hcar) & Hf2 & Hb).
    cbn [f_data set_f_data set_line_buffer] in Hf2.
    apply IH in H as (later & HL & HF & HR & Hs);
      [|rewrite Hf2; cbn in Hn; lia].
    rewrite Hf2 in HF, Hs.
    exists ((r, e') :: later).
    rewrite !comm_app, Hr, Hc, HL. cbn [List.app comm].
    cbn [flat_map answered fst snd List.app firstn skipn].
    split; [reflexivity|]. split; [constructor; assumption|].
    split; [constructor; assumption | assumption].
Qed.

(** Lines 627-676, [n] turns of the loop. *)
Lemma drain_Next (n : nat) :
  forall from s evs s',
    for_ n from (fun _ =>
      receive ;;
      modify unpack_total_time ;;
      i <- get itid ;;
      t <- taskId cfg i ;;
      emit (PvmSend t MSG_STOP [PkInt MSG_STOP]) ;;
      tt <- get total_time ;;
      emit (Stdout (INFO_shutting_down i tt)) ;;
      modify add_total_time) s = (evs, Next tt, s') ->
    exists last,
      comm evs = flat_map stopped last
      /\ List.length last = n
      /\ Forall (fun r => 0 <= r_itid r < maxConcurrentTasks cfg) last.
Proof.
  induction n as [|n IH]; intros from s evs s' H; cbn [for_] in H.
  - prim H. exists []. repeat split; constructor.
  - split_bind H. split_bind H0.
    apply receive_Next in H1 as (r & Hr & Hi & Hf).
    split_bind H0. prim H1. split_bind H0. prim H1.
    assert (E : forall st, itid (unpack_total_time st) = itid st).
    { intros st. unfold unpack_total_time.
      destruct (pvm_upkdouble (total_time st) (rbuf st)); reflexivity. }
    rewrite E, Hi in H0.
    split_bind H0. apply taskId_Next in H1 as (-> & -> & -> & Hb).
    split_bind H0. prim H1. split_bind H0. prim H1.
    split_bind H0. prim H1. prim H0.
    apply IH in H as (last & HL & Hlen & HR).
    exists (r :: last).
    rewrite !comm_app, Hr, HL. cbn [List.app comm flat_map stopped List.length].
    split; [reflexivity|]. split; [now rewrite Hlen|].
    constructor; assumption.
Qed.

End Shape.

Section Codes.
Context {K : Macros}.
Variable cfg : setup.

#[local] Ltac any_side :=
  intros; first [ exact I | intros c E; first [discriminate E | congruence] ].

Lemma classify_goes_on (s : state) : exists evs s', classify s = (evs, Next tt, s').
Proof.
  unfold classify, bind, get, emit, modify, append_unfinished.
  destruct (status s =? ST_MEM_ERR); [do 2 eexists; reflexivity|].
  destruct (status s =? ST_FORK_ERR); [do 2 eexists; reflexivity|].
  assert (E : status (unpack_exec_time s) = status s)
    by apply unpack_exec_time_fields.
  destruct (status s =? ST_TASK_KILLED); do 2 eexists; reflexivity.
Qed.

Lemma triple_receive_any : triple anything receive anything exits_early.
Proof.
  intros pre s evs o s' _. unfold receive, bind, recv_result.
  destruct (inbox s) as [|b rest].
  - intros [= <- <- <-]. intros c E. discriminate E.
  - destruct (classify_goes_on (unpack_result b rest s)) as (e & s2 & ->).
    intros [= <- <- <-]. exact I.
Qed.

Lemma triple_schedule_any :
  triple anything (schedule cfg) anything exits_early.
Proof.
  assert (Hearly : forall pre s c,
    early_exit c -> anything pre s -> exits_early pre s (Some c)).
  { intros pre s c Hc _ c' [= <-]. exact Hc. }
  unfold schedule.
  eapply triple_bind with (Q := anything); [apply triple_modify; any_side | intros _].
  eapply triple_bind with (Q := anything); [apply triple_spawn_all; first [exact Hearly | any_side]
                      | intros _].
  eapply triple_bind with (Q := anything); [apply triple_first_batch;
                       first [exact Hearly | any_side] | intros _].
  eapply triple_bind with (Q := anything); [apply triple_modify; any_side | intros _].
  eapply triple_bind with (Q := anything).
  { unfold steady. destruct (_ >? _); [|apply triple_ret].
    apply triple_for. intros _.
    eapply triple_bind with (Q := anything); [apply triple_receive_any | intros _].
    eapply triple_bind with (Q := anything); [apply triple_fgets; any_side | intros [buffer|]];
      [|apply triple_ret].
    eapply triple_bind with (Q := anything); [apply triple_get | intros i].
    apply triple_dispatch; first [exact Hearly | any_side]. }
  intros _. unfold drain. apply triple_for. intros _.
  eapply triple_bind with (Q := anything); [apply triple_receive_any | intros _].
  eapply triple_bind with (Q := anything); [apply triple_modify; any_side | intros _].
  eapply triple_bind with (Q := anything); [apply triple_get | intros i].
  eapply triple_bind with (Q := anything); [apply triple_taskId; any_side | intros t].
  eapply triple_bind with (Q := anything); [apply triple_emit; any_side | intros _].
  eapply triple_bind with (Q := anything); [apply triple_get | intros tt].
  eapply triple_bind with (Q := anything); [apply triple_emit; any_side | intros _].
  apply triple_modify; any_side.
Qed.

Lemma finish_Next (s : state) :
  exists evs s', finish cfg s = (evs, Next tt, s') /\ comm evs = [].
Proof.
  unfold finish, bind, get, emit, modify, ret.
  destruct (maple_single_cpu (args cfg) =? 0);
    try destruct (mv_ret cfg =? 0);
    destruct ((task_type cfg =? 3) || (task_type cfg =? 4)
              || (task_type cfg =? 5));
    (destruct (unfinished_tasks_present s =? 0);
     [destruct (rm_removes cfg); destruct (rm_ret cfg =? 0)|]);
    do 2 eexists; split; reflexivity.
Qed.

(** A run that returns 0 has gone through the whole of [main]. *)
Lemma main_Return_0 s evs s' :
  main cfg s = (evs, Return 0, s') ->
  E_IO <> 0 ->
  exists e1 s1 e2,
    schedule cfg s = (e1, Next tt, s1)
    /\ evs = e1 ++ e2 /\ comm e2 = [].
Proof.
  intros H HIO. unfold main, bind in H.
  destruct (schedule cfg s) as [[e1 o1] s1] eqn:Es.
  pose proof (triple_schedule_any [] s e1 o1 s1 I Es) as Hx.
  destruct o1 as [[]|c| |]; try discriminate H.
  - destruct (finish_Next s1) as (e2 & s2 & Ef & Hc). rewrite Ef in H.
    cbv [return_] in H. inversion H; subst.
    exists e1, s1, (e2 ++ []). rewrite app_nil_r. auto.
  - injection H as <- -> <-. specialize (Hx 0 eq_refl).
    destruct Hx as [Hx|[Hx|Hx]]; try discriminate Hx. now elim HIO.
Qed.

End Codes.

Section Run.
Context {K : Macros}.
Variable cfg : setup.

Lemma firstBatchSize_min :
  firstBatchSize cfg = Z.min (nTasks cfg) (maxConcurrentTasks cfg).
Proof. unfold firstBatchSize. destruct (Z.ltb_spec (nTasks cfg) (maxConcurrentTasks cfg)); lia. Qed.

#[local] Ltac split_bind H :=
  let e1 := fresh "e" in let a := fresh "a" in let s1 := fresh "s" in
  let e2 := fresh "e" in let H1 := fresh "H" in
  apply bind_Next in H; destruct H as (e1 & a & s1 & e2 & H1 & H & ->);
  try (match type of a with unit => destruct a end).

(** The messages of lines 347-676 when every loop has come to its end. *)
Lemma schedule_Next s evs s' :
  schedule cfg s = (evs, Next tt, s') ->
  nTasks cfg = Z.of_nat (List.length (f_data s)) ->
  0 <= maxConcurrentTasks cfg ->
  exists first later last,
    comm evs = map (greets cfg) (zseq 0 (slots_of (nodes cfg)))
               ++ first ++ flat_map answered later ++ flat_map stopped last
    /\ Forall2 (fun p e => carries cfg (fst p) (snd p) e)
         (combine (zseq 0 (Z.to_nat (firstBatchSize cfg)))
            (firstn (Z.to_nat (firstBatchSize cfg)) (f_data s))) first
    /\ Forall2 (fun l p => carries cfg (r_itid (fst p)) l (snd p))
         (skipn (Z.to_nat (firstBatchSize cfg)) (f_data s)) later
    /\ Forall (fun p => 0 <= r_itid (fst p) < maxConcurrentTasks cfg) later
    /\ List.length last = Z.to_nat (firstBatchSize cfg)
    /\ Forall (fun r => 0 <= r_itid r < maxConcurrentTasks cfg) last
    /\ (slots_of (nodes cfg) <> O ->
        Z.of_nat (slots_of (nodes cfg)) <= maxConcurrentTasks cfg).
Proof.
  intros H Hn Hm. unfold schedule in H.
  pose proof firstBatchSize_min as HN.
  split_bind H. cbv [modify] in H0. injection H0 as <- <-.
  split_bind H. apply spawn_all_Next in H0 as (Hg & -> & Hb).
  cbn [itid set_itid] in Hg, Hb.
  split_bind H. unfold first_batch in H0.
  apply batch_Next in H0 as (Hfirst & Hf1); cbn [f_data set_itid] in *; [|lia].
  split_bind H. cbv [create_unfinished modify] in H0. injection H0 as <- <-.
  split_bind H.
  apply drain_Next in H as (last & Hlast & Hlen & Hrange).
  match type of H0 with steady cfg _ = (?e, _, _) =>
    assert (Hlater : exists later,
      comm e = flat_map answered later
      /\ Forall2 (fun l p => carries cfg (r_itid (fst p)) l (snd p))
           (skipn (Z.to_nat (firstBatchSize cfg)) (f_data s)) later
      /\ Forall (fun p => 0 <= r_itid (fst p) < maxConcurrentTasks cfg) later)
  end.
  { unfold steady in H0.
    destruct (Z.gtb_spec (nTasks cfg) (maxConcurrentTasks cfg)) as [G|G].
    - apply steady_Next in H0 as (later & Hl & HF & HR & _);
        cbn [f_data set_unfinished] in *; rewrite Hf1 in *.
      + exists later. split; [assumption|]. split; [|assumption].
        rewrite firstn_all2 in HF; [assumption|].
        rewrite length_skipn. lia.
      + rewrite length_skipn. lia.
    - cbv [ret] in H0. injection H0 as <- <-. exists [].
      split; [reflexivity|]. split; [|constructor].
      rewrite skipn_all2; [constructor | lia]. }
  destruct Hlater as (later & Hl & HF & HR).
  eexists _, later, last.
  rewrite !comm_app, Hg, Hl, Hlast. cbn [comm List.app].
  split; [reflexivity|].
  repeat split; try assumption.
  intros Hk. specialize (Hb Hk). lia.
Qed.

End Run.

(** ** The master: reading the messages of a run *)

Section Readings.
Context {K : Macros}.
Variable cfg : setup.

Lemma sends_to_app x (l1 l2 : list event) :
  sends_to x (l1 ++ l2) = sends_to x l1 ++ sends_to x l2.
Proof.
  induction l1 as [|e l1 IH]; [reflexivity|].
  destruct e; simpl; rewrite ?IH; try reflexivity.
  destruct (slot =? x); [now rewrite <- app_comm_cons | reflexivity].
Qed.

Lemma task_traffic_app (l1 l2 : list event) :
  task_traffic (l1 ++ l2) = task_traffic l1 ++ task_traffic l2.
Proof.
  induction l1 as [|e l1 IH]; [reflexivity|].
  destruct e; simpl; rewrite ?IH; try reflexivity.
  destruct (tag =? MSG_WORK); reflexivity.
Qed.

Lemma sends_to_comm x (l : list event) : sends_to x (comm l) = sends_to x l.
Proof.
  induction l as [|e l IH]; [reflexivity|].
  destruct e; simpl; rewrite ?IH; reflexivity.
Qed.

Lemma results_comm (l : list event) : results (comm l) = results l.
Proof.
  induction l as [|e l IH]; [reflexivity|].
  destruct e; simpl; rewrite ?IH; reflexivity.
Qed.

Lemma task_traffic_comm (l : list event) :
  task_traffic (comm l) = task_traffic l.
Proof.
  induction l as [|e l IH]; [reflexivity|].
  destruct e; simpl; rewrite ?IH; reflexivity.
Qed.

Lemma length_zseq (from : Z) (n : nat) : List.length (zseq from n) = n.
Proof.
  revert from. induction n as [|n IH]; intros from; cbn; [|rewrite IH];
    reflexivity.
Qed.

(** *** The greetings *)

Lemma greets_sends x (n : nat) :
  forall from,
    sends_to x (map (greets cfg) (zseq from n))
    = if (from <=? x) && (x <? from + Z.of_nat n) then [MSG_GREETING] else [].
Proof.
  induction n as [|n IH]; intros from.
  - cbn [zseq map sends_to]. destruct (Z.leb_spec from x);
      destruct (Z.ltb_spec x (from + Z.of_nat 0)); cbn [andb]; try reflexivity.
    lia.
  - cbn [zseq map sends_to greets]. rewrite IH.
    destruct (Z.eqb_spec from x) as [->|N].
    + destruct (Z.leb_spec (x + 1) x); [lia|].
      destruct (Z.leb_spec x x); [|lia].
      destruct (Z.ltb_spec x (x + Z.of_nat (S n))); [|lia]. reflexivity.
    + destruct (Z.leb_spec (from + 1) x); destruct (Z.leb_spec from x);
        destruct (Z.ltb_spec x (from + 1 + Z.of_nat n));
        destruct (Z.ltb_spec x (from + Z.of_nat (S n)));
        cbn [andb]; try reflexivity; lia.
Qed.

Lemma greets_results (l : list Z) : results (map (greets cfg) l) = [].
Proof. induction l as [|i l IH]; [reflexivity | exact IH]. Qed.

Lemma greets_traffic (l : list Z) :
  MSG_WORK <> MSG_GREETING -> task_traffic (map (greets cfg) l) = [].
Proof.
  intros Hd. induction l as [|i l IH]; [reflexivity|].
  cbn [map greets task_traffic].
  destruct (Z.eqb_spec MSG_GREETING MSG_WORK); [congruence | exact IH].
Qed.

(** *** The first batch *)

Lemma batch_sends x (n : nat) :
  forall from lines sent,
    Forall2 (fun p e => carries cfg (fst p) (snd p) e)
      (combine (zseq from n) lines) sent ->
    List.length lines = n ->
    sends_to x sent
    = if (from <=? x) && (x <? from + Z.of_nat n) then [MSG_WORK] else [].
Proof.
  induction n as [|n IH]; intros from lines sent HF Hlen.
  - cbn [zseq combine] in HF. inversion HF; subst. cbn [sends_to].
    destruct (Z.leb_spec from x);
      destruct (Z.ltb_spec x (from + Z.of_nat 0)); cbn [andb]; try reflexivity.
    lia.
  - destruct lines as [|l lines]; [discriminate|].
    cbn [zseq combine] in HF. inversion HF as [|p e ps sent' Hc HF']; subst.
    destruct Hc as (t & a & -> & _). cbn [fst sends_to].
    rewrite (IH (from + 1) lines sent' HF') by (cbn in Hlen; lia).
    destruct (Z.eqb_spec from x) as [->|N].
    + destruct (Z.leb_spec (x + 1) x); [lia|].
      destruct (Z.leb_spec x x); [|lia].
      destruct (Z.ltb_spec x (x + Z.of_nat (S n))); [|lia]. reflexivity.
    + destruct (Z.leb_spec (from + 1) x); destruct (Z.leb_spec from x);
        destruct (Z.ltb_spec x (from + 1 + Z.of_nat n));
        destruct (Z.ltb_spec x (from + Z.of_nat (S n)));
        cbn [andb]; try reflexivity; lia.
Qed.

Lemma batch_results (pairs : list (Z * string)) :
  forall sent,
    Forall2 (fun p e => carries cfg (fst p) (snd p) e) pairs sent ->
    results sent = [] /\ task_traffic sent = sent.
Proof.
  induction pairs as [|p pairs IH]; intros sent HF;
    inversion HF as [|p' e ps sent' Hc HF']; subst; [split; reflexivity|].
  destruct Hc as (t & a & -> & _). destruct (IH sent' HF') as [E1 E2].
  cbn [results task_traffic]. rewrite Z.eqb_refl, E2. now split.
Qed.

(** *** The results answered by work *)

Lemma answered_readings x (lines : list string) :
  forall later,
    Forall2 (fun l p => carries cfg (r_itid (fst p)) l (snd p)) lines later ->
    sends_to x (flat_map answered later)
      = repeat MSG_WORK
          (List.length (filter (fun r => r_itid r =? x) (map fst later)))
    /\ results (flat_map answered later) = map fst later
    /\ task_traffic (flat_map answered later) = flat_map answered later.
Proof.
  induction lines as [|l lines IH]; intros later HF;
    inversion HF as [|l' p ls later' Hc HF']; subst;
    [repeat split; reflexivity|].
  destruct p as [r e]. destruct Hc as (t & a & Hc & _).
  cbn [fst snd] in Hc. subst e.
  destruct (IH later' HF') as (E1 & E2 & E3).
  cbn [flat_map answered fst snd List.app sends_to results task_traffic
       map filter].
  rewrite E1, E2, E3, Z.eqb_refl.
  split; [|split; reflexivity].
  destruct (r_itid r =? x); reflexivity.
Qed.

(** *** The results answered by a stop *)

Lemma stopped_readings x (last : list result) :
  sends_to x (flat_map stopped last)
    = repeat MSG_STOP (List.length (filter (fun r => r_itid r =? x) last))
  /\ results (flat_map stopped last) = last
  /\ (MSG_WORK <> MSG_STOP ->
      task_traffic (flat_map stopped last) = map PvmRecv last).
Proof.
  induction last as [|r last (E1 & E2 & E3)]; [repeat split; reflexivity|].
  cbn [flat_map stopped List.app sends_to results task_traffic map filter].
  rewrite E1, E2. split; [|split; [reflexivity|]].
  - destruct (r_itid r =? x); reflexivity.
  - intros Hd. rewrite (E3 Hd).
    destruct (Z.eqb_spec MSG_STOP MSG_WORK); [congruence | reflexivity].
Qed.

End Readings.

(** ** The master: what each slot is sent *)

Section Slots.
Context {K : Macros}.
Variable cfg : setup.

Lemma sum_cores_le (l : list (string * Z)) :
  forall acc,
    fold_left (fun a node => a + snd node) l acc
    <= acc + Z.of_nat (slots_of l).
Proof.
  induction l as [|[host cores] l IH]; intros acc; cbn [fold_left slots_of snd].
  - lia.
  - specialize (IH (acc + cores)). lia.
Qed.

Lemma maxConcurrentTasks_le_slots :
  maxConcurrentTasks cfg <= Z.of_nat (slots_of (nodes cfg)).
Proof. unfold maxConcurrentTasks. apply (sum_cores_le (nodes cfg) 0). Qed.

Lemma In_zseq x (n : nat) :
  forall from, from <= x < from + Z.of_nat n -> In x (zseq from n).
Proof.
  induction n as [|n IH]; intros from Hx; [lia|].
  cbn [zseq]. destruct (Z.eq_dec from x) as [->|N]; [now left|].
  right. apply IH. lia.
Qed.

Lemma filter_slot_absent x (l : list result) :
  ~ In x (map r_itid l) -> filter (fun r => r_itid r =? x) l = [].
Proof.
  induction l as [|r l IH]; intros Hx; [reflexivity|].
  cbn [filter]. destruct (Z.eqb_spec (r_itid r) x) as [E|N].
  - elim Hx. now left.
  - apply IH. intros H. apply Hx. now right.
Qed.

Lemma filter_slot_once x (l : list result) :
  NoDup (map r_itid l) -> In x (map r_itid l) ->
  List.length (filter (fun r => r_itid r =? x) l) = 1%nat.
Proof.
  induction l as [|r l IH]; intros Hnd Hin; [contradiction|].
  cbn [map] in Hnd. inversion Hnd as [|i ids Hni Hnd']; subst.
  cbn [filter]. destruct (Z.eqb_spec (r_itid r) x) as [E|N].
  - subst x. now rewrite filter_slot_absent.
  - apply IH; [assumption|]. destruct Hin as [E|Hin]; [contradiction | exact Hin].
Qed.

(** [n] results from [n] different slots below [n]: one from each. *)
Lemma one_result_each x (l : list result) (n : nat) :
  NoDup (map r_itid l) ->
  Forall (fun r => 0 <= r_itid r < Z.of_nat n) l ->
  List.length l = n ->
  0 <= x < Z.of_nat n ->
  List.length (filter (fun r => r_itid r =? x) l) = 1%nat.
Proof.
  intros Hnd Hr Hlen Hx. apply filter_slot_once; [assumption|].
  apply (NoDup_length_incl Hnd (l' := zseq 0 n)).
  - rewrite length_zseq, length_map. lia.
  - intros i Hi. apply in_map_iff in Hi as (r & <- & Hin).
    rewrite Forall_forall in Hr. apply In_zseq. apply (Hr r Hin).
  - apply In_zseq. lia.
Qed.

Lemma last_results_app (e : list event) (n : nat) (l1 l2 : list result) :
  results e = l1 ++ l2 -> List.length l2 = n -> last_results n e = l2.
Proof.
  unfold last_results. intros -> <-.
  rewrite length_app, Nat.add_sub, skipn_app, skipn_all, Nat.sub_diag.
  reflexivity.
Qed.

(** C2, as the code has it.  In a run that returns 0, with as many lines in
    the data file as [nTasks] says, and whose last N = min(nTasks,
    maxConcurrentTasks) results come from N different slots below N: a slot
    below N is sent the greeting, then as many work messages as results
    are received from it (one at least), then one stop; a slot from N on
    is sent the greeting and nothing else, and no result is received from
    it. *)
Theorem per_slot_protocol (s : state) (evs : list event) (s' : state) :
  main cfg s = (evs, Return 0, s') ->
  E_IO <> 0 ->
  nTasks cfg = Z.of_nat (List.length (f_data s)) ->
  let N := Z.min (nTasks cfg) (maxConcurrentTasks cfg) in
  NoDup (map r_itid (last_results (Z.to_nat N) evs)) ->
  Forall (fun r => r_itid r < N) (last_results (Z.to_nat N) evs) ->
  forall x, 0 <= x < maxConcurrentTasks cfg ->
    (x < N ->
       sends_to x evs
         = MSG_GREETING
           :: repeat MSG_WORK (List.length (results_from x evs)) ++ [MSG_STOP]
       /\ results_from x evs <> [])
    /\ (N <= x -> sends_to x evs = [MSG_GREETING] /\ results_from x evs = []).
Proof.
  intros Hrun HIO Hn N. subst N.
  rewrite <- (firstBatchSize_min cfg).
  pose proof (firstBatchSize_min cfg) as HN.
  intros Hnd Hlt x Hx.
  assert (Hm : 0 <= maxConcurrentTasks cfg) by lia.
  destruct (main_Return_0 cfg s evs s' Hrun HIO)
    as (e1 & s1 & e2 & Hsch & -> & He2).
  destruct (schedule_Next cfg s e1 s1 Hsch Hn Hm)
    as (first & later & last & Hc & HF1 & HF2 & _ & Hlen & Hrange & _).
  pose proof maxConcurrentTasks_le_slots as Hslots.
  destruct (answered_readings cfg x _ _ HF2) as (Ea1 & Ea2 & _).
  destruct (stopped_readings x last) as (Es1 & Es2 & _).
  destruct (batch_results cfg _ _ HF1) as [Eb _].
  assert (Hres : results (e1 ++ e2) = map fst later ++ last).
  { rewrite <- results_comm, comm_app, He2, app_nil_r, Hc, !results_app.
    now rewrite greets_results, Eb, Ea2, Es2. }
  rewrite (last_results_app _ _ _ _ Hres Hlen) in Hnd, Hlt.
  assert (Hsend : sends_to x (e1 ++ e2)
    = [MSG_GREETING]
      ++ (if x <? firstBatchSize cfg then [MSG_WORK] else [])
      ++ repeat MSG_WORK
           (List.length (filter (fun r => r_itid r =? x) (map fst later)))
      ++ repeat MSG_STOP
           (List.length (filter (fun r => r_itid r =? x) last))).
  { rewrite <- sends_to_comm, comm_app, He2, app_nil_r, Hc, !sends_to_app.
    rewrite greets_sends, Ea1, Es1.
    rewrite (batch_sends cfg x _ 0 _ _ HF1)
      by (rewrite length_firstn; lia).
    destruct (Z.leb_spec 0 x); [|lia].
    destruct (Z.ltb_spec x (0 + Z.of_nat (slots_of (nodes cfg)))); [|lia].
    cbn [andb].
    destruct (Z.ltb_spec x (0 + Z.of_nat (Z.to_nat (firstBatchSize cfg))));
      destruct (Z.ltb_spec x (firstBatchSize cfg)); try reflexivity; lia. }
  unfold results_from. rewrite Hsend, Hres, filter_app, length_app.
  split.
  - intros Hxn. destruct (Z.ltb_spec x (firstBatchSize cfg)); [|lia].
    rewrite (one_result_each x last (Z.to_nat (firstBatchSize cfg)));
      try assumption; try lia.
    + rewrite Nat.add_1_r. cbn [repeat List.app]. split; [reflexivity|].
      intros E. apply (f_equal (@List.length result)) in E.
      rewrite length_app, (one_result_each x last (Z.to_nat (firstBatchSize cfg)))
        in E; try assumption; try lia; try (cbn in E; lia).
      rewrite Forall_forall in *. intros r Hr.
      specialize (Hrange r Hr). specialize (Hlt r Hr). lia.
    + rewrite Forall_forall in *. intros r Hr.
      specialize (Hrange r Hr). specialize (Hlt r Hr). lia.
  - intros Hxn. destruct (Z.ltb_spec x (firstBatchSize cfg)); [lia|].
    assert (El : later = []).
    { rewrite skipn_all2 in HF2 by lia. now inversion HF2. }
    assert (Ef : filter (fun r => r_itid r =? x) last = []).
    { apply filter_slot_absent. intros Hin.
      apply in_map_iff in Hin as (r & E & Hr).
      rewrite Forall_forall in Hlt. specialize (Hlt r Hr). lia. }
    rewrite El, Ef. split; reflexivity.
Qed.

End Slots.

(** ** Concrete runs of the worker and of the master *)

Section Concrete.
Import Demo.

Lemma worker_reports_state_0_after_wait_witness :
  let t := task7 4242 {| Worker.si_code := Worker.CLD_KILLED;
                         Worker.si_status := 9 |} in
  let g := greeting_msg (two_cores 1) 3 in
  Worker.work_msg t
    = [PkInt MSG_GREETING; PkInt 7; PkStr "./prog"; PkStr "out"; PkStr "5,6"]
  /\ Worker.memcheck_ret t <> 1
  /\ MSG_GREETING <> MSG_STOP
  /\ 0 < Worker.fork_pid t
  /\ (exists child rest,
        fst (Worker.main worker_vars g [t]) =
          Worker.Fork child :: Worker.Waitid :: Worker.Prtusage 7 "out"
            :: Worker.Send MSG_RESULT [PkInt 3; PkInt 7; PkInt 0] :: rest)
  /\ (forall info,
        Worker.main worker_vars g (map (Worker.with_infop info) [t]) =
        Worker.main worker_vars g [t])
  /\ 0 <> ST_TASK_KILLED.
Proof.
  intros t g.
  assert (H1 : Worker.work_msg t
    = [PkInt MSG_GREETING; PkInt 7; PkStr "./prog"; PkStr "out"; PkStr "5,6"])
    by reflexivity.
  assert (H2 : Worker.memcheck_ret t <> 1) by (cbn; lia).
  assert (H3 : MSG_GREETING <> MSG_STOP) by (cbn; lia).
  assert (H4 : 0 < Worker.fork_pid t) by (cbn; lia).
  repeat (split; [assumption|]).
  exact (worker_reports_state_0_after_wait worker_vars g t [] _ _ _ _ _
           H1 H2 H3 H4).
Defined.

Lemma worker_fork_failure_sends_state_1_witness :
  let t := task7 (-1) {| Worker.si_code := 0; Worker.si_status := 0 |} in
  let g := greeting_msg (two_cores 1) 3 in
  Worker.work_msg t
    = [PkInt MSG_GREETING; PkInt 7; PkStr "./prog"; PkStr "out"; PkStr "5,6"]
  /\ Worker.memcheck_ret t <> 1
  /\ MSG_GREETING <> MSG_STOP
  /\ Worker.fork_pid t < 0
  /\ Worker.main worker_vars g [t] =
       ([Worker.Stderr_fork_failed 7;
         Worker.Send MSG_RESULT [PkInt 3; PkInt 7; PkInt 1];
         Worker.PvmExit], Worker.Exit 1)
  /\ 1 <> ST_FORK_ERR.
Proof.
  intros t g.
  assert (H1 : Worker.work_msg t
    = [PkInt MSG_GREETING; PkInt 7; PkStr "./prog"; PkStr "out"; PkStr "5,6"])
    by reflexivity.
  assert (H2 : Worker.memcheck_ret t <> 1) by (cbn; lia).
  assert (H3 : MSG_GREETING <> MSG_STOP) by (cbn; lia).
  assert (H4 : Worker.fork_pid t < 0) by (cbn; lia).
  repeat (split; [assumption|]).
  exact (worker_fork_failure_sends_state_1 worker_vars g t [] _ _ _ _ _
           H1 H2 H3 H4).
Defined.

Lemma worker_ignores_greeting_flags_witness :
  let t := task7 4242 {| Worker.si_code := Worker.CLD_EXITED;
                         Worker.si_status := 0 |} in
  Worker.work_msg t
    = [PkInt MSG_GREETING; PkInt 7; PkStr "./prog"; PkStr "out"; PkStr "5,6"]
  /\ Worker.memcheck_ret t <> 1
  /\ MSG_GREETING <> MSG_STOP
  /\ 0 < Worker.fork_pid t
  /\ (exists child rest,
        fst (Worker.main worker_vars (greeting_msg (two_cores 1) 3) [t]) =
          Worker.Fork child :: rest
        /\ nth_error child 3 =
             Some (Worker.COpen "out/7_err.txt" ["O_WRONLY"; "O_CREAT"] 438)
        /\ nth_error child 4 = Some (Worker.CDup2 2))
  /\ (forall e m c p ts',
        Worker.main worker_vars
          (greeting_msg (with_flags (two_cores 1) e m c p) 3) ts' =
        Worker.main worker_vars (greeting_msg (two_cores 1) 3) ts').
Proof.
  intros t.
  assert (H1 : Worker.work_msg t
    = [PkInt MSG_GREETING; PkInt 7; PkStr "./prog"; PkStr "out"; PkStr "5,6"])
    by reflexivity.
  assert (H2 : Worker.memcheck_ret t <> 1) by (cbn; lia).
  assert (H3 : MSG_GREETING <> MSG_STOP) by (cbn; lia).
  assert (H4 : 0 < Worker.fork_pid t) by (cbn; lia).
  repeat (split; [assumption|]).
  exact (worker_ignores_greeting_flags (two_cores 1) 3 worker_vars t [] _ _ _ _ _
           H1 H2 H3 H4).
Defined.

Lemma start_pvmd_retries_witness :
  let answer := fun k : nat => if (k <? 2)%nat then PvmDupHost else 0 in
  (4 <= 4)%nat
  /\ exists evs r,
       start_pvmd 4 answer 0 0 = Some (evs, r)
       /\ evs = List.concat (repeat [StartPvmd; HaltPvmd; RemoveTmp]
                               (leading_dups answer 0 4))
                ++ (if (leading_dups answer 0 4 <? 4)%nat
                    then [StartPvmd] else [])
       /\ r = (if (leading_dups answer 0 4 <? 4)%nat
               then Started (answer (leading_dups answer 0 4))
               else Failed E_PVM_DUP)
       /\ (starts evs - 1 <= 3)%nat
       /\ (forall code, r = Failed code ->
             code = E_PVM_DUP /\ starts evs = 4%nat /\
             forall k, (k < 4)%nat -> answer k = PvmDupHost).
Proof.
  intros answer. assert (H : (4 <= 4)%nat) by lia.
  split; [exact H|]. exact (start_pvmd_retries answer 4 H).
Defined.

End Concrete.

Section ConcreteMaster.
Import Demo.

Lemma completed_branch_takes_other_statuses_witness :
  let s := after_ok_result in
  let s2 := start [] [Worker.result_msg failed_worker 1] in
  status s <> ST_MEM_ERR
  /\ status s <> ST_FORK_ERR
  /\ status s <> ST_TASK_KILLED
  /\ inbox s2 = Worker.result_msg failed_worker 1 :: []
  /\ ST_MEM_ERR <> 1
  /\ (classify s =
        ([Stdout (TASK_COMPLETED 1 half)], Next tt, unpack_exec_time s)
      /\ rbuf (unpack_exec_time s) = [PkDouble two]
      /\ unfinishedTasks (unpack_exec_time s) = unfinishedTasks s
      /\ unfinished_tasks_present (unpack_exec_time s)
         = unfinished_tasks_present s)
  /\ exists s3,
       receive s2 =
         ([PvmRecv {| r_itid := 1; r_taskNumber := 7; r_status := 1;
                      r_aux_str := EmptyString |};
           Stdout (TASK_COMPLETED 7 zero)], Next tt, s3)
       /\ unfinishedTasks s3 = unfinishedTasks s2
       /\ unfinished_tasks_present s3 = unfinished_tasks_present s2.
Proof.
  intros s s2.
  assert (H1 : status s <> ST_MEM_ERR) by (intros E; discriminate E).
  assert (H2 : status s <> ST_FORK_ERR) by (intros E; discriminate E).
  assert (H3 : status s <> ST_TASK_KILLED) by (intros E; discriminate E).
  assert (H4 : inbox s2 = Worker.result_msg failed_worker 1 :: [])
    by reflexivity.
  assert (H5 : ST_MEM_ERR <> 1) by (intros E; discriminate E).
  repeat (split; [assumption|]).
  exact (completed_branch_takes_other_statuses s s2 failed_worker []
           H1 H2 H3 H4 H5).
Defined.

Example three_tasks_unfinished_file :
  unfinishedTasks (snd three_tasks) = Some (line "2,7,8").
Proof. vm_compute. reflexivity. Qed.

(** Line 675: the lifetimes unpacked in the drain are summed. *)
Example three_tasks_total_time :
  total_total_time (snd three_tasks) = dadd two four.
Proof. vm_compute. reflexivity. Qed.

(** A result of the worker of [task_fork.c] holds no string and no double:
    the master keeps the arguments of the task it dispatched last and the
    times it had, and prints the task as completed. *)
Example master_reads_worker_result :
  fst (fst (receive
    (start [] [Worker.result_msg failed_worker 0])))
  = [PvmRecv {| r_itid := 1; r_taskNumber := 7; r_status := 0;
                r_aux_str := EmptyString |};
     Stdout (TASK_COMPLETED 7 zero)].
Proof. vm_compute. reflexivity. Qed.

End ConcreteMaster.

Section ConcreteRuns.
Import Demo.

Lemma per_slot_protocol_witness :
  let cfg := two_cores 3 in
  let evs := fst (fst three_tasks) in
  let s' := snd three_tasks in
  let s := start [line "1,5,6"; line "2,7,8"; line "3,9,10"]
             [full_result 1 2 ST_TASK_KILLED "7,8" quarter one;
              full_result 0 1 0 "5,6" half two;
              full_result 1 3 0 "9,10" half four] in
  main cfg s = (evs, Return 0, s')
  /\ E_IO <> 0
  /\ nTasks cfg = Z.of_nat (List.length (f_data s))
  /\ (let N := Z.min (nTasks cfg) (maxConcurrentTasks cfg) in
      NoDup (map r_itid (last_results (Z.to_nat N) evs))
      /\ Forall (fun r => r_itid r < N) (last_results (Z.to_nat N) evs)
      /\ forall x, 0 <= x < maxConcurrentTasks cfg ->
           (x < N ->
              sends_to x evs
                = MSG_GREETING
                  :: repeat MSG_WORK (List.length (results_from x evs))
                     ++ [MSG_STOP]
              /\ results_from x evs <> [])
           /\ (N <= x ->
                 sends_to x evs = [MSG_GREETING] /\ results_from x evs = [])).
Proof.
  intros cfg evs s' s.
  assert (H1 : main cfg s = (evs, Return 0, s')) by (vm_compute; reflexivity).
  assert (H2 : E_IO <> 0) by (intros E; discriminate E).
  assert (H3 : nTasks cfg = Z.of_nat (List.length (f_data s))) by reflexivity.
  assert (H4 : NoDup (map r_itid
    (last_results (Z.to_nat (Z.min (nTasks cfg) (maxConcurrentTasks cfg)))
       evs))).
  { vm_compute. constructor; [intros [E|[]]; discriminate E|].
    constructor; [intros []|]. constructor. }
  assert (H5 : Forall
    (fun r => r_itid r < Z.min (nTasks cfg) (maxConcurrentTasks cfg))
    (last_results (Z.to_nat (Z.min (nTasks cfg) (maxConcurrentTasks cfg)))
       evs)).
  { vm_compute. constructor; [reflexivity|]. constructor; [reflexivity|].
    constructor. }
  repeat (split; [assumption|]).
  exact (per_slot_protocol cfg s evs s' H1 H2 H3 H4 H5).
Defined.

(** C2 as the specification words it fails: with two cores and one task
    the run returns 0, and slot 1, which is below the number of cores, has
    been sent the greeting and no stop. *)
Lemma idle_slot_gets_no_stop :
  main (two_cores 1)
    (start [line "1,5,6"] [full_result 0 1 0 "5,6" half two])
  = one_task
  /\ snd (fst one_task) = Return 0
  /\ 0 <= 1 < maxConcurrentTasks (two_cores 1)
  /\ sends_to 1 (fst (fst one_task)) = [MSG_GREETING]
  /\ ~ In MSG_STOP (sends_to 1 (fst (fst one_task))).
Proof.
  split; [vm_compute; reflexivity|]. split; [vm_compute; reflexivity|].
  split; [vm_compute; split; [intros E; discriminate E | reflexivity]|].
  split; [vm_compute; reflexivity|].
  vm_compute. intros [E|[]]; discriminate E.
Qed.

(** C7.  A line whose task number is written 007: the number is 7, and the
    arguments are read from the second character of the line on, so that
    they begin with the last digit of the number and its comma is not the
    first one.  The worker of a Maple task hands this string to the
    program (lines 136-141); the child of a C task copies it at line 149,
    into a block that is one character short. *)
Theorem zero_padded_id_shifts_arguments :
  task_of_line (line "007,a,b") = Task 7 "7,a,b"
  /\ task_traffic
       (fst (fst (main (two_cores 1)
          (start [line "007,a,b"]
             [full_result 0 7 0 "7,a,b" half two]))))
     = [PvmSend 0 MSG_WORK
          [PkInt MSG_GREETING; PkInt 7; PkStr "./prog"; PkStr "out";
           PkStr "7,a,b"];
        PvmRecv {| r_itid := 0; r_taskNumber := 7; r_status := 0;
                   r_aux_str := "7,a,b" |}]
  /\ (forall info,
        exists child rest,
          fst (Worker.main worker_vars (greeting_msg (maple_cores 1) 0)
                 [{| Worker.memcheck_ret := 0;
                     Worker.work_msg := work_msg (maple_cores 1) 7 "7,a,b";
                     Worker.fork_pid := 4242;
                     Worker.infop := info |}])
          = Worker.Fork child :: rest
          /\ nth_error child 6
             = Some (Worker.CExecvp "maple"
                       ["maple";
                        "-tc " ++ dquote ++ "taskId:=7" ++ dquote;
                        "-c " ++ dquote ++ "taskArgs:=[7,a,b]" ++ dquote;
                        "./prog"]%string))
  /\ forall info,
       exists child rest,
         fst (Worker.main worker_vars (greeting_msg (two_cores 1) 0)
                [{| Worker.memcheck_ret := 0;
                    Worker.work_msg := work_msg (two_cores 1) 7 "7,a,b";
                    Worker.fork_pid := 4242;
                    Worker.infop := info |}])
         = Worker.Fork child :: rest
         /\ nth_error child 6 = Some (Worker.COverrun "7,a,b").
Proof.
  split; [vm_compute; reflexivity|]. split; [vm_compute; reflexivity|].
  split; intros info; vm_compute; do 2 eexists; split; reflexivity.
Qed.

End ConcreteRuns.

(** * Further properties *)

(** ** Lines of the data file, again *)

Section Lines.
Context {K : Macros}.

Lemma strip_last_char (x : string) (c : ascii) :
  strip_last (x ++ String c EmptyString) = x.
Proof.
  induction x as [|d x IH]; [reflexivity|].
  cbn [append strip_last]. rewrite IH.
  destruct x; reflexivity.
Qed.

(** X1.  Line 416 cuts the last character of the line, whatever it is: a
    line "<n>,<args>" followed by any one character, newline or not, gives
    task [n] with arguments [args]; so the last line of a file that does
    not end in a newline loses the last character of its arguments. *)
Theorem task_of_line_drops_last_char (n : Z) (rest : string) (c : ascii) :
  INT_MIN <= n <= INT_MAX ->
  task_of_line (sprintf_d n ++ "," ++ rest ++ String c EmptyString)
  = Task n rest.
Proof.
  intros Hn. unfold task_of_line.
  rewrite sscanf_d_sprintf_d by (assumption || reflexivity).
  rewrite !length_append.
  destruct (Nat.leb_spec (String.length (sprintf_d n) + 1)
              (String.length (sprintf_d n)
               + (String.length "," + (String.length rest
                                       + String.length (String c EmptyString)))));
    [|cbn in *; lia].
  f_equal.
  replace (sprintf_d n ++ "," ++ rest ++ String c EmptyString)%string
    with ((sprintf_d n ++ "," ++ rest) ++ String c EmptyString)%string
    by (now rewrite !string_append_assoc).
  rewrite strip_last_char, drop_append. reflexivity.
Qed.

(** X2.  A row of unfinished_tasks.txt, as line 478 writes it, read as a
    line of a data file gives the task number and the arguments of the
    result it was written for: the file can be used as the data file of a
    later run. *)
Theorem unfinished_line_reads_back (n : Z) (a : string) :
  INT_MIN <= n <= INT_MAX ->
  task_of_line (unfinished_line n a) = Task n a.
Proof. intros Hn. unfold unfinished_line. now apply task_of_line_canonical. Qed.

(** X3.  A line that holds a task number and nothing else: with its
    newline the arguments are empty; without it (the last line of a file
    with no final newline) [buffer[aux_size + 1]] lies behind the end of
    the line. *)
Theorem task_of_line_bare_number (n : Z) :
  INT_MIN <= n <= INT_MAX ->
  task_of_line (sprintf_d n ++ newline) = Task n EmptyString
  /\ task_of_line (sprintf_d n) = OutsideLine n.
Proof.
  intros Hn. split; unfold task_of_line.
  - rewrite sscanf_d_sprintf_d by (assumption || reflexivity).
    rewrite length_append.
    destruct (Nat.leb_spec (String.length (sprintf_d n) + 1)
                (String.length (sprintf_d n) + String.length newline));
      [|cbn in *; lia].
    rewrite strip_last_newline.
    rewrite <- (string_append_empty_r (sprintf_d n)) at 2.
    now rewrite drop_append.
  - rewrite <- (string_append_empty_r (sprintf_d n)) at 1.
    rewrite sscanf_d_sprintf_d by (assumption || reflexivity).
    destruct (Nat.leb_spec (String.length (sprintf_d n) + 1)
                (String.length (sprintf_d n))); [lia | reflexivity].
Qed.

(** X4.  A line of white space only (an empty line) has no task number: the
    master prints the error, halts the daemon and returns
    [E_DATAFILE_FIRSTCOL]; nothing is sent for the line and no variable
    changes. *)
Theorem blank_line_ends_the_run
  (cfg : setup) (slot : Z) (buffer : string) (s : state) :
  skip_space buffer = EmptyString ->
  task_of_line buffer = NoTaskId
  /\ dispatch cfg slot buffer s
     = ([Stderr ERROR_first_column; PvmHalt], Return E_DATAFILE_FIRSTCOL, s).
Proof.
  intros Hb.
  assert (E : task_of_line buffer = NoTaskId).
  { unfold task_of_line, sscanf_d. now rewrite Hb. }
  split; [exact E|]. unfold dispatch. now rewrite E.
Qed.

End Lines.

(** ** The worker, again *)

Section WorkerMore.
Import WorkerTrace.
Context {K : Macros} {Hd : Headers}.

(** X5.  While [memcheck] answers 1 the worker sleeps 60 seconds a turn and
    does nothing else: it receives no message, its variables stay as they
    are, and what it does afterwards does not depend on those turns. *)
Theorem worker_defers_without_receiving
  (ts1 ts2 : list Worker.turn) (v : Worker.vars) :
  Forall (fun t => Worker.memcheck_ret t = 1) ts1 ->
  Worker.work (ts1 ++ ts2) v
  = (repeat (Worker.Sleep 60) (List.length ts1) ++ fst (Worker.work ts2 v),
     snd (Worker.work ts2 v)).
Proof.
  induction ts1 as [|t ts1 IH]; intros H.
  - cbn [List.app List.length repeat]. now destruct (Worker.work ts2 v).
  - inversion H as [|t' ts' Ht H']; subst.
    cbn [List.app Worker.work]. rewrite Ht, Z.eqb_refl, (IH H').
    reflexivity.
Qed.


(** X7.  What the master packs reaches the worker of a Maple task: after
    the greeting of slot [slot], the work message for task [n] with
    arguments [a] makes the worker fork a child that calls maple with the
    master's program file, [n] and [a], its output going to the master's
    output directory, provided the four strings of lines 134-137 find room
    in their blocks; and the result the worker sends when [waitid] has
    returned is read by the master as slot [slot], task [n], status 0. *)
Theorem master_messages_reach_worker
  (cfg : setup) (slot n : Z) (a : string) (v0 : Worker.vars)
  (m pid : Z) (info : Worker.siginfo) (rest : list buffer) (s : state) :
  task_type cfg = 0 ->
  Forall (fun x => Z.of_nat (String.length x) < BUFFER_SIZE)
    ["maple";
     "-tc " ++ dquote ++ "taskId:=" ++ sprintf_d n ++ dquote;
     "-c " ++ dquote ++ "taskArgs:=[" ++ a ++ "]" ++ dquote;
     inp_programFile cfg]%string ->
  MSG_GREETING <> MSG_STOP ->
  m <> 1 -> 0 < pid ->
  Worker.main v0 (greeting_msg cfg slot)
    [turn_of m (work_msg cfg n a) pid info]
  = ([Worker.Fork
        [Worker.COpen
           (out_dir cfg ++ "/" ++ sprintf_d n ++ "_out.txt")%string
           ["O_WRONLY"; "O_CREAT"] Worker.mode_0666;
         Worker.CDup2 1; Worker.CClose;
         Worker.COpen
           (out_dir cfg ++ "/" ++ sprintf_d n ++ "_err.txt")%string
           ["O_WRONLY"; "O_CREAT"] Worker.mode_0666;
         Worker.CDup2 2; Worker.CClose;
         Worker.CExecvp "maple"
           ["maple";
            "-tc " ++ dquote ++ "taskId:=" ++ sprintf_d n ++ dquote;
            "-c " ++ dquote ++ "taskArgs:=[" ++ a ++ "]" ++ dquote;
            inp_programFile cfg]%string];
      Worker.Waitid;
      Worker.Prtusage n (out_dir cfg);
      Worker.Send MSG_RESULT [PkInt slot; PkInt n; PkInt 0]],
     Worker.Waiting)
  /\ itid (unpack_result [PkInt slot; PkInt n; PkInt 0] rest s) = slot
  /\ taskNumber (unpack_result [PkInt slot; PkInt n; PkInt 0] rest s) = n
  /\ status (unpack_result [PkInt slot; PkInt n; PkInt 0] rest s) = 0.
Proof.
  intros Ht Hfit Hd' Hm Hpid. split; [|repeat split].
  pose proof (Forall_inv Hfit) as F1.
  pose proof (Forall_inv (Forall_inv_tail Hfit)) as F2.
  pose proof (Forall_inv (Forall_inv_tail (Forall_inv_tail Hfit))) as F3.
  pose proof (Forall_inv
                (Forall_inv_tail (Forall_inv_tail (Forall_inv_tail Hfit))))
    as F4.
  cbv beta in F1, F2, F3, F4.
  apply Z.ltb_lt in F1, F2, F3, F4.
  unfold Worker.main, turn_of. cbn [Worker.work Worker.memcheck_ret
    Worker.work_msg Worker.fork_pid].
  destruct (Z.eqb_spec m 1) as [E|_]; [contradiction|].
  unfold work_msg. cbn [pvm_upkint pvm_upkstr].
  destruct (Z.eqb_spec MSG_GREETING MSG_STOP) as [E|_]; [contradiction|].
  destruct (Z.ltb_spec pid 0) as [E|_]; [lia|].
  destruct (Z.eqb_spec pid 0) as [E|_]; [lia|].
  unfold Worker.child, Worker.program_call, Worker.too_long,
    Worker.maple_args, Worker.greet, greeting_msg.
  cbn [pvm_upkint pvm_upklong List.app Worker.task_type Worker.out_dir
       Worker.taskNumber Worker.inp_programFile Worker.arguments find].
  unfold Worker.fits. rewrite Ht, F1, F2, F3, F4. reflexivity.
Qed.

End WorkerMore.

(** ** The master, again: what every statement keeps *)

Section Plain.
Import Report.
Context {K : Macros}.
Variable cfg : setup.
Variable X : list event -> state -> option Z -> Prop.

Section OneRelation.
Variable R : list event -> state -> Prop.
Hypothesis HR : plainly R X.

Lemma plainly_event : forall pre s e, plain e -> R pre s -> R (pre ++ [e]) s.
Proof. exact (proj1 HR). Qed.

Lemma plainly_state : forall pre s s2,
  unfinishedTasks s2 = unfinishedTasks s ->
  unfinished_tasks_present s2 = unfinished_tasks_present s ->
  total_total_time s2 = total_total_time s ->
  inbox s2 = inbox s ->
  R pre s -> R pre s2.
Proof. exact (proj1 (proj2 HR)). Qed.

Lemma plainly_exit : forall pre s, R pre s -> X pre s None.
Proof. exact (proj1 (proj2 (proj2 HR))). Qed.

Lemma plainly_abort : forall pre s a c,
  plain a -> c = E_PVM_SPAWN \/ c = E_DATAFILE_FIRSTCOL ->
  R pre s -> X (pre ++ [a; PvmHalt]) s (Some c).
Proof. exact (proj1 (proj2 (proj2 (proj2 HR)))). Qed.

Lemma plainly_io : forall pre s, R pre s -> X pre s (Some E_IO).
Proof. exact (proj2 (proj2 (proj2 (proj2 HR)))). Qed.

#[local] Ltac easy_step :=
  first
    [ apply triple_ret
    | apply triple_get
    | apply triple_emit; intros; apply plainly_event; [exact I | assumption]
    | apply triple_modify; intros; eapply plainly_state;
      [| | | |eassumption]; reflexivity
    | apply triple_undefined; exact plainly_exit ].

Lemma plain_taskId (i : Z) : triple R (taskId cfg i) R X.
Proof. unfold taskId. destruct (_ && _); easy_step. Qed.

Lemma plain_spawn_one (host : string) : triple R (spawn_one cfg host) R X.
Proof.
  unfold spawn_one.
  eapply triple_bind; [easy_step | intros i].
  eapply triple_bind; [apply plain_taskId | intros slot].
  eapply triple_bind; [easy_step | intros _].
  destruct (_ =? 1).
  - repeat (eapply triple_bind; [easy_step | intros _]). easy_step.
  - intros pre s evs o s' H [= <- <- <-]. cbn [List.app].
    apply plainly_abort; [exact I | now left | assumption].
Qed.

Lemma plain_spawn_all (l : list (string * Z)) :
  triple R (spawn_all cfg l) R X.
Proof.
  induction l as [|[host cores] l IH]; cbn [spawn_all]; [easy_step|].
  eapply triple_bind; [|intros _; exact IH].
  apply triple_times, plain_spawn_one.
Qed.

Lemma plain_fgets : triple R fgets R X.
Proof.
  intros pre s evs o s' H. unfold fgets.
  destruct (f_data s) as [|b l]; intros [= <- <- <-]; rewrite app_nil_r;
    [assumption|].
  eapply plainly_state; [| | | |eassumption]; reflexivity.
Qed.

Lemma plain_write_script (n : Z) (a : string) :
  triple R (write_script cfg n a) R X.
Proof.
  unfold write_script. destruct (_ || _); [|easy_step].
  eapply triple_bind; [easy_step | intros _].
  destruct (_ =? -1); [|easy_step].
  apply triple_return. exact plainly_io.
Qed.

Lemma plain_send_task (slot n : Z) (a : string) :
  triple R (send_task cfg slot n a) R X.
Proof.
  unfold send_task.
  eapply triple_bind; [easy_step | intros _].
  eapply triple_bind; [apply plain_write_script | intros _].
  eapply triple_bind; [apply plain_taskId | intros t].
  eapply triple_bind; [easy_step | intros _]. easy_step.
Qed.

Lemma plain_dispatch (slot : Z) (buffer : string) :
  triple R (dispatch cfg slot buffer) R X.
Proof.
  unfold dispatch. destruct (task_of_line buffer) as [|n|n a].
  - intros pre s evs o s' H [= <- <- <-]. cbn [List.app].
    apply plainly_abort; [exact I | now right | assumption].
  - eapply triple_bind; [easy_step | intros _].
    eapply triple_bind; [easy_step | intros [a|]];
      [apply plain_send_task | easy_step].
  - eapply triple_bind; [easy_step | intros _]. apply plain_send_task.
Qed.

Lemma plain_first_batch : triple R (first_batch cfg) R X.
Proof.
  unfold first_batch. apply triple_for. intros i.
  eapply triple_bind; [apply plain_fgets | intros [buffer|]].
  - apply plain_dispatch.
  - easy_step.
Qed.

Hypothesis H_receive : triple R receive R X.
Hypothesis H_shut : triple R (shut_down cfg) R X.

Lemma plain_steady : triple R (steady cfg) R X.
Proof.
  unfold steady. destruct (_ >? _); [|easy_step].
  apply triple_for. intros _.
  eapply triple_bind; [exact H_receive | intros _].
  eapply triple_bind; [apply plain_fgets | intros [buffer|]]; [|easy_step].
  eapply triple_bind; [easy_step | intros i].
  apply plain_dispatch.
Qed.

Lemma plain_drain : triple R (drain cfg) R X.
Proof.
  unfold drain. apply triple_for. intros _.
  eapply triple_bind; [exact H_receive | intros _]. exact H_shut.
Qed.

End OneRelation.

(** [main], with [R0] up to line 457 and [R] from line 458 on. *)
Lemma plain_main (R0 R Q : list event -> state -> Prop) :
  plainly R0 X -> plainly R X ->
  (forall pre s, R0 pre s -> R pre (set_unfinished 0 (Some EmptyString) s)) ->
  triple R receive R X ->
  triple R (shut_down cfg) R X ->
  triple R (finish cfg ;; return_ 0 : M unit) Q X ->
  triple R0 (main cfg) Q X.
Proof.
  intros H0 HR Hcreate Hrecv Hshut Hfin. unfold main.
  eapply triple_bind; [|intros _; exact Hfin].
  unfold schedule.
  eapply triple_bind with (Q := R0).
  { apply triple_modify. intros pre s H.
    eapply (proj1 (proj2 H0)); [| | | |eassumption]; reflexivity. }
  intros _. eapply triple_bind; [apply plain_spawn_all; exact H0 | intros _].
  eapply triple_bind; [apply plain_first_batch; exact H0 | intros _].
  eapply triple_bind with (Q := R); [apply triple_modify; exact Hcreate|].
  intros _. eapply triple_bind; [apply plain_steady; assumption | intros _].
  apply plain_drain; assumption.
Qed.

End Plain.

(** ** What the master prints, halts and sums *)

Section Reports.
Import Report.
Context {K : Macros}.
Variable cfg : setup.

Lemma verdicts_app (l1 l2 : list event) :
  verdicts (l1 ++ l2) = verdicts l1 ++ verdicts l2.
Proof.
  induction l1 as [|e l1 IH]; [reflexivity|].
  destruct e as [| | | |l|l| | | |]; try destruct l; simpl; rewrite ?IH;
    reflexivity.
Qed.

Lemma halts_app (l1 l2 : list event) :
  halts (l1 ++ l2) = (halts l1 + halts l2)%nat.
Proof.
  induction l1 as [|e l1 IH]; [reflexivity|].
  destruct e; simpl; rewrite ?IH; reflexivity.
Qed.

Lemma lifetimes_app (l1 l2 : list event) :
  lifetimes (l1 ++ l2) = lifetimes l1 ++ lifetimes l2.
Proof.
  induction l1 as [|e l1 IH]; [reflexivity|].
  destruct e as [| | | |l|l| | | |]; try destruct l; simpl; rewrite ?IH;
    reflexivity.
Qed.

(** A plain event is no result, no verdict, no [pvm_halt] and no lifetime. *)
Lemma plain_readings (e : event) :
  plain e ->
  results [e] = [] /\ verdicts [e] = [] /\ halts [e] = O
  /\ lifetimes [e] = [].
Proof.
  destruct e as [| | | |l|l| | | |]; try destruct l; cbn [plain];
    intros H; try contradiction; repeat split.
Qed.

Lemma unpack_result_time b rest s :
  total_total_time (unpack_result b rest s) = total_total_time s.
Proof.
  unfold unpack_result.
  destruct (pvm_upkint (itid s) b) as [i b1].
  destruct (pvm_upkint (taskNumber s) b1) as [n b2].
  destruct (pvm_upkint (status s) b2) as [st b3].
  destruct (pvm_upkstr (aux_str s) b3) as [a b4]. reflexivity.
Qed.

Lemma unpack_exec_time_time s :
  total_total_time (unpack_exec_time s) = total_total_time s.
Proof.
  unfold unpack_exec_time.
  destruct (pvm_upkdouble (exec_time s) (rbuf s)) as [d b]. reflexivity.
Qed.

Lemma unpack_total_time_fields s :
  unfinishedTasks (unpack_total_time s) = unfinishedTasks s
  /\ unfinished_tasks_present (unpack_total_time s)
     = unfinished_tasks_present s
  /\ total_total_time (unpack_total_time s) = total_total_time s
  /\ itid (unpack_total_time s) = itid s
  /\ inbox (unpack_total_time s) = inbox s.
Proof.
  unfold unpack_total_time.
  destruct (pvm_upkdouble (total_time s) (rbuf s)) as [d b]. repeat split.
Qed.

(** Lines 467-504 (629-666): either no message arrives, or a result is
    received and one line is printed about it; the line is an error line,
    and unfinished_tasks.txt is written and flagged, exactly when the status
    is one of the three. *)
Lemma receive_cases (s : state) :
  receive s = ([], Blocked, s)
  \/ exists r l s',
       receive s = ([PvmRecv r; l], Next tt, s')
       /\ verdicts [l] = [verdict_of r]
       /\ results [l] = [] /\ halts [l] = O /\ lifetimes [l] = []
       /\ total_total_time s' = total_total_time s
       /\ (if not_ok r
           then unfinished_tasks_present s' = 1 /\ unfinishedTasks s' <> None
           else unfinished_tasks_present s' = unfinished_tasks_present s
                /\ unfinishedTasks s' = unfinishedTasks s).
Proof.
  unfold receive, recv_result, bind.
  destruct (inbox s) as [|b rest]; [now left | right].
  pose proof (unpack_result_file b rest s) as [Ef Ep].
  pose proof (unpack_result_time b rest s) as Et.
  set (s1 := unpack_result b rest s) in *.
  pose proof (unpack_exec_time_fields s1) as (Ef2 & Ep2 & _).
  pose proof (unpack_exec_time_time s1) as Et2.
  unfold classify, bind, get, emit, modify, append_unfinished, ret,
    verdict_of, not_ok.
  cbn [r_status r_taskNumber List.app].
  destruct (status s1 =? ST_MEM_ERR) eqn:E1;
    [|destruct (status s1 =? ST_FORK_ERR) eqn:E2;
      [|destruct (status s1 =? ST_TASK_KILLED) eqn:E3]];
    cbn [orb]; do 3 eexists; (split; [reflexivity|]);
    unfold verdict_of, not_ok;
    cbn [r_status r_taskNumber verdicts results halts lifetimes
         total_total_time unfinished_tasks_present unfinishedTasks
         set_unfinished];
    rewrite ?E1, ?E2, ?E3; cbn [orb];
    repeat split; try congruence.
Qed.

(** Lines 667-675: the slot is outside [taskId], or it is sent the stop
    message, its lifetime is printed and added to the sum. *)
Lemma shut_down_cases (s : state) :
  (exists s', shut_down cfg s = ([], Undefined, s')
     /\ total_total_time s' = total_total_time s
     /\ unfinished_tasks_present s' = unfinished_tasks_present s
     /\ unfinishedTasks s' = unfinishedTasks s
     /\ inbox s' = inbox s)
  \/ exists i d s',
       shut_down cfg s
       = ([PvmSend i MSG_STOP [PkInt MSG_STOP];
           Stdout (INFO_shutting_down i d)], Next tt, s')
       /\ total_total_time s' = dadd (total_total_time s) d
       /\ unfinished_tasks_present s' = unfinished_tasks_present s
       /\ unfinishedTasks s' = unfinishedTasks s
       /\ inbox s' = inbox s.
Proof.
  pose proof (unpack_total_time_fields s) as (Ef & Ep & Et & Ei & Eb).
  unfold shut_down, bind, modify, get, emit, taskId, ret, undefined.
  set (s1 := unpack_total_time s) in *.
  destruct ((0 <=? itid s1) && (itid s1 <? maxConcurrentTasks cfg)).
  - right. do 3 eexists. split; [reflexivity|].
    cbn [total_total_time unfinished_tasks_present unfinishedTasks
         inbox add_total_time]. rewrite Et. auto.
  - left. eexists. split; [reflexivity|]. auto.
Qed.

(** Lines 678-725: the summed time is printed, the program file and the
    scripts are tidied up, [rm] is run on unfinished_tasks.txt if its flag
    is 0, and [pvm_halt] is the last call before [return 0]. *)
Lemma finish_return_0 (s : state) :
  exists mid s',
    (finish cfg ;; return_ 0 : M unit) s
    = (Stdout (END_OF_EXECUTION (total_total_time s)) :: mid ++ [PvmHalt],
       Return 0, s')
    /\ Forall plain mid
    /\ total_total_time s' = total_total_time s
    /\ unfinishedTasks s'
       = (if (unfinished_tasks_present s =? 0) && rm_removes cfg
          then None else unfinishedTasks s)
    /\ inbox s' = inbox s.
Proof.
  exists
    ((if maple_single_cpu (args cfg) =? 0 then []
      else RestoreProgram
             :: (if mv_ret cfg =? 0 then []
                 else [Stderr ERROR_clean_up_maple]))
     ++ (if (task_type cfg =? 3) || (task_type cfg =? 4)
            || (task_type cfg =? 5)
         then [RemoveScripts] else [])
     ++ (if unfinished_tasks_present s =? 0
         then RemoveUnfinished
                :: (if rm_ret cfg =? 0 then []
                    else [Stderr ERROR_clean_up_unfinished])
         else [])).
  unfold finish, bind, get, emit, modify, ret, return_.
  destruct (maple_single_cpu (args cfg) =? 0);
    destruct (mv_ret cfg =? 0);
    destruct ((task_type cfg =? 3) || (task_type cfg =? 4)
              || (task_type cfg =? 5));
    destruct (unfinished_tasks_present s =? 0);
    destruct (rm_removes cfg);
    destruct (rm_ret cfg =? 0);
    cbn [List.app andb];
    eexists; (split; [reflexivity|]);
    (split; [repeat constructor | repeat split]).
Qed.

Lemma plain_list_readings (l : list event) :
  Forall plain l ->
  results l = [] /\ verdicts l = [] /\ halts l = O /\ lifetimes l = [].
Proof.
  induction 1 as [|e l He _ (E1 & E2 & E3 & E4)]; [repeat split|].
  destruct (plain_readings e He) as (F1 & F2 & F3 & F4).
  change (e :: l) with ([e] ++ l).
  rewrite results_app, verdicts_app, halts_app, lifetimes_app.
  rewrite E1, E2, E3, E4, F1, F2, F3, F4. repeat split.
Qed.

End Reports.

Section MasterMore.
Import Report.
Context {K : Macros}.
Variable cfg : setup.

(** X8.  [pvm_halt] and the way [main] ends (lines 347-725).  [main] never
    runs off its end.  When it returns 0, E_PVM_SPAWN or
    E_DATAFILE_FIRSTCOL, [pvm_halt] has been called once and it is the last
    thing done; when it returns E_IO (a script could not be written) it has
    not been called at all: the daemon is left running.  Nor is it called
    when the run stops without returning. *)
Theorem daemon_halted_last_or_left_running (s : state) :
  let '(evs, o, _) := main cfg s in
  match o with
  | Return c =>
      (ends_with_halt evs
       /\ (c = 0 \/ c = E_PVM_SPAWN \/ c = E_DATAFILE_FIRSTCOL))
      \/ (c = E_IO /\ halts evs = O)
  | Next _ => False
  | Blocked | Undefined => halts evs = O
  end.
Proof.
  destruct (main cfg s) as [[evs o] s'] eqn:E.
  assert (HR : plainly not_halted halted_at_exit).
  { unfold plainly, not_halted, halted_at_exit.
    split; [|split; [|split; [|split]]]; try (intros; assumption).
    - intros pre s0 e He H. destruct (plain_readings e He) as (_ & _ & F & _).
      now rewrite halts_app, H, F.
    - intros pre s0 a c Ha Hc H. left. split; [|tauto].
      exists (pre ++ [a]). rewrite <- app_assoc. split; [reflexivity|].
      destruct (plain_readings a Ha) as (_ & _ & F & _).
      now rewrite halts_app, H, F.
    - intros pre s0 H. now right. }
  assert (Hrecv : triple not_halted receive not_halted halted_at_exit).
  { intros pre s0 e1 o1 s1 H E1.
    destruct (receive_cases s0) as [B|(r & l & s2 & B & _ & _ & F & _)];
      rewrite B in E1; injection E1 as <- <- <-.
    - now rewrite app_nil_r.
    - unfold not_halted in *. change [PvmRecv r; l] with ([PvmRecv r] ++ [l]).
      now rewrite !halts_app, H, F. }
  assert (Hshut : triple not_halted (shut_down cfg) not_halted halted_at_exit).
  { intros pre s0 e1 o1 s1 H E1.
    destruct (shut_down_cases cfg s0) as [(s2 & B & _)|(i & d & s2 & B & _)];
      rewrite B in E1; injection E1 as <- <- <-.
    - now rewrite app_nil_r.
    - unfold not_halted in *. now rewrite halts_app, H. }
  assert (Hfin : triple not_halted (finish cfg ;; return_ 0 : M unit)
                   (fun _ _ => False) halted_at_exit).
  { intros pre s0 e1 o1 s1 H E1.
    destruct (finish_return_0 cfg s0) as (mid & s2 & B & Hmid & _).
    rewrite B in E1. injection E1 as <- <- <-. left. split; [|now left].
    exists (pre ++ Stdout (END_OF_EXECUTION (total_total_time s0)) :: mid).
    rewrite <- app_assoc. split; [reflexivity|].
    destruct (plain_list_readings mid Hmid) as (_ & _ & F & _).
    unfold not_halted in H. rewrite halts_app, H. exact F. }
  exact (plain_main cfg halted_at_exit not_halted not_halted _
           HR HR (fun pre s0 H => H) Hrecv Hshut Hfin [] s evs o s'
           eq_refl E).
Qed.

(** X9.  Every result received is answered by one line, in the order of
    receipt: an ERROR line on stderr naming the task when its status is
    ST_MEM_ERR, ST_FORK_ERR or ST_TASK_KILLED, TASK_COMPLETED on stdout
    otherwise; and no such line is printed without a result.  This holds
    however the run ends. *)
Theorem one_verdict_per_result (s : state) :
  let '(evs, _, _) := main cfg s in
  verdicts evs = map verdict_of (results evs).
Proof.
  destruct (main cfg s) as [[evs o] s'] eqn:E.
  assert (Hplain : forall pre e, plain e ->
            verdicts pre = map verdict_of (results pre) ->
            verdicts (pre ++ [e]) = map verdict_of (results (pre ++ [e]))).
  { intros pre e He H. destruct (plain_readings e He) as (F1 & F2 & _).
    now rewrite verdicts_app, results_app, F1, F2, !app_nil_r. }
  assert (Hhalt : forall pre,
            verdicts pre = map verdict_of (results pre) ->
            verdicts (pre ++ [PvmHalt])
            = map verdict_of (results (pre ++ [PvmHalt]))).
  { intros pre H. rewrite verdicts_app, results_app. cbn [verdicts results].
    now rewrite !app_nil_r. }
  assert (HR : plainly reported reported_at_exit).
  { unfold plainly, reported, reported_at_exit.
    split; [|split; [|split; [|split]]]; auto.
    intros pre s0 a c Ha _ H. change [a; PvmHalt] with ([a] ++ [PvmHalt]).
    rewrite app_assoc. auto. }
  assert (Hrecv : triple reported receive reported reported_at_exit).
  { intros pre s0 e1 o1 s1 H E1.
    destruct (receive_cases s0) as [B|(r & l & s2 & B & F1 & F2 & _)];
      rewrite B in E1; injection E1 as <- <- <-.
    - now rewrite app_nil_r.
    - unfold reported in *. change [PvmRecv r; l] with ([PvmRecv r] ++ [l]).
      rewrite !verdicts_app, !results_app, F1, F2, H, !map_app.
      reflexivity. }
  assert (Hshut : triple reported (shut_down cfg) reported reported_at_exit).
  { intros pre s0 e1 o1 s1 H E1.
    destruct (shut_down_cases cfg s0) as [(s2 & B & _)|(i & d & s2 & B & _)];
      rewrite B in E1; injection E1 as <- <- <-.
    - now rewrite app_nil_r.
    - unfold reported in *. rewrite verdicts_app, results_app.
      cbn [verdicts results]. now rewrite !app_nil_r. }
  assert (Hfin : triple reported (finish cfg ;; return_ 0 : M unit)
                   reported reported_at_exit).
  { intros pre s0 e1 o1 s1 H E1.
    destruct (finish_return_0 cfg s0) as (mid & s2 & B & Hmid & _).
    rewrite B in E1. injection E1 as <- <- <-.
    unfold reported, reported_at_exit in *.
    destruct (plain_list_readings mid Hmid) as (F1 & F2 & _).
    change (?a :: mid ++ [PvmHalt]) with ([a] ++ mid ++ [PvmHalt]).
    rewrite !verdicts_app, !results_app, F1, F2. cbn [verdicts results].
    now rewrite !app_nil_r. }
  pose proof (plain_main cfg reported_at_exit reported reported _
                HR HR (fun pre s0 H => H) Hrecv Hshut Hfin [] s evs o s'
                eq_refl E) as H.
  destruct o; exact H.
Qed.

(** X10.  The summed time: when [main] stops, however it does,
    total_total_time is the value it had at line 347 plus the lifetimes
    printed by the INFO_shutting_down lines, added in the order of printing;
    and a run that returns 0 has printed END_OF_EXECUTION with that sum.
    E_IO is a macro of a header that is not among the sources, so that it
    differs from 0 is asked. *)
Theorem summed_time_is_printed (s : state) (evs : list event)
  (o : outcome unit) (s' : state) :
  main cfg s = (evs, o, s') ->
  E_IO <> 0 ->
  total_total_time s'
  = fold_left dadd (lifetimes evs) (total_total_time s)
  /\ (o = Return 0 ->
      In (Stdout (END_OF_EXECUTION (total_total_time s'))) evs).
Proof.
  intros E HIO. set (t0 := total_total_time s).
  assert (HR : plainly (summed t0) (summed_at_exit t0)).
  { unfold plainly, summed, summed_at_exit.
    split; [|split; [|split; [|split]]].
    - intros pre s0 e He H. destruct (plain_readings e He) as (_ & _ & _ & F).
      now rewrite lifetimes_app, F, app_nil_r.
    - intros pre s0 s2 _ _ Et H. now rewrite Et.
    - intros pre s0 H. split; [assumption | discriminate].
    - intros pre s0 a c Ha Hc H.
      destruct (plain_readings a Ha) as (_ & _ & _ & F).
      change [a; PvmHalt] with ([a] ++ [PvmHalt]).
      rewrite !lifetimes_app, F. cbn [lifetimes]. rewrite !app_nil_r.
      split; [assumption|]. intros [= ->].
      destruct Hc as [Hc|Hc]; discriminate Hc.
    - intros pre s0 H. split; [assumption|]. intros [= E0]. contradiction. }
  assert (Hrecv : triple (summed t0) receive (summed t0) (summed_at_exit t0)).
  { intros pre s0 e1 o1 s1 H E1.
    destruct (receive_cases s0)
      as [B|(r & l & s2 & B & _ & _ & _ & F & Et & _)];
      rewrite B in E1; injection E1 as <- <- <-.
    - rewrite app_nil_r. split; [assumption | discriminate].
    - unfold summed in *. change [PvmRecv r; l] with ([PvmRecv r] ++ [l]).
      rewrite !lifetimes_app, F. cbn [lifetimes]. rewrite !app_nil_r.
      congruence. }
  assert (Hshut : triple (summed t0) (shut_down cfg) (summed t0)
                    (summed_at_exit t0)).
  { intros pre s0 e1 o1 s1 H E1.
    destruct (shut_down_cases cfg s0)
      as [(s2 & B & Et & _)|(i & d & s2 & B & Et & _)];
      rewrite B in E1; injection E1 as <- <- <-.
    - rewrite app_nil_r. split; [|discriminate]. unfold summed in H.
      congruence.
    - unfold summed in *. rewrite lifetimes_app. cbn [lifetimes].
      rewrite fold_left_app. cbn [fold_left]. congruence. }
  assert (Hfin : triple (summed t0) (finish cfg ;; return_ 0 : M unit)
                   (fun _ _ => False) (summed_at_exit t0)).
  { intros pre s0 e1 o1 s1 H E1.
    destruct (finish_return_0 cfg s0) as (mid & s2 & B & Hmid & Et & _ & _).
    rewrite B in E1. injection E1 as <- <- <-.
    unfold summed, summed_at_exit in *.
    destruct (plain_list_readings mid Hmid) as (_ & _ & _ & F).
    split.
    - change (?a :: mid ++ [PvmHalt]) with ([a] ++ mid ++ [PvmHalt]).
      rewrite !lifetimes_app, F. cbn [lifetimes]. rewrite !app_nil_r.
      congruence.
    - intros _ _. rewrite Et. apply in_or_app. right. now left. }
  pose proof (plain_main cfg (summed_at_exit t0) (summed t0) (summed t0) _
                HR HR (fun pre s0 H => H) Hrecv Hshut Hfin [] s evs o s'
                eq_refl E) as H.
  destruct o as [a|c| |]; try (destruct H as [H _]; split;
    [exact H | discriminate]); [contradiction|].
  destruct H as [H H2]. split; [exact H|].
  intros [= ->]. now apply H2.
Qed.

(** X11.  unfinished_tasks.txt after a run that returns 0 (lines 458-463,
    477-480 and their copies, 713-720): the file is gone if and only if no
    result came with status ST_MEM_ERR, ST_FORK_ERR or ST_TASK_KILLED and
    the [rm] of line 715 has removed it.  The file is there whenever some
    result came with one of the three statuses, and whenever that command
    fails to remove it. *)
Theorem unfinished_file_kept_iff_some_failed (s : state) (evs : list event)
  (s' : state) :
  main cfg s = (evs, Return 0, s') ->
  E_IO <> 0 ->
  unfinishedTasks s' = None
  <-> filter not_ok (results evs) = [] /\ rm_removes cfg = true.
Proof.
  intros E HIO.
  set (R0 := fun (pre : list event) (_ : state) => results pre = []).
  assert (H0 : plainly R0 (kept_at_exit cfg)).
  { unfold plainly, R0, kept_at_exit.
    split; [|split; [|split; [|split]]].
    - intros pre s0 e He H. destruct (plain_readings e He) as (F & _).
      now rewrite results_app, H, F.
    - auto.
    - discriminate.
    - intros pre s0 a c Ha Hc H [= ->].
      destruct Hc as [Hc|Hc]; discriminate Hc.
    - intros pre s0 H [= E0]. contradiction. }
  assert (HR : plainly tracked (kept_at_exit cfg)).
  { unfold plainly, tracked, kept_at_exit.
    split; [|split; [|split; [|split]]].
    - intros pre s0 e He H. destruct (plain_readings e He) as (F & _).
      now rewrite results_app, F, app_nil_r.
    - intros pre s0 s2 Ef Ep _ _ H. now rewrite Ef, Ep.
    - discriminate.
    - intros pre s0 a c Ha Hc H [= ->].
      destruct Hc as [Hc|Hc]; discriminate Hc.
    - intros pre s0 H [= E0]. contradiction. }
  assert (Hcreate : forall pre s0,
            R0 pre s0 -> tracked pre (set_unfinished 0 (Some EmptyString) s0)).
  { unfold R0, tracked. intros pre s0 ->.
    cbn [unfinishedTasks unfinished_tasks_present set_unfinished filter].
    split; [discriminate | tauto]. }
  assert (Hrecv : triple tracked receive tracked (kept_at_exit cfg)).
  { intros pre s0 e1 o1 s1 H E1.
    destruct (receive_cases s0)
      as [B|(r & l & s2 & B & _ & F & _ & _ & _ & Hf)];
      rewrite B in E1; injection E1 as <- <- <-.
    - discriminate.
    - unfold tracked in *. change [PvmRecv r; l] with ([PvmRecv r] ++ [l]).
      rewrite !results_app, F, app_nil_r, filter_app.
      cbn [results filter]. destruct H as [Hsome Hflag].
      destruct (not_ok r).
      + destruct Hf as [-> Hn]. split; [exact Hn|]. split; [discriminate|].
        intros Hnil. now apply app_eq_nil in Hnil as [_ Hnil].
      + destruct Hf as [-> ->]. now rewrite app_nil_r. }
  assert (Hshut : triple tracked (shut_down cfg) tracked (kept_at_exit cfg)).
  { intros pre s0 e1 o1 s1 H E1.
    destruct (shut_down_cases cfg s0)
      as [(s2 & B & _)|(i & d & s2 & B & _ & Ep & Ef & _)];
      rewrite B in E1; injection E1 as <- <- <-.
    - discriminate.
    - unfold tracked in *. rewrite results_app. cbn [results].
      now rewrite app_nil_r, Ep, Ef. }
  assert (Hfin : triple tracked (finish cfg ;; return_ 0 : M unit)
                   (fun _ _ => False) (kept_at_exit cfg)).
  { intros pre s0 e1 o1 s1 [Hsome Hflag] E1.
    destruct (finish_return_0 cfg s0)
      as (mid & s2 & B & Hmid & _ & Ef & _).
    rewrite B in E1. injection E1 as <- <- <-. intros _ _.
    destruct (plain_list_readings mid Hmid) as (F & _).
    change (?a :: mid ++ [PvmHalt]) with ([a] ++ mid ++ [PvmHalt]).
    rewrite !results_app, F. cbn [results]. rewrite !app_nil_r, Ef.
    destruct (Z.eqb_spec (unfinished_tasks_present s0) 0) as [Ez|Ez];
      destruct (rm_removes cfg); cbn [andb].
    - split; [intros _; split; [now apply Hflag | reflexivity] | reflexivity].
    - split; [intros Hn; contradiction | intros [_ Hn]; discriminate Hn].
    - split; [intros Hn; contradiction | intros [Hn _]].
      apply Hflag in Hn. contradiction.
    - split; [intros Hn; contradiction | intros [_ Hn]; discriminate Hn]. }
  exact (plain_main cfg (kept_at_exit cfg) R0 tracked _
           H0 HR Hcreate Hrecv Hshut Hfin [] s evs (Return 0) s'
           eq_refl E eq_refl HIO).
Qed.

(** X12.  A run that returns 0, with as many lines in the data file as
    [nTasks] says, has received exactly one result for each line of the
    data file. *)
Theorem one_result_per_line (s : state) (evs : list event) (s' : state) :
  main cfg s = (evs, Return 0, s') ->
  E_IO <> 0 ->
  nTasks cfg = Z.of_nat (List.length (f_data s)) ->
  0 <= maxConcurrentTasks cfg ->
  List.length (results evs) = List.length (f_data s).
Proof.
  intros Hrun HIO Hn Hm.
  destruct (main_Return_0 cfg s evs s' Hrun HIO)
    as (e1 & s1 & e2 & Hsch & -> & He2).
  destruct (schedule_Next cfg s e1 s1 Hsch Hn Hm)
    as (first & later & last & Hc & HF1 & HF2 & _ & Hlen & _ & _).
  rewrite <- results_comm, comm_app, He2, app_nil_r, Hc.
  rewrite !results_app, greets_results.
  destruct (batch_results cfg _ _ HF1) as [-> _].
  destruct (answered_readings cfg 0 _ _ HF2) as (_ & -> & _).
  destruct (stopped_readings 0 last) as (_ & -> & _).
  cbn [List.app]. rewrite length_app, length_map, Hlen.
  apply Forall2_length in HF2. rewrite <- HF2, length_skipn.
  pose proof (firstBatchSize_min cfg) as HN. lia.
Qed.

End MasterMore.

(** ** The master: the results as the messages give them *)

Section Read.
Import Report.
Context {K : Macros}.
Variable cfg : setup.

Lemma unpack_result_read (b : buffer) (rest : list buffer) (s : state)
  (r : result) :
  read_result b = Some r ->
  itid (unpack_result b rest s) = r_itid r
  /\ taskNumber (unpack_result b rest s) = r_taskNumber r
  /\ status (unpack_result b rest s) = r_status r
  /\ aux_str (unpack_result b rest s) = r_aux_str r.
Proof.
  destruct b as [|[i| | |] [|[n| | |] [|[st| | |] [|[| |a|] b]]]];
    try discriminate.
  intros [= <-]. repeat split.
Qed.

(** Lines 467-504 (629-666) and the messages: a result is taken from the
    head of what is still to arrive, and what is printed of it is what
    [read_result] makes of that message. *)
Lemma receive_reads (s : state) :
  receive s = ([], Blocked, s)
  \/ exists b rest r l s',
       inbox s = b :: rest
       /\ receive s = ([PvmRecv r; l], Next tt, s')
       /\ inbox s' = rest
       /\ results [l] = []
       /\ (readable b -> read_result b = Some r).
Proof.
  unfold receive, recv_result, bind.
  destruct (inbox s) as [|b rest] eqn:Ei; [now left | right].
  assert (Eb : inbox (unpack_result b rest s) = rest).
  { unfold unpack_result.
    destruct (pvm_upkint (itid s) b) as [i b1].
    destruct (pvm_upkint (taskNumber s) b1) as [n b2].
    destruct (pvm_upkint (status s) b2) as [st b3].
    destruct (pvm_upkstr (aux_str s) b3) as [a b4]. reflexivity. }
  assert (Hr : readable b ->
               read_result b
               = Some {| r_itid := itid (unpack_result b rest s);
                         r_taskNumber := taskNumber (unpack_result b rest s);
                         r_status := status (unpack_result b rest s);
                         r_aux_str := aux_str (unpack_result b rest s) |}).
  { unfold readable. intros Hb.
    destruct (read_result b) as [r|] eqn:Er; [|contradiction].
    destruct (unpack_result_read b rest s r Er) as (-> & -> & -> & ->).
    now destruct r. }
  set (s1 := unpack_result b rest s) in *.
  assert (Ex : inbox (unpack_exec_time s1) = inbox s1).
  { unfold unpack_exec_time.
    destruct (pvm_upkdouble (exec_time s1) (rbuf s1)) as [d b']. reflexivity. }
  unfold classify, bind, get, emit, modify, append_unfinished, ret.
  destruct (status s1 =? ST_MEM_ERR);
    [|destruct (status s1 =? ST_FORK_ERR);
      [|destruct (status s1 =? ST_TASK_KILLED)]];
    do 5 eexists; (split; [reflexivity|]); (split; [reflexivity|]);
    cbn [inbox set_unfinished results]; rewrite ?Ex;
    (split; [exact Eb|]); (split; [reflexivity | exact Hr]).
Qed.

(** However the run ends, the results received are what [read_result]
    makes of the first messages that were to arrive, in their order. *)
Lemma results_read_inbox (s : state) (evs : list event) (o : outcome unit)
  (s' : state) :
  main cfg s = (evs, o, s') ->
  Forall readable (inbox s) ->
  map Some (results evs)
  = map read_result (firstn (List.length (results evs)) (inbox s)).
Proof.
  intros E Hall.
  set (inbox0 := inbox s) in *.
  assert (HR : plainly (read_so_far inbox0) (read_at_exit inbox0)).
  { unfold plainly, read_at_exit, read_so_far.
    split; [|split; [|split; [|split]]]; try (intros; assumption).
    - intros pre s0 e He (msgs & E1 & E2).
      destruct (plain_readings e He) as (F & _).
      exists msgs. now rewrite results_app, F, app_nil_r.
    - intros pre s0 s2 _ _ _ Ei (msgs & E1 & E2). exists msgs.
      now rewrite Ei.
    - intros pre s0 a c Ha _ (msgs & E1 & E2).
      destruct (plain_readings a Ha) as (F & _). exists msgs.
      change [a; PvmHalt] with ([a] ++ [PvmHalt]).
      rewrite !results_app, F. cbn [results]. now rewrite !app_nil_r. }
  assert (Hrecv : triple (read_so_far inbox0) receive (read_so_far inbox0)
                    (read_at_exit inbox0)).
  { intros pre s0 e1 o1 s1 (msgs & E1 & E2) Er.
    destruct (receive_reads s0)
      as [B|(b & rest & r & l & s2 & Ei & B & Ei2 & F & Hb)];
      rewrite B in Er; injection Er as <- <- <-.
    - rewrite app_nil_r. now exists msgs.
    - exists (msgs ++ [b]). rewrite Ei2, <- app_assoc. cbn [List.app].
      split; [now rewrite E1, Ei|].
      change [PvmRecv r; l] with ([PvmRecv r] ++ [l]).
      rewrite !results_app, F, app_nil_r, !map_app, E2. cbn [results map].
      rewrite Hb; [reflexivity|].
      rewrite Forall_forall in Hall. apply Hall.
      rewrite E1, Ei. apply in_or_app. right. now left. }
  assert (Hshut : triple (read_so_far inbox0) (shut_down cfg)
                    (read_so_far inbox0) (read_at_exit inbox0)).
  { intros pre s0 e1 o1 s1 (msgs & E1 & E2) Er.
    destruct (shut_down_cases cfg s0)
      as [(s2 & B & _ & _ & _ & Ei)|(i & d & s2 & B & _ & _ & _ & Ei)];
      rewrite B in Er; injection Er as <- <- <-.
    - rewrite app_nil_r. exists msgs. now rewrite Ei.
    - exists msgs. rewrite Ei, results_app. cbn [results].
      now rewrite app_nil_r. }
  assert (Hfin : triple (read_so_far inbox0) (finish cfg ;; return_ 0 : M unit)
                   (read_so_far inbox0) (read_at_exit inbox0)).
  { intros pre s0 e1 o1 s1 (msgs & E1 & E2) Er.
    destruct (finish_return_0 cfg s0) as (mid & s2 & B & Hmid & _ & _ & Ei).
    rewrite B in Er. injection Er as <- <- <-.
    destruct (plain_list_readings mid Hmid) as (F & _).
    exists msgs. rewrite Ei.
    change (?a :: mid ++ [PvmHalt]) with ([a] ++ mid ++ [PvmHalt]).
    rewrite !results_app, F. cbn [results]. now rewrite !app_nil_r. }
  assert (H0 : read_so_far inbox0 [] s) by (now exists []).
  pose proof (plain_main cfg (read_at_exit inbox0) (read_so_far inbox0)
                (read_so_far inbox0) _ HR HR
                (fun pre s0 H => H) Hrecv Hshut Hfin [] s evs o s' H0 E)
    as H.
  assert (Hend : read_so_far inbox0 evs s') by (destruct o; exact H).
  destruct Hend as (msgs & E1 & E2).
  assert (Hlen : List.length (results evs) = List.length msgs).
  { rewrite <- (length_map Some), E2. apply length_map. }
  rewrite E1, Hlen, firstn_app, Nat.sub_diag, firstn_all. cbn [firstn].
  now rewrite app_nil_r.
Qed.

#[local] Ltac split_bind H :=
  let e1 := fresh "e" in let a := fresh "a" in let s1 := fresh "s" in
  let e2 := fresh "e" in let H1 := fresh "H" in
  apply bind_Next in H; destruct H as (e1 & a & s1 & e2 & H1 & H & ->);
  try (match type of a with unit => destruct a end).

#[local] Ltac prim H :=
  cbv [get emit modify ret] in H;
  first [ injection H as <- <- <- | injection H as <- <- ].

Lemma work_args_app (l1 l2 : list event) :
  work_args (l1 ++ l2) = work_args l1 ++ work_args l2.
Proof.
  induction l1 as [|e l1 IH]; [reflexivity|].
  destruct e; cbn [List.app work_args]; rewrite ?IH; try reflexivity.
  destruct (tag =? MSG_WORK); reflexivity.
Qed.

Lemma work_args_traffic (l : list event) :
  work_args (task_traffic l) = work_args l.
Proof.
  induction l as [|e l IH]; [reflexivity|].
  destruct e; cbn [task_traffic work_args]; rewrite ?IH; try reflexivity.
  destruct (tag =? MSG_WORK) eqn:E; [|exact IH].
  cbn [work_args]. now rewrite E, IH.
Qed.

Lemma work_args_comm (l : list event) : work_args (comm l) = work_args l.
Proof.
  now rewrite <- work_args_traffic, task_traffic_comm, work_args_traffic.
Qed.

Lemma line_args_app (l1 l2 : list string) :
  forall mem,
    line_args mem (l1 ++ l2)
    = line_args mem l1 ++ line_args (fold_left read_and_cut l1 mem) l2.
Proof.
  induction l1 as [|l l1 IH]; intros mem; [reflexivity|].
  cbn [List.app line_args fold_left]. now rewrite IH.
Qed.

(** Lines 419-449: the arguments go into the message as they are. *)
Lemma send_task_args slot n a s evs s' :
  send_task cfg slot n a s = (evs, Next tt, s') ->
  work_args evs = [Some a]
  /\ line_buffer s' = line_buffer s /\ f_data s' = f_data s.
Proof.
  intros H. pose proof (send_task_Next cfg slot n a s evs s' H) as (Hc & Hf & _).
  rewrite <- work_args_comm, Hc. cbn [work_args work_msg nth_error].
  rewrite Z.eqb_refl. split; [reflexivity|]. split; [|exact Hf].
  unfold send_task in H.
  split_bind H. prim H0.
  split_bind H. apply write_script_Next in H0 as (_ & ->).
  split_bind H. apply taskId_Next in H0 as (_ & _ & -> & _).
  split_bind H. prim H0. prim H. reflexivity.
Qed.

(** Lines 400-449: the arguments sent with a line, [buffer] holding it. *)
Lemma dispatch_args slot b s evs s' :
  dispatch cfg slot b s = (evs, Next tt, s') ->
  work_args evs
  = [match task_of_line b with
     | Task _ a => Some a
     | OutsideLine n =>
         cstring (drop (String.length (sprintf_d n) + 1)
                    (poke (String.length b - 1) NUL (line_buffer s)))
     | NoTaskId => None
     end]
  /\ line_buffer s' = poke (String.length b - 1) NUL (line_buffer s)
  /\ f_data s' = f_data s.
Proof.
  unfold dispatch. intros H.
  destruct (task_of_line b) as [|n|n a].
  - split_bind H. split_bind H. discriminate H.
  - split_bind H. prim H0. split_bind H. prim H0.
    cbn [cut_line line_buffer set_line_buffer] in H.
    destruct (cstring _) as [a|] eqn:E; [|discriminate H].
    apply send_task_args in H as (Ha & Hb & Hf).
    cbn [List.app]. rewrite Ha, Hb, Hf. repeat split.
  - split_bind H. prim H0.
    apply send_task_args in H as (Ha & Hb & Hf).
    cbn [List.app]. rewrite Ha, Hb, Hf. repeat split.
Qed.

(** Lines 398-451: the arguments sent in [n] turns of the loop. *)
Lemma batch_args (n : nat) :
  forall from s evs s',
    for_ n from (fun i =>
      l <- fgets ;;
      match l with
      | Some buffer => dispatch cfg i buffer
      | None => ret tt
      end) s = (evs, Next tt, s') ->
    (n <= List.length (f_data s))%nat ->
    work_args evs = line_args (line_buffer s) (firstn n (f_data s))
    /\ line_buffer s'
       = fold_left read_and_cut (firstn n (f_data s)) (line_buffer s)
    /\ f_data s' = skipn n (f_data s).
Proof.
  induction n as [|n IH]; intros from s evs s' H Hn; cbn [for_] in H.
  - prim H. repeat split.
  - split_bind H. split_bind H0.
    apply fgets_Next in H1 as (-> & Hl).
    destruct (f_data s) as [|b rest] eqn:Ef; [cbn in Hn; lia|].
    destruct Hl as [-> ->].
    apply dispatch_args in H0 as (Ha & Hb & Hf).
    cbn [f_data line_buffer set_f_data set_line_buffer] in Ha, Hb, Hf.
    apply IH in H as (Ha2 & Hb2 & Hf2); [|rewrite Hf; cbn in Hn; lia].
    rewrite Hf, Hb in *.
    cbn [List.app firstn skipn line_args fold_left].
    rewrite work_args_app, Ha, Ha2, Hb2, Hf2. unfold read_and_cut.
    repeat split.
Qed.

Lemma receive_keeps_lines s evs s' :
  receive s = (evs, Next tt, s') ->
  work_args evs = []
  /\ line_buffer s' = line_buffer s /\ f_data s' = f_data s.
Proof.
  intros H.
  destruct (receive_Next s evs s' H) as (r & Hc & _ & Hf).
  rewrite <- work_args_comm, Hc. split; [reflexivity|]. split; [|exact Hf].
  revert H. unfold receive, recv_result, bind.
  destruct (inbox s) as [|b rest]; [discriminate|].
  assert (Eb : line_buffer (unpack_result b rest s) = line_buffer s).
  { unfold unpack_result.
    destruct (pvm_upkint (itid s) b) as [i b1].
    destruct (pvm_upkint (taskNumber s) b1) as [n b2].
    destruct (pvm_upkint (status s) b2) as [st b3].
    destruct (pvm_upkstr (aux_str s) b3) as [a b4]. reflexivity. }
  set (s1 := unpack_result b rest s) in *.
  assert (Ex : line_buffer (unpack_exec_time s1) = line_buffer s1).
  { unfold unpack_exec_time.
    destruct (pvm_upkdouble (exec_time s1) (rbuf s1)) as [d b']. reflexivity. }
  unfold classify, bind, get, emit, modify, append_unfinished, ret.
  destruct (status s1 =? ST_MEM_ERR);
    [|destruct (status s1 =? ST_FORK_ERR);
      [|destruct (status s1 =? ST_TASK_KILLED)]];
    intros [= _ <-]; cbn [line_buffer set_unfinished]; rewrite ?Ex;
    exact Eb.
Qed.

(** Lines 465-622: the arguments sent in [n] turns of the loop. *)
Lemma steady_args (n : nat) :
  forall from s evs s',
    for_ n from (fun _ =>
      receive ;;
      l <- fgets ;;
      match l with
      | Some buffer => i <- get itid ;; dispatch cfg i buffer
      | None => ret tt
      end) s = (evs, Next tt, s') ->
    (n <= List.length (f_data s))%nat ->
    work_args evs = line_args (line_buffer s) (firstn n (f_data s))
    /\ f_data s' = skipn n (f_data s).
Proof.
  induction n as [|n IH]; intros from s evs s' H Hn; cbn [for_] in H.
  - prim H. repeat split.
  - split_bind H. split_bind H0.
    apply receive_keeps_lines in H1 as (Hr & Hb0 & Hf0).
    split_bind H0. apply fgets_Next in H1 as (-> & Hl).
    rewrite Hf0 in Hl.
    destruct (f_data s) as [|b rest] eqn:Ef; [cbn in Hn; lia|].
    destruct Hl as [-> ->].
    split_bind H0. prim H1.
    apply dispatch_args in H0 as (Ha & Hb & Hf).
    cbn [f_data line_buffer set_f_data set_line_buffer] in Ha, Hb, Hf.
    apply IH in H as (Ha2 & Hf2); [|rewrite Hf; cbn in Hn; lia].
    rewrite Hf, Hb, Hb0 in *.
    cbn [List.app firstn skipn line_args].
    rewrite !work_args_app, Hr, Ha, Ha2, Hf2. unfold read_and_cut.
    repeat split.
Qed.

(** The arguments of the work messages of lines 347-676, when every loop
    has come to its end, are those of the lines of the data file. *)
Lemma schedule_args s evs s' :
  schedule cfg s = (evs, Next tt, s') ->
  MSG_WORK <> MSG_GREETING ->
  MSG_WORK <> MSG_STOP ->
  nTasks cfg = Z.of_nat (List.length (f_data s)) ->
  0 <= maxConcurrentTasks cfg ->
  work_args evs = line_args (line_buffer s) (f_data s).
Proof.
  intros H Hg Hs Hn Hm. unfold schedule in H.
  pose proof (firstBatchSize_min cfg) as HN.
  split_bind H. cbv [modify] in H0. injection H0 as <- <-.
  split_bind H. apply spawn_all_Next in H0 as (Hgr & -> & _).
  split_bind H. unfold first_batch in H0.
  apply batch_args in H0 as (Hfirst & Hb1 & Hf1);
    cbn [f_data line_buffer set_itid] in *; [|lia].
  split_bind H. cbv [create_unfinished modify] in H0. injection H0 as <- <-.
  split_bind H.
  apply drain_Next in H as (last & Hlast & _ & _).
  assert (Hgreets : work_args e = []).
  { rewrite <- work_args_comm, Hgr, <- work_args_traffic.
    now rewrite (greets_traffic cfg _ Hg). }
  assert (Hstops : work_args e2 = []).
  { rewrite <- work_args_comm, Hlast, <- work_args_traffic.
    destruct (stopped_readings 0 last) as (_ & _ & E). rewrite (E Hs).
    clear. induction last as [|r last IH]; [reflexivity | exact IH]. }
  assert (Hlater : work_args e1
                   = line_args (line_buffer s0)
                       (skipn (Z.to_nat (firstBatchSize cfg)) (f_data s))).
  { unfold steady in H0.
    destruct (Z.gtb_spec (nTasks cfg) (maxConcurrentTasks cfg)) as [G|G].
    - apply steady_args in H0 as (Hl & _);
        cbn [f_data line_buffer set_unfinished] in *; rewrite Hf1 in *.
      + rewrite firstn_all2 in Hl; [assumption|].
        rewrite length_skipn. lia.
      + rewrite length_skipn. lia.
    - cbv [ret] in H0. injection H0 as <- <-.
      rewrite skipn_all2; [reflexivity | lia]. }
  rewrite !work_args_app, Hfirst, Hgreets, Hstops, Hlater, Hb1.
  cbn [List.app work_args]. rewrite app_nil_r, <- line_args_app.
  now rewrite firstn_skipn.
Qed.


(** C6, as the code has it.  In a run that returns 0, with as many lines in
    the data file as [nTasks] says: the work messages and the results
    follow each other as [first], then a result and the work sent in answer
    to it for each of [later], then the results [last].  [first] carries
    line i to slot i for the N = min(nTasks, maxConcurrentTasks) first
    lines; [later] carries each of the other lines, in their order, to the
    slot named in the result received just before, which is the first item
    of the message that arrived.  The arguments sent are, in the order of
    the lines, those that lines 414-418 find for each line. *)
Theorem dispatch_order (s : state) (evs : list event) (s' : state) :
  main cfg s = (evs, Return 0, s') ->
  E_IO <> 0 ->
  MSG_WORK <> MSG_GREETING ->
  MSG_WORK <> MSG_STOP ->
  nTasks cfg = Z.of_nat (List.length (f_data s)) ->
  0 <= maxConcurrentTasks cfg ->
  let N := Z.to_nat (Z.min (nTasks cfg) (maxConcurrentTasks cfg)) in
  exists first later last,
    task_traffic evs = first ++ flat_map answered later ++ map PvmRecv last
    /\ Forall2 (fun p e => carries cfg (fst p) (snd p) e)
         (combine (zseq 0 N) (firstn N (f_data s))) first
    /\ List.length first = N
    /\ Forall2 (fun l p => carries cfg (r_itid (fst p)) l (snd p))
         (skipn N (f_data s)) later
    /\ List.length later = (List.length (f_data s) - N)%nat
    /\ List.length last = N
    /\ work_args evs = line_args (line_buffer s) (f_data s)
    /\ (Forall readable (inbox s) ->
        map Some (map fst later ++ last)
        = map read_result (firstn (List.length (f_data s)) (inbox s))).
Proof.
  intros Hrun HIO Hg Hs Hn Hm N. subst N.
  rewrite <- (firstBatchSize_min cfg).
  pose proof (results_read_inbox s evs (Return 0) s' Hrun) as Hread.
  destruct (main_Return_0 cfg s evs s' Hrun HIO)
    as (e1 & s1 & e2 & Hsch & -> & He2).
  destruct (schedule_Next cfg s e1 s1 Hsch Hn Hm)
    as (first & later & last & Hc & HF1 & HF2 & _ & Hlen & _ & _).
  exists first, later, last.
  assert (Hargs : work_args (e1 ++ e2)
                  = line_args (line_buffer s) (f_data s)).
  { rewrite work_args_app, <- (work_args_comm e2), He2. cbn [work_args].
    rewrite app_nil_r. exact (schedule_args s e1 s1 Hsch Hg Hs Hn Hm). }
  assert (Hres : results (e1 ++ e2) = map fst later ++ last).
  { rewrite <- results_comm, comm_app, He2, app_nil_r, Hc.
    rewrite !results_app, greets_results.
    destruct (batch_results cfg _ _ HF1) as [-> _].
    destruct (answered_readings cfg 0 _ _ HF2) as (_ & -> & _).
    destruct (stopped_readings 0 last) as (_ & -> & _). reflexivity. }
  rewrite <- task_traffic_comm, comm_app, He2, app_nil_r, Hc.
  rewrite !task_traffic_app, (greets_traffic cfg _ Hg).
  destruct (batch_results cfg _ _ HF1) as [_ ->].
  destruct (answered_readings cfg 0 _ _ HF2) as (_ & _ & ->).
  destruct (stopped_readings 0 last) as (_ & _ & E). rewrite (E Hs).
  cbn [List.app]. split; [reflexivity|]. split; [assumption|].
  pose proof (firstBatchSize_min cfg) as HN.
  assert (Hlater : List.length later
                   = (List.length (f_data s)
                      - Z.to_nat (firstBatchSize cfg))%nat)
    by (rewrite <- (Forall2_length HF2), length_skipn; reflexivity).
  split.
  { rewrite <- (Forall2_length HF1), length_combine, length_zseq,
      length_firstn. lia. }
  split; [assumption|]. split; [assumption|]. split; [assumption|].
  split; [assumption|].
  intros Hall. specialize (Hread Hall). rewrite Hres in Hread.
  rewrite Hread. do 2 f_equal.
  rewrite length_app, length_map, Hlater, Hlen. lia.
Qed.

End Read.

Section ReadRuns.
Import Demo.



Lemma dispatch_order_witness :
  let cfg := two_cores 3 in
  let evs := fst (fst three_tasks) in
  let s' := snd three_tasks in
  let s := start [line "1,5,6"; line "2,7,8"; line "3,9,10"]
             [full_result 1 2 ST_TASK_KILLED "7,8" quarter one;
              full_result 0 1 0 "5,6" half two;
              full_result 1 3 0 "9,10" half four] in
  main cfg s = (evs, Return 0, s')
  /\ E_IO <> 0
  /\ MSG_WORK <> MSG_GREETING
  /\ MSG_WORK <> MSG_STOP
  /\ nTasks cfg = Z.of_nat (List.length (f_data s))
  /\ 0 <= maxConcurrentTasks cfg
  /\ Forall readable (inbox s)
  /\ (let N := Z.to_nat (Z.min (nTasks cfg) (maxConcurrentTasks cfg)) in
      exists first later last,
        task_traffic evs = first ++ flat_map answered later ++ map PvmRecv last
        /\ Forall2 (fun p e => carries cfg (fst p) (snd p) e)
             (combine (zseq 0 N) (firstn N (f_data s))) first
        /\ List.length first = N
        /\ Forall2 (fun l p => carries cfg (r_itid (fst p)) l (snd p))
             (skipn N (f_data s)) later
        /\ List.length later = (List.length (f_data s) - N)%nat
        /\ List.length last = N
        /\ work_args evs = line_args (line_buffer s) (f_data s)
        /\ map Some (map fst later ++ last)
           = map read_result (firstn (List.length (f_data s)) (inbox s))).
Proof.
  intros cfg evs s' s.
  assert (H1 : main cfg s = (evs, Return 0, s')) by (vm_compute; reflexivity).
  assert (H2 : E_IO <> 0) by (intros E; discriminate E).
  assert (H3 : MSG_WORK <> MSG_GREETING) by (intros E; discriminate E).
  assert (H4 : MSG_WORK <> MSG_STOP) by (intros E; discriminate E).
  assert (H5 : nTasks cfg = Z.of_nat (List.length (f_data s))) by reflexivity.
  assert (H6 : 0 <= maxConcurrentTasks cfg) by (intros E; discriminate E).
  assert (H7 : Forall readable (inbox s))
    by (repeat constructor; intros E; discriminate E).
  repeat (split; [assumption|]).
  destruct (dispatch_order cfg s evs s' H1 H2 H3 H4 H5 H6)
    as (first & later & last & A1 & A2 & A3 & A4 & A5 & A6 & A7 & A8).
  exists first, later, last.
  repeat (split; [assumption|]). exact (A8 H7).
Defined.

(** A data file of three lines whose second line is empty, and two slots:
    N is 2, but one task is dispatched; the run returns at line 406. *)
Lemma empty_line_stops_dispatch :
  let cfg := two_cores 3 in
  let s := start [line "1,5,6"; newline; line "3,9,10"]
             [full_result 0 1 0 "5,6" half two] in
  let run := main cfg s in
  nTasks cfg = Z.of_nat (List.length (f_data s))
  /\ Z.min (nTasks cfg) (maxConcurrentTasks cfg) = 2
  /\ snd (fst run) = Return E_DATAFILE_FIRSTCOL
  /\ task_traffic (fst (fst run))
     = [PvmSend 0 MSG_WORK
          [PkInt MSG_GREETING; PkInt 1; PkStr "./prog"; PkStr "out";
           PkStr "5,6"]].
Proof.
  intros cfg s run.
  split; [reflexivity|]. split; [reflexivity|].
  split; vm_compute; reflexivity.
Qed.

End ReadRuns.

(** ** The master: a last line with no newline *)

Section Leftover.
Context {K : Macros}.
Variable cfg : setup.

Lemma drop_poke (c : ascii) (a : string) :
  forall i k, (i < k)%nat -> drop k (poke i c a) = drop k a.
Proof.
  induction a as [|x a IH]; intros i k Hik.
  - now destruct i.
  - destruct k as [|k]; [lia|].
    destruct i as [|i]; cbn [poke drop]; [reflexivity|].
    apply IH. lia.
Qed.

Lemma drop_append_le (a b : string) :
  forall k, (k <= String.length a)%nat ->
    drop k (a ++ b) = (drop k a ++ b)%string.
Proof.
  induction a as [|x a IH]; intros k Hk; cbn [String.length] in Hk.
  - now replace k with O by lia.
  - destruct k as [|k]; [reflexivity|]. cbn [append drop]. apply IH. lia.
Qed.

Lemma drop_behind (a b : string) (c : ascii) :
  drop (S (String.length a)) (a ++ String c b) = b.
Proof. induction a as [|x a IH]; [reflexivity | exact IH]. Qed.

Lemma drop_no_NUL (a : string) :
  forall k, Forall (fun c => c <> NUL) (list_ascii_of_string a) ->
    Forall (fun c => c <> NUL) (list_ascii_of_string (drop k a)).
Proof.
  induction a as [|x a IH]; intros k H.
  - now destruct k.
  - destruct k as [|k]; [exact H|]. cbn [drop]. apply IH.
    cbn [list_ascii_of_string] in H. now inversion H.
Qed.

Lemma cstring_append_NUL (a rest : string) :
  Forall (fun c => c <> NUL) (list_ascii_of_string a) ->
  cstring (a ++ String NUL rest) = Some a.
Proof.
  induction a as [|x a IH]; intros H; cbn [append cstring].
  - now rewrite Ascii.eqb_refl.
  - cbn [list_ascii_of_string] in H. inversion H as [|? ? Hx Ha]. subst.
    destruct (Ascii.eqb_spec x NUL) as [E|_]; [contradiction|].
    now rewrite (IH Ha).
Qed.

Lemma task_of_line_number_only (n : Z) :
  INT_MIN <= n <= INT_MAX -> task_of_line (sprintf_d n) = OutsideLine n.
Proof.
  intros Hn. unfold task_of_line.
  rewrite <- (string_append_empty_r (sprintf_d n)) at 1.
  rewrite sscanf_d_sprintf_d by (assumption || reflexivity).
  destruct (Nat.leb_spec (String.length (sprintf_d n) + 1)
              (String.length (sprintf_d n))); [lia | reflexivity].
Qed.

(** What [buffer] holds after lines 399 and 416 have read and cut a line
    that ends in a newline: the line without it, and a 0. *)
Lemma cut_line_keeps_body (body : string) (s : state) :
  exists rest,
    line_buffer (cut_line (body ++ newline)
                   (set_line_buffer (store (body ++ newline) (line_buffer s))
                      s))
    = (body ++ String NUL rest)%string.
Proof.
  unfold cut_line, store. cbn [line_buffer set_line_buffer].
  rewrite length_append. cbn [String.length newline].
  replace (String.length body + 1 - 1)%nat with (String.length body) by lia.
  generalize (String NUL
    (drop (S (String.length body + 1)) (line_buffer s))).
  intros rest. exists rest.
  induction body as [|x body IH]; [reflexivity|].
  cbn [append String.length poke]. now rewrite IH.
Qed.

(** X20.  The last line of a data file, holding a task number and no
    newline, read when [buffer] holds an earlier and longer line (cut at
    its newline): line 416 overwrites the last digit, and the arguments
    sent with the task are the characters of the earlier line from index
    [aux_size + 1] on. *)
Theorem number_only_line_sends_earlier_arguments
  (slot n : Z) (body rest : string) (l : list string) (s : state) :
  INT_MIN <= n <= INT_MAX ->
  Forall (fun c => c <> NUL) (list_ascii_of_string body) ->
  (String.length (sprintf_d n) + 1 <= String.length body)%nat ->
  line_buffer s = (body ++ String NUL rest)%string ->
  f_data s = sprintf_d n :: l ->
  0 <= slot < maxConcurrentTasks cfg ->
  script_ret cfg n (drop (String.length (sprintf_d n) + 1) body) <> -1 ->
  exists evs s',
    (b <- fgets ;;
     match b with
     | Some buffer => dispatch cfg slot buffer
     | None => ret tt
     end) s = (evs, Next tt, s')
    /\ comm evs
       = [PvmSend slot MSG_WORK
            [PkInt MSG_GREETING; PkInt n; PkStr (inp_programFile cfg);
             PkStr (out_dir cfg);
             PkStr (drop (String.length (sprintf_d n) + 1) body)]]
    /\ f_data s' = l.
Proof.
  intros Hn Hbody Hlen Hmem Hf Hslot Hscript.
  set (q := sprintf_d n) in *.
  set (a := drop (String.length q + 1) body) in *.
  assert (Ha : cstring
                 (drop (String.length q + 1)
                    (poke (String.length q - 1) NUL
                       (store q (line_buffer s)))) = Some a).
  { rewrite drop_poke by lia. unfold store, a.
    rewrite Nat.add_1_r, drop_behind, Hmem, drop_append_le by lia.
    apply cstring_append_NUL. now apply drop_no_NUL. }
  unfold bind at 1. unfold fgets. rewrite Hf.
  pose proof (task_of_line_number_only n Hn) as Ht. fold q in Ht.
  unfold dispatch. rewrite Ht.
  unfold bind, modify, get, cut_line.
  cbn [line_buffer set_line_buffer set_f_data].
  fold q. rewrite Ha.
  unfold send_task, bind, modify, write_script, taskId, emit, ret, return_.
  cbn [f_data set_task set_line_buffer set_f_data line_buffer].
  destruct Hslot as [Hs1 Hs2].
  apply Z.leb_le in Hs1. apply Z.ltb_lt in Hs2. rewrite Hs1, Hs2.
  cbn [andb].
  apply Z.eqb_neq in Hscript. fold a in Hscript.
  destruct (_ || _); unfold bind, work_msg; rewrite ?Hscript;
    do 2 eexists; (split; [reflexivity|]); split; reflexivity.
Qed.

End Leftover.

Section LeftoverRuns.
Import Demo.

Lemma number_only_line_sends_earlier_arguments_witness :
  let cfg := two_cores 2 in
  let s := set_line_buffer ("12,abc" ++ String NUL EmptyString)
             (start ["7"%string] []) in
  INT_MIN <= 7 <= INT_MAX
  /\ (String.length (sprintf_d 7) + 1 <= String.length "12,abc")%nat
  /\ line_buffer s = ("12,abc" ++ String NUL EmptyString)%string
  /\ f_data s = [sprintf_d 7]
  /\ 0 <= 1 < maxConcurrentTasks cfg
  /\ exists evs s',
       (b <- fgets ;;
        match b with
        | Some buffer => dispatch cfg 1 buffer
        | None => ret tt
        end) s = (evs, Next tt, s')
       /\ comm evs
          = [PvmSend 1 MSG_WORK
               [PkInt MSG_GREETING; PkInt 7; PkStr (inp_programFile cfg);
                PkStr (out_dir cfg);
                PkStr (drop (String.length (sprintf_d 7) + 1) "12,abc")]]
       /\ f_data s' = [].
Proof.
  intros cfg s.
  assert (H1 : INT_MIN <= 7 <= INT_MAX) by (vm_compute; split; discriminate).
  assert (H2 : Forall (fun c => c <> NUL) (list_ascii_of_string "12,abc"))
    by (repeat constructor; intros E; discriminate E).
  assert (H3 : (String.length (sprintf_d 7) + 1 <= String.length "12,abc")%nat)
    by (vm_compute; lia).
  assert (H4 : line_buffer s = ("12,abc" ++ String NUL EmptyString)%string)
    by reflexivity.
  assert (H5 : f_data s = [sprintf_d 7]) by reflexivity.
  assert (H6 : 0 <= 1 < maxConcurrentTasks cfg)
    by (vm_compute; split; [discriminate | reflexivity]).
  assert (H7 : script_ret cfg 7
                 (drop (String.length (sprintf_d 7) + 1) "12,abc") <> -1)
    by (vm_compute; discriminate).
  repeat (split; [assumption|]).
  exact (number_only_line_sends_earlier_arguments cfg 1 7 "12,abc"
           EmptyString [] s H1 H2 H3 H4 H5 H6 H7).
Defined.

(** A data file of two lines, the last with no newline: the second task is
    sent with what the first line left in [buffer] behind its second
    character. *)
Example last_line_without_newline :
  task_traffic
    (fst (fst (main (two_cores 2)
       (start [line "12,abc"; "7"%string]
          [full_result 0 12 0 "abc" half two;
           full_result 1 7 0 ",abc" half four]))))
  = [PvmSend 0 MSG_WORK
       [PkInt MSG_GREETING; PkInt 12; PkStr "./prog"; PkStr "out";
        PkStr "abc"];
     PvmSend 1 MSG_WORK
       [PkInt MSG_GREETING; PkInt 7; PkStr "./prog"; PkStr "out";
        PkStr ",abc"];
     PvmRecv {| r_itid := 0; r_taskNumber := 12; r_status := 0;
                r_aux_str := "abc" |};
     PvmRecv {| r_itid := 1; r_taskNumber := 7; r_status := 0;
                r_aux_str := ",abc" |}].
Proof. vm_compute. reflexivity. Qed.

(** The same number as the only line of the file: the task is sent with
    what the array [buffer] held when [main] began. *)
Example first_line_without_newline :
  task_traffic
    (fst (fst (main (two_cores 1)
       (set_line_buffer ("..left" ++ String NUL EmptyString)
          (start ["7"%string] []))
     )))
  = [PvmSend 0 MSG_WORK
       [PkInt MSG_GREETING; PkInt 7; PkStr "./prog"; PkStr "out";
        PkStr "left"]].
Proof. vm_compute. reflexivity. Qed.

End LeftoverRuns.

(** ** The command line *)

Section CommandLine.
Import Args.
Context {Hd : Headers}.

Lemma assign_next {A} (l : list A) (x y : A) (r : list A) :
  assign (List.length l) x (l ++ y :: r) = l ++ x :: r.
Proof. induction l as [|z l IH]; [reflexivity|]. cbn. now rewrite IH. Qed.

(** The four ways a call of [parse_opt] goes, by its key. *)
Lemma parse_opt_cases (key : Z) (arg : string) (n : Z) (a : arguments) :
  (key = chr "k" /\ parse_opt key arg n a = Returns_0 (set_kill 1 a))
  \/ (key = ARGP_KEY_ARG
      /\ parse_opt key arg n a
         = if n >=? 5 then Usage
           else Returns_0
                  (set_args (assign (Z.to_nat n) (Some arg) (args a)) a))
  \/ (key = ARGP_KEY_END
      /\ parse_opt key arg n a
         = if (n <? 5) && negb (kill a =? 1) then Usage else Returns_0 a)
  \/ (key <> chr "k" /\ key <> ARGP_KEY_ARG /\ key <> ARGP_KEY_END
      /\ ((key = chr "c" /\ sscanf_s BUFFER_SIZE arg = TooLong
           /\ parse_opt key arg n a = Faulty Overrun)
          \/ parse_opt key arg n a = Returns_ARGP_ERR_UNKNOWN
          \/ exists a',
               parse_opt key arg n a = Returns_0 a'
               /\ args a' = args a /\ kill a' = kill a)).
Proof.
  unfold parse_opt.
  destruct (Z.eqb_spec key (chr "k")) as [->|Hk]; [now left|].
  destruct (Z.eqb_spec key ARGP_KEY_ARG) as [->|Ha];
    [right; left; split; reflexivity|].
  destruct (Z.eqb_spec key ARGP_KEY_END) as [->|He];
    [right; right; left; split; reflexivity|].
  do 3 right. do 3 (split; [assumption|]).
  destruct (key =? chr "m");
    [destruct (sscanf_ld arg); right; right; eexists; repeat split|].
  destruct (key =? chr "s"); [right; right; eexists; repeat split|].
  destruct (key =? chr "e"); [right; right; eexists; repeat split|].
  destruct (key =? 103); [right; right; eexists; repeat split|].
  destruct (key =? 104); [right; right; eexists; repeat split|].
  destruct (Z.eqb_spec key (chr "c")) as [->|Hc]; [|now right; left].
  destruct (sscanf_s BUFFER_SIZE arg) eqn:E;
    [right; right; eexists; repeat split | right; right; eexists; repeat split
    | now left].
Qed.

Lemma parse_opt_END (arg : string) (n : Z) (a : arguments) :
  parse_opt ARGP_KEY_END arg n a
  = if (n <? 5) && negb (kill a =? 1) then Usage else Returns_0 a.
Proof. reflexivity. Qed.

Lemma positionals_cons (key : Z) (arg : string) (calls : list (Z * string)) :
  positionals ((key, arg) :: calls)
  = if key =? ARGP_KEY_ARG then arg :: positionals calls
    else positionals calls.
Proof.
  unfold positionals. cbn [filter fst]. now destruct (key =? ARGP_KEY_ARG).
Qed.

(** What [argp_parse] has done when it returns, from any point of its
    work: [done] are the arguments stored so far. *)
Lemma argp_calls_Parsed (calls : list (Z * string)) :
  forall (done : list string) (a a' : arguments),
    (List.length done <= 5)%nat ->
    args a = map Some done ++ repeat None (5 - List.length done) ->
    kill a = 0 \/ kill a = 1 ->
    argp_calls calls (Z.of_nat (List.length done)) a = Parsed a' ->
    let pos := done ++ positionals calls in
    args a' = map Some pos ++ repeat None (5 - List.length pos)
    /\ (List.length pos <= 5)%nat
    /\ (kill a' = 0 \/ kill a' = 1)
    /\ (kill a' = 1 <-> kill a = 1 \/ In (chr "k") (keys calls))
    /\ (kill a' = 0 -> List.length pos = 5%nat).
Proof.
  induction calls as [|[key arg] calls IH]; intros done a a' Hlen Hargs Hkill.
  - cbn [argp_calls]. rewrite parse_opt_END.
    unfold positionals, keys. cbn [filter map In]. rewrite app_nil_r.
    destruct (Z.ltb_spec (Z.of_nat (List.length done)) 5) as [L|L];
      destruct (Z.eqb_spec (kill a) 1) as [E|E]; cbn [andb negb];
      intros [= <-]; repeat split; try tauto; try lia.
  - cbn [argp_calls]. rewrite positionals_cons. unfold keys. cbn [map fst In].
    destruct (parse_opt_cases key arg (Z.of_nat (List.length done)) a)
      as [[-> ->]|[[-> ->]|[[-> ->]|(Hk & Ha & He & Hr)]]].
    + change (chr "k" =? ARGP_KEY_ARG) with false. cbv iota. intros Hrun.
      apply IH in Hrun; [|assumption|assumption|now right].
      destruct Hrun as (E1 & E2 & E3 & E4 & E5).
      cbn [kill set_kill] in E4. repeat split; try assumption; tauto.
    + rewrite Z.eqb_refl.
      destruct (Z.geb_spec (Z.of_nat (List.length done)) 5) as [G|G];
        [discriminate|].
      intros Hrun. rewrite Nat2Z.id in Hrun.
      replace (Z.of_nat (List.length done) + 1)
        with (Z.of_nat (List.length (done ++ [arg]))) in Hrun
        by (rewrite length_app; cbn [List.length]; lia).
      assert (Hlen' : (List.length (done ++ [arg]) <= 5)%nat)
        by (rewrite length_app; cbn [List.length]; lia).
      apply IH in Hrun; [|assumption| |assumption].
      * rewrite <- app_assoc in Hrun. cbn [List.app] in Hrun.
        destruct Hrun as (E1 & E2 & E3 & E4 & E5).
        repeat split; try assumption.
        -- intros Hx. apply E4 in Hx as [Hx|Hx]; [now left | now right; right].
        -- intros [Hx|[Hx|Hx]]; [apply E4; now left | discriminate Hx
                                  | apply E4; now right].
      * cbn [args set_args]. rewrite Hargs.
        replace (5 - List.length done)%nat
          with (S (5 - List.length (done ++ [arg])))
          by (rewrite length_app; cbn [List.length]; lia).
        cbn [repeat]. rewrite <- (length_map Some done) at 1.
        rewrite assign_next, map_app, <- app_assoc. reflexivity.
    + change (ARGP_KEY_END =? ARGP_KEY_ARG) with false. cbv iota.
      destruct ((Z.of_nat (List.length done) <? 5) && negb (kill a =? 1));
        [discriminate|].
      intros Hrun. apply IH in Hrun; try assumption.
      destruct Hrun as (E1 & E2 & E3 & E4 & E5).
      repeat split; try assumption.
      * intros Hx. apply E4 in Hx as [Hx|Hx]; [now left | now right; right].
      * intros [Hx|[Hx|Hx]]; [apply E4; now left | discriminate Hx
                                | apply E4; now right].
    + destruct (Z.eqb_spec key ARGP_KEY_ARG) as [?|_]; [contradiction|].
      assert (Hin : kill a = 1 \/ In (chr "k") (map fst calls)
                    <-> kill a = 1 \/ key = chr "k"
                                   \/ In (chr "k") (map fst calls))
        by (split; [tauto | intros [?|[?|?]]; [tauto | congruence | tauto]]).
      destruct Hr as [(_ & _ & ->)|[->|(a1 & -> & Ea & Ek)]];
        [discriminate| |]; intros Hrun.
      * apply IH in Hrun; try assumption.
        destruct Hrun as (E1 & E2 & E3 & E4 & E5).
        repeat split; try assumption; tauto.
      * apply IH in Hrun; [| assumption | now rewrite Ea | now rewrite Ek].
        rewrite Ek in Hrun.
        destruct Hrun as (E1 & E2 & E3 & E4 & E5).
        repeat split; try assumption; tauto.
Qed.

(** X13.  When [argp_parse] returns to [main], the arguments of the command
    line that are no options have been stored in [arguments.args], in their
    order, and there are five of them at most; [kill] is 1 if the option -k
    was given and 0 if not; and with [kill] 0 there are exactly five
    arguments, so that lines 202-206 read pointers that have been set. *)
Theorem argp_parse_returns (calls : list (Z * string)) (a : arguments) :
  argp_parse calls = Parsed a ->
  let pos := positionals calls in
  args a = map Some pos ++ repeat None (5 - List.length pos)
  /\ (List.length pos <= 5)%nat
  /\ (kill a = 1 /\ In (chr "k") (keys calls)
      \/ kill a = 0 /\ ~ In (chr "k") (keys calls)
         /\ List.length pos = 5%nat).
Proof.
  intros Hrun. unfold argp_parse in Hrun.
  apply (argp_calls_Parsed calls [] initial a) in Hrun;
    [|cbn; lia|reflexivity|now left].
  cbn [List.app] in Hrun. destruct Hrun as (E1 & E2 & E3 & E4 & E5).
  cbn [kill initial] in E4. repeat split; try assumption.
  destruct E3 as [E3|E3].
  - right. repeat split; [assumption| |now apply E5].
    intros Hin. assert (kill a = 1) by (apply E4; now right). lia.
  - left. split; [assumption|]. apply E4 in E3 as [E3|E3];
      [discriminate E3 | assumption].
Qed.

Lemma argp_calls_accepts (calls : list (Z * string)) :
  forall (n : Z) (a : arguments),
    paths_fit calls ->
    ~ In ARGP_KEY_END (keys calls) ->
    0 <= n ->
    let m := n + Z.of_nat (List.length (positionals calls)) in
    m = 5 \/ (m < 5 /\ (kill a = 1 \/ In (chr "k") (keys calls))) ->
    exists a', argp_calls calls n a = Parsed a'.
Proof.
  induction calls as [|[key arg] calls IH]; intros n a Hfit Hend Hn.
  - cbn [positionals filter map List.length keys In]. intros Hm.
    cbn [argp_calls]. rewrite parse_opt_END.
    destruct (Z.ltb_spec n 5) as [L|L]; cbn [andb]; [|eauto].
    destruct Hm as [Hm|[_ [Hk|[]]]]; [lia|]. rewrite Hk. cbn. eauto.
  - rewrite positionals_cons. unfold keys in *. cbn [map fst In] in *.
    inversion Hfit as [|c l Hc Hfit']; subst. cbn [fst snd] in Hc.
    cbn [argp_calls].
    destruct (parse_opt_cases key arg n a)
      as [[-> ->]|[[-> ->]|[[-> _]|(Hk & Ha & He & Hr)]]].
    + change (chr "k" =? ARGP_KEY_ARG) with false. cbv iota. intros Hm.
      apply IH; try assumption; [tauto|]. cbn [kill set_kill].
      destruct Hm as [Hm|[Hm _]]; [now left | right; tauto].
    + rewrite Z.eqb_refl. cbn [List.length]. intros Hm.
      destruct (Z.geb_spec n 5) as [G|G]; [lia|].
      apply IH; try assumption; [tauto | lia|]. cbn [kill set_args].
      destruct Hm as [Hm|[Hm [Hx|[Hx|Hx]]]];
        [left; lia | right; split; [lia | now left] | discriminate Hx
        | right; split; [lia | now right]].
    + exfalso. apply Hend. now left.
    + destruct (Z.eqb_spec key ARGP_KEY_ARG) as [?|_]; [contradiction|].
      intros Hm.
      assert (Hm' : forall a1, kill a1 = kill a ->
                n + Z.of_nat (List.length (positionals calls)) = 5
                \/ n + Z.of_nat (List.length (positionals calls)) < 5
                   /\ (kill a1 = 1 \/ In (chr "k") (map fst calls))).
      { intros a1 ->. destruct Hm as [Hm|[Hm [Hx|[Hx|Hx]]]];
          [now left | right; tauto | congruence | right; tauto]. }
      destruct Hr as [(Ec & Elong & _)|[->|(a1 & -> & Ea & Ek)]].
      * now apply Hc in Ec.
      * apply IH; try assumption; [tauto | now apply Hm'].
      * apply IH; try assumption; [tauto | now apply Hm'].
Qed.

(** X14.  A command line with five arguments that are no options, or with
    fewer and the option -k, is accepted: [argp_parse] returns to [main],
    provided the words given with -c fit into [program_path]. *)
Theorem argp_parse_accepts (calls : list (Z * string)) :
  paths_fit calls ->
  ~ In ARGP_KEY_END (keys calls) ->
  List.length (positionals calls) = 5%nat
  \/ ((List.length (positionals calls) < 5)%nat
      /\ In (chr "k") (keys calls)) ->
  exists a, argp_parse calls = Parsed a.
Proof.
  intros Hfit Hend Hm. unfold argp_parse.
  apply argp_calls_accepts; try assumption; [lia|].
  destruct Hm as [Hm|[Hm Hk]]; [left; lia | right; split; [lia | now right]].
Qed.

End CommandLine.

(** ** The start of [main] *)

Section Startup.
Import Args Boot.
#[local] Open Scope boot_scope.
Context {K : Macros} {Hd : Headers}.
Variable w : world.

Lemma daemon_starts_app (l1 l2 : list Boot.event) :
  daemon_starts (l1 ++ l2) = (daemon_starts l1 + daemon_starts l2)%nat.
Proof.
  induction l1 as [|e l1 IH]; [reflexivity|].
  destruct e as [| | | | | |[]| | | | |]; simpl; rewrite ?IH; reflexivity.
Qed.

Lemma daemon_halts_app (l1 l2 : list Boot.event) :
  daemon_halts (l1 ++ l2) = (daemon_halts l1 + daemon_halts l2)%nat.
Proof.
  induction l1 as [|e l1 IH]; [reflexivity|].
  destruct e as [| | | | | |[]| | | | |]; simpl; rewrite ?IH; reflexivity.
Qed.

Lemma quiet_counts (e : Boot.event) :
  quiet e -> daemon_starts [e] = O /\ daemon_halts [e] = O.
Proof. destruct e; cbn; intros H; try contradiction; now split. Qed.

Section Rules.
Variable X : Z -> list Boot.event -> Prop.
Variable F : fault -> list Boot.event -> Prop.

Lemma hoare_ret {A} (a : A) (P : list Boot.event -> Prop) :
  hoare P (Boot.ret a) (fun _ => P) X F.
Proof. intros pre HP. cbn. now rewrite app_nil_r. Qed.

Lemma hoare_emit (e : Boot.event) (P Q : list Boot.event -> Prop) :
  (forall pre, P pre -> Q (pre ++ [e])) ->
  hoare P (Boot.emit e) (fun _ => Q) X F.
Proof. intros H pre HP. cbn. now apply H. Qed.

Lemma hoare_exit {A} (c : Z) (P : list Boot.event -> Prop)
  (Q : A -> list Boot.event -> Prop) :
  (forall pre, P pre -> X c pre) -> hoare P (exit_ c) Q X F.
Proof. intros H pre HP. cbn. rewrite app_nil_r. now apply H. Qed.

Lemma hoare_fault {A} (f : fault) (P : list Boot.event -> Prop)
  (Q : A -> list Boot.event -> Prop) :
  (forall pre, P pre -> F f pre) -> hoare P (fault_ f) Q X F.
Proof. intros H pre HP. cbn. rewrite app_nil_r. now apply H. Qed.

Lemma hoare_bind {A C} (m : B A) (k : A -> B C)
  (P : list Boot.event -> Prop) (Q : A -> list Boot.event -> Prop)
  (R : C -> list Boot.event -> Prop) :
  hoare P m Q X F -> (forall a, hoare (Q a) (k a) R X F) ->
  hoare P (Boot.bind m k) R X F.
Proof.
  intros Hm Hk pre HP. specialize (Hm pre HP). unfold Boot.bind.
  destruct m as [e1 [a|c|f]]; [|exact Hm|exact Hm].
  specialize (Hk a (pre ++ e1) Hm).
  destruct (k a) as [e2 o]. rewrite app_assoc. exact Hk.
Qed.

(** The statements of [startup], for a [P1] that holds up to line 273 and
    a [P3] that holds from line 287 on. *)
Section Phases.
Variables P1 P3 : list Boot.event -> Prop.
Variable a : arguments.
Hypothesis H1q : forall pre e, quiet e -> P1 pre -> P1 (pre ++ [e]).
Hypothesis H1x : forall c pre, P1 pre -> X c pre.
Hypothesis H1f : forall f pre, f <> UnsetArg -> P1 pre -> F f pre.
Hypothesis H3q : forall pre e, quiet e -> P3 pre -> P3 (pre ++ [e]).
Hypothesis H3h : forall c pre, P3 pre -> X c (pre ++ [Boot.PvmHalt]).
Hypothesis H3f : forall f pre, f <> UnsetArg -> P3 pre -> F f pre.
Hypothesis Hscan : hoare P1 (scan_arguments a) (fun _ => P1) X F.
Hypothesis Hstart : hoare P1 (start_daemon w) (fun _ => P3) X F.

#[local] Ltac block1 :=
  repeat first
    [ apply hoare_ret
    | apply hoare_emit; intros; apply H1q; [exact I | assumption]
    | apply hoare_exit; exact (H1x _)
    | apply hoare_fault; intros; apply H1f; [discriminate | assumption]
    | match goal with
      | |- hoare _ (if ?c then _ else _) _ _ _ => destruct c
      | |- hoare _ (match ?c with _ => _ end) _ _ _ => destruct c
      end
    | eapply hoare_bind with (Q := fun _ => P1); [|intros ?] ].

Lemma hoare_halt_exit {A} (c : Z) (Q : A -> list Boot.event -> Prop) :
  hoare P3 (Boot.emit Boot.PvmHalt ;; exit_ c) Q X F.
Proof. intros pre HP. cbn. now apply H3h. Qed.

#[local] Ltac block3 :=
  repeat first
    [ apply hoare_ret
    | apply hoare_halt_exit
    | apply hoare_emit; intros; apply H3q; [exact I | assumption]
    | apply hoare_fault; intros; apply H3f; [discriminate | assumption]
    | match goal with
      | |- hoare _ (if ?c then _ else _) _ _ _ => destruct c
      | |- hoare _ (match ?c with _ => _ end) _ _ _ => destruct c
      end
    | eapply hoare_bind with (Q := fun _ => P3); [|intros ?] ].

Lemma hoare_node_info (out_dir : string) :
  hoare P1 (node_info w a out_dir) (fun _ => P1) X F.
Proof. unfold node_info, fits. block1. Qed.

Lemma hoare_hostfile (nNodes : Z) (l : list (string * Z)) :
  hoare P1 (hostfile w nNodes l) (fun _ => P1) X F.
Proof. unfold hostfile, first_nodes. block1. Qed.

Lemma hoare_enroll (out_dir : string) :
  hoare P3 (enroll w out_dir) (fun _ => P3) X F.
Proof. unfold enroll, fits. block3. Qed.

Lemma hoare_sum_cores (l : list (string * Z)) :
  forall acc, hoare P3 (sum_cores l acc) (fun _ => P3) X F.
Proof.
  induction l as [|node l IH]; intros acc; cbn [sum_cores]; [block3|].
  destruct (_ && _); [apply IH | block3].
Qed.

Lemma hoare_startup : hoare P1 (startup w a) (fun _ => P3) X F.
Proof.
  unfold startup.
  eapply hoare_bind with (Q := fun _ => P1); [block1 | intros _].
  eapply hoare_bind with (Q := fun _ => P1); [exact Hscan|].
  intros [[[[[task_type inp_programFile] inp_dataFile] inp_nodes] out_dir]|];
    [|block1].
  eapply hoare_bind with (Q := fun _ => P1); [block1 | intros _].
  eapply hoare_bind with (Q := fun _ => P1); [block1 | intros _].
  eapply hoare_bind with (Q := fun _ => P1);
    [apply hoare_node_info | intros _].
  eapply hoare_bind with (Q := fun _ => P1); [block1 | intros _].
  destruct (parseNodefile w inp_nodes (getLineCount w inp_nodes)) as [err l].
  eapply hoare_bind with (Q := fun _ => P1); [block1 | intros _].
  eapply hoare_bind with (Q := fun _ => P1); [apply hoare_hostfile | intros _].
  eapply hoare_bind with (Q := fun _ => P3); [exact Hstart | intros _].
  eapply hoare_bind with (Q := fun _ => P3); [apply hoare_enroll | intros ids].
  eapply hoare_bind with (Q := fun _ => P3);
    [unfold first_nodes; block3 | intros used].
  eapply hoare_bind with (Q := fun _ => P3);
    [apply hoare_sum_cores | intros maxConcurrentTasks].
  block3.
Qed.

End Phases.

End Rules.

End Startup.

Section StartupFacts.
Import Args Boot.
#[local] Open Scope boot_scope.
Context {K : Macros} {Hd : Headers}.
Variable w : world.

#[local] Ltac scan_cases :=
  unfold scan_arguments, arg, scan_name, Boot.bind, Boot.ret, fault_;
  repeat (cbn [fst snd List.app];
          match goal with
          | |- context [match ?x with _ => _ end] =>
              lazymatch x with
              | context [match _ with _ => _ end] => fail
              | _ => destruct x eqn:?
              end
          end).

(** Lines 202-206 print nothing and do not return. *)
Lemma scan_arguments_silent (a : arguments) :
  fst (scan_arguments a) = [] /\ forall c, snd (scan_arguments a) <> Exit c.
Proof. split; [|intros c]; scan_cases; try reflexivity; discriminate. Qed.

(** With the five pointers set, no unset pointer is read. *)
Lemma scan_arguments_set (a : arguments) (t p d n o : string) :
  args a = [Some t; Some p; Some d; Some n; Some o] ->
  snd (scan_arguments a) <> Fault UnsetArg.
Proof.
  intros E. unfold scan_arguments, arg. rewrite E. cbn [nth].
  unfold scan_name, Boot.bind, Boot.ret, fault_.
  repeat (cbn [fst snd List.app];
          match goal with
          | |- context [match ?x with _ => _ end] =>
              lazymatch x with
              | context [match _ with _ => _ end] => fail
              | _ => destruct x eqn:?
              end
          end); discriminate.
Qed.

Lemma hoare_scan_arguments (a : arguments)
  (X : Z -> list Boot.event -> Prop) (F : fault -> list Boot.event -> Prop)
  (P : list Boot.event -> Prop) :
  (forall f pre, snd (scan_arguments a) = Fault f -> P pre -> F f pre) ->
  hoare P (scan_arguments a) (fun _ => P) X F.
Proof.
  intros HF pre HP. destruct (scan_arguments_silent a) as [E Hx].
  destruct (scan_arguments a) as [evs [v|c|f]]; cbn [fst snd] in *; subst evs;
    rewrite app_nil_r.
  - exact HP.
  - now destruct (Hx c).
  - now apply HF.
Qed.

Lemma asleep_quiet pre e : quiet e -> asleep pre -> asleep (pre ++ [e]).
Proof.
  intros He [Hs Hh]. destruct (quiet_counts e He) as [Es Eh]. unfold asleep.
  rewrite daemon_starts_app, daemon_halts_app, Hs, Hh, Es, Eh. now split.
Qed.

Lemma running_quiet pre e : quiet e -> running pre -> running (pre ++ [e]).
Proof.
  intros He [Hs Hh]. destruct (quiet_counts e He) as [Es Eh]. unfold running.
  rewrite daemon_starts_app, daemon_halts_app, Es, Eh. split; lia.
Qed.

(** Lines 274-286, counted: the loop leaves one daemon running, or none
    when it gives up. *)
Lemma start_daemon_counts (F : fault -> list Boot.event -> Prop) :
  hoare asleep (start_daemon w) (fun _ => running) (fun _ => halted) F.
Proof.
  intros pre [Hs Hh]. unfold start_daemon. cbn [Master.start_pvmd].
  repeat (destruct (Z.eqb _ PvmDupHost); cbn -[Z.eqb]);
    unfold running, halted;
    rewrite daemon_starts_app, daemon_halts_app, Hs, Hh; cbn; split; lia.
Qed.

(** X15.  The start of [main] and the PVM daemon (lines 199-345).  When
    [main] returns from it, every daemon that [pvm_start_pvmd] started has
    been halted; when [main] goes on to line 347, exactly one is running;
    [pvm_start_pvmd] is called four times at most. *)
Theorem started_daemons_are_halted (a : arguments) :
  let '(evs, o) := startup w a in
  match o with
  | Go _ => running evs
  | Exit _ => halted evs
  | Fault _ => asleep evs \/ running evs
  end.
Proof.
  pose proof (hoare_startup w (fun _ => halted)
                (fun _ evs => asleep evs \/ running evs)
                asleep running a) as H.
  assert (H0 : asleep []) by (split; reflexivity).
  specialize (H asleep_quiet).
  assert (Hx : forall (c : Z) pre, asleep pre -> halted pre).
  { intros c pre [Hs Hl]. unfold halted. rewrite Hs, Hl. split; lia. }
  specialize (H Hx).
  specialize (H (fun f pre _ HP => or_introl HP) running_quiet).
  assert (Hh : forall (c : Z) pre, running pre ->
                 halted (pre ++ [Boot.PvmHalt])).
  { intros c pre [Hs Hl]. unfold halted.
    rewrite daemon_starts_app, daemon_halts_app. cbn. split; lia. }
  specialize (H Hh (fun f pre _ HP => or_intror HP)).
  specialize (H (hoare_scan_arguments a _ _ asleep
                   (fun f pre _ HP => or_introl HP))).
  specialize (H (start_daemon_counts _) [] H0).
  destruct (startup w a) as [evs [v|c|f]]; exact H.
Qed.

(** X16.  After [argp_parse] has returned, the start of [main] never reads
    an element of [arguments.args] that has not been set. *)
Theorem startup_reads_set_arguments (calls : list (Z * string))
  (a : arguments) :
  argp_parse calls = Parsed a ->
  snd (startup w a) <> Fault UnsetArg.
Proof.
  intros Hrun. unfold argp_parse in Hrun.
  apply (argp_calls_Parsed calls [] initial a) in Hrun;
    [|cbn; lia|reflexivity|now left].
  cbn [List.app] in Hrun. destruct Hrun as (E1 & E2 & [E3|E3] & _ & E5).
  - specialize (E5 E3). rewrite E5 in E1. cbn [Nat.sub repeat] in E1.
    rewrite app_nil_r in E1.
    destruct (positionals calls) as [|t [|p [|d [|n [|o [|x l]]]]]];
      try discriminate E5. cbn [map] in E1.
    pose proof (hoare_startup w (fun _ _ => True)
                  (fun f _ => f <> UnsetArg)
                  (fun _ => True) (fun _ => True) a) as H.
    specialize (H (fun _ _ _ _ => I) (fun _ _ _ => I) (fun f _ Hf _ => Hf)
                  (fun _ _ _ _ => I) (fun _ _ _ => I) (fun f _ Hf _ => Hf)).
    assert (Hscan : hoare (fun _ => True) (scan_arguments a)
                      (fun _ _ => True) (fun _ _ => True)
                      (fun f _ => f <> UnsetArg)).
    { apply hoare_scan_arguments. intros f pre Ef _ ->.
      now apply (scan_arguments_set a t p d n o E1). }
    assert (Hstart : hoare (fun _ => True) (start_daemon w)
                       (fun _ _ => True) (fun _ _ => True)
                       (fun f _ => f <> UnsetArg)).
    { intros pre _. unfold start_daemon.
      destruct (Master.start_pvmd 4 (pvm_start_pvmd w) 0 0)
        as [[evs [c|st]]|]; cbn; [exact I | exact I | discriminate]. }
    specialize (H Hscan Hstart [] I).
    destruct (startup w a) as [evs [v|c|f]]; cbn [snd];
      [discriminate | discriminate | congruence].
  - unfold startup. rewrite E3. cbn. discriminate.
Qed.

(** X17.  With the option -s the Maple library is rewritten before the
    task type is looked at: a task type outside 0..5 is reported, and
    E_WRONG_TASK returned, only after [mapleSingleCPU] has been run on the
    program file; and when that call fails, E_MPL is returned and no
    message is printed. *)
Theorem maple_library_rewritten_before_type_check (a : arguments)
  (task_type : Z) (inp_programFile inp_dataFile inp_nodes out_dir : string) :
  kill a = 0 ->
  maple_single_cpu a <> 0 ->
  scan_arguments a
  = ([], Go (Some (task_type, inp_programFile, inp_dataFile, inp_nodes,
                   out_dir))) ->
  ~ 0 <= task_type <= 5 ->
  startup w a
  = if mapleSingleCPU w inp_programFile =? 0
    then ([MapleSingleCPU inp_programFile; Boot.Stderr ERROR_wrong_task_type],
          Exit E_WRONG_TASK)
    else ([MapleSingleCPU inp_programFile], Exit E_MPL).
Proof.
  intros Hk Hm Hs Ht. unfold startup. rewrite Hk, Hs.
  change (0 =? 0) with true.
  cbv beta iota delta [Boot.bind Boot.ret Boot.emit exit_ List.app].
  destruct (Z.eqb_spec (maple_single_cpu a) 0) as [?|_]; [contradiction|].
  destruct (mapleSingleCPU w inp_programFile =? 0); [|reflexivity].
  destruct (Z.eqb_spec task_type 0); [lia|].
  destruct (Z.eqb_spec task_type 1); [lia|].
  destruct (Z.eqb_spec task_type 2); [lia|].
  destruct (Z.eqb_spec task_type 3); [lia|].
  destruct (Z.eqb_spec task_type 4); [lia|].
  destruct (Z.eqb_spec task_type 5); [lia|]. reflexivity.
Qed.

End StartupFacts.

Section Line346.
Import Args Boot.
#[local] Open Scope boot_scope.
Context {K : Macros} {Hd : Headers}.
Variable w : world.

Lemma bind_Go {A C} (m : B A) (k : A -> B C) (evs : list Boot.event) (v : C) :
  Boot.bind m k = (evs, Go v) ->
  exists e1 x e2, m = (e1, Go x) /\ k x = (e2, Go v) /\ evs = e1 ++ e2.
Proof.
  unfold Boot.bind. destruct m as [e1 [x|c|f]]; try discriminate.
  destruct (k x) as [e2 o] eqn:E. intros [= <- ->]. now exists e1, x, e2.
Qed.

#[local] Ltac split_go H :=
  let e1 := fresh "e" in let x := fresh "x" in let e2 := fresh "e" in
  let H1 := fresh "H" in
  apply bind_Go in H; destruct H as (e1 & x & e2 & H1 & H & ->).

Lemma enroll_Go (out_dir : string) (evs : list Boot.event) (ids : Z * Z) :
  enroll w out_dir = (evs, Go ids) ->
  ids = (pvm_mytid w, pvm_parent w)
  /\ 0 <= pvm_mytid w
  /\ (0 <= pvm_parent w \/ pvm_parent w = PvmNoParent).
Proof.
  unfold enroll, fits. intros H.
  split_go H. split_go H. destruct (fopen_w w _); [|discriminate H].
  split_go H. split_go H.
  destruct (Z.ltb_spec (pvm_mytid w) 0) as [L|L]; [discriminate H|].
  split_go H.
  destruct (Z.ltb_spec (pvm_parent w) 0) as [L2|L2];
    destruct (Z.eqb_spec (pvm_parent w) PvmNoParent) as [E|E];
    cbn [andb negb] in H; try discriminate H;
    injection H as _ <-; auto.
Qed.

Lemma sum_cores_Go (l : list (string * Z)) :
  forall acc evs m,
    sum_cores l acc = (evs, Go m) ->
    m = fold_left (fun acc node => acc + snd node) l acc
    /\ (l <> [] -> INT_MIN <= m <= INT_MAX).
Proof.
  induction l as [|node l IH]; intros acc evs m; cbn [sum_cores fold_left].
  - intros [= _ <-]. split; [reflexivity | congruence].
  - destruct (Z.leb_spec INT_MIN (acc + snd node)) as [L1|L1];
      destruct (Z.leb_spec (acc + snd node) INT_MAX) as [L2|L2];
      cbn [andb]; try discriminate.
    intros H. destruct (IH _ _ _ H) as [E R]. split; [exact E|]. intros _.
    destruct l as [|n2 l]; [|apply R; discriminate].
    cbn in H. injection H as _ <-. lia.
Qed.

(** X18.  What holds at line 346, where the slots are started: -k was not
    given; the task type is one of 0..5; the node file has at least one
    line and [nodes] holds as many nodes; [maxConcurrentTasks] is the sum
    of their cores, computed without overflow, which is the sum the
    scheduler of lines 347-725 uses; the data file could be opened; and
    [pvm_mytid] and [pvm_parent] reported no error. *)
Theorem variables_at_line_346 (a : arguments) (evs : list Boot.event)
  (v : variables) :
  startup w a = (evs, Go v) ->
  kill a = 0 /\ arguments_ v = a
  /\ 0 <= Boot.task_type v <= 5
  /\ Boot.nodes v <> []
  /\ Z.of_nat (List.length (Boot.nodes v)) = getLineCount w (inp_nodes v)
  /\ (forall cfg : setup,
        Master.nodes cfg = Boot.nodes v ->
        Master.maxConcurrentTasks cfg = Boot.maxConcurrentTasks v)
  /\ INT_MIN <= Boot.maxConcurrentTasks v <= INT_MAX
  /\ Boot.nTasks v = getLineCount w (inp_dataFile v)
  /\ Boot.nTasks v <> -1
  /\ 0 <= mytid v
  /\ (0 <= myparent v \/ myparent v = PvmNoParent).
Proof.
  intros H. unfold startup in H.
  split_go H. destruct (Z.eqb_spec (kill a) 0) as [Hk|Hk]; [|discriminate H0].
  split_go H.
  destruct x0
    as [[[[[task_type inp_programFile] inp_dataFile] inp_nodes] out_dir]|];
    [|discriminate H].
  split_go H. split_go H.
  assert (Ht : 0 <= task_type <= 5).
  { destruct (Z.eqb_spec task_type 0); [lia|].
    destruct (Z.eqb_spec task_type 1); [lia|].
    destruct (Z.eqb_spec task_type 2); [lia|].
    destruct (Z.eqb_spec task_type 3); [lia|].
    destruct (Z.eqb_spec task_type 4); [lia|].
    destruct (Z.eqb_spec task_type 5); [lia|]. discriminate H3. }
  split_go H. split_go H.
  destruct (Z.eqb_spec (getLineCount w inp_nodes) (-1)) as [?|Hn];
    [discriminate H5|].
  destruct (parseNodefile w inp_nodes (getLineCount w inp_nodes)) as [err l].
  split_go H. split_go H. split_go H. split_go H.
  apply enroll_Go in H9 as (-> & Hmy & Hpa).
  split_go H. unfold first_nodes in H9.
  destruct (Z.leb_spec (getLineCount w inp_nodes) (Z.of_nat (List.length l)))
    as [Hl|Hl]; [|discriminate H9].
  injection H9 as _ <-.
  split_go H. apply sum_cores_Go in H9 as [Hsum Hrange].
  split_go H.
  destruct (Z.eqb_spec (getLineCount w inp_dataFile) (-1)) as [?|Hd2];
    [discriminate H9|].
  split_go H. split_go H.
  destruct (Z.ltb_spec 0 (getLineCount w inp_nodes)) as [Hpos|Hpos];
    [|discriminate H11].
  split_go H. injection H as _ <-.
  cbn [arguments_ Boot.task_type Boot.nodes Boot.inp_nodes Boot.inp_dataFile
       Boot.maxConcurrentTasks Boot.nTasks mytid myparent fst snd].
  assert (Hlen : Z.of_nat (List.length
                   (firstn (Z.to_nat (getLineCount w inp_nodes)) l))
                 = getLineCount w inp_nodes)
    by (rewrite length_firstn; lia).
  assert (Hne : firstn (Z.to_nat (getLineCount w inp_nodes)) l <> []).
  { intros E. rewrite E in Hlen. cbn in Hlen. lia. }
  repeat split; try assumption; try lia.
  - intros cfg E. unfold Master.maxConcurrentTasks. now rewrite E.
  - now apply Hrange.
  - now apply Hrange.
Qed.

End Line346.

(** ** Concrete inputs for the further properties *)

Section MoreRuns.
Import Demo BootDemo WorkerTrace Report.

Lemma task_of_line_drops_last_char_witness :
  INT_MIN <= 3 <= INT_MAX
  /\ task_of_line (sprintf_d 3 ++ "," ++ "a,b" ++ String "x"%char EmptyString)
     = Task 3 "a,b".
Proof.
  assert (H : INT_MIN <= 3 <= INT_MAX) by (unfold INT_MIN, INT_MAX; lia).
  split; [assumption|].
  exact (task_of_line_drops_last_char 3 "a,b" "x"%char H).
Defined.

Lemma unfinished_line_reads_back_witness :
  INT_MIN <= 7 <= INT_MAX
  /\ task_of_line (unfinished_line 7 "5,6") = Task 7 "5,6".
Proof.
  assert (H : INT_MIN <= 7 <= INT_MAX) by (unfold INT_MIN, INT_MAX; lia).
  split; [assumption|].
  exact (unfinished_line_reads_back 7 "5,6" H).
Defined.

Lemma task_of_line_bare_number_witness :
  INT_MIN <= 42 <= INT_MAX
  /\ task_of_line (sprintf_d 42 ++ newline) = Task 42 EmptyString
  /\ task_of_line (sprintf_d 42) = OutsideLine 42.
Proof.
  assert (H : INT_MIN <= 42 <= INT_MAX) by (unfold INT_MIN, INT_MAX; lia).
  split; [assumption|].
  exact (task_of_line_bare_number 42 H).
Defined.

Lemma blank_line_ends_the_run_witness :
  let s := start [newline] [] in
  skip_space newline = EmptyString
  /\ task_of_line newline = NoTaskId
  /\ dispatch (two_cores 1) 0 newline s
     = ([Stderr ERROR_first_column; PvmHalt], Return E_DATAFILE_FIRSTCOL, s).
Proof.
  intros s.
  assert (H : skip_space newline = EmptyString) by reflexivity.
  split; [assumption|].
  exact (blank_line_ends_the_run (two_cores 1) 0 newline s H).
Defined.

Lemma worker_defers_without_receiving_witness :
  let ts1 := [no_memory; no_memory] in
  let ts2 := [task7 4242 {| Worker.si_code := Worker.CLD_EXITED;
                            Worker.si_status := 0 |}] in
  Forall (fun t => Worker.memcheck_ret t = 1) ts1
  /\ Worker.work (ts1 ++ ts2) worker_vars
     = (repeat (Worker.Sleep 60) (List.length ts1)
          ++ fst (Worker.work ts2 worker_vars),
        snd (Worker.work ts2 worker_vars)).
Proof.
  intros ts1 ts2.
  assert (H : Forall (fun t => Worker.memcheck_ret t = 1) ts1)
    by (repeat constructor).
  split; [assumption|].
  exact (worker_defers_without_receiving ts1 ts2 worker_vars H).
Defined.

Lemma master_messages_reach_worker_witness :
  let cfg := maple_cores 1 in
  let info := {| Worker.si_code := Worker.CLD_EXITED;
                 Worker.si_status := 0 |} in
  let s := start [] [] in
  task_type cfg = 0
  /\ MSG_GREETING <> MSG_STOP
  /\ 0 <> 1
  /\ 0 < 4242
  /\ Worker.main worker_vars (greeting_msg cfg 1)
       [turn_of 0 (work_msg cfg 7 "5,6") 4242 info]
     = ([Worker.Fork
           [Worker.COpen
              (out_dir cfg ++ "/" ++ sprintf_d 7 ++ "_out.txt")%string
              ["O_WRONLY"; "O_CREAT"] Worker.mode_0666;
            Worker.CDup2 1; Worker.CClose;
            Worker.COpen
              (out_dir cfg ++ "/" ++ sprintf_d 7 ++ "_err.txt")%string
              ["O_WRONLY"; "O_CREAT"] Worker.mode_0666;
            Worker.CDup2 2; Worker.CClose;
            Worker.CExecvp "maple"
              ["maple";
               "-tc " ++ dquote ++ "taskId:=" ++ sprintf_d 7 ++ dquote;
               "-c " ++ dquote ++ "taskArgs:=[" ++ "5,6" ++ "]" ++ dquote;
               inp_programFile cfg]%string];
         Worker.Waitid;
         Worker.Prtusage 7 (out_dir cfg);
         Worker.Send MSG_RESULT [PkInt 1; PkInt 7; PkInt 0]],
        Worker.Waiting)
  /\ itid (unpack_result [PkInt 1; PkInt 7; PkInt 0] [] s) = 1
  /\ taskNumber (unpack_result [PkInt 1; PkInt 7; PkInt 0] [] s) = 7
  /\ status (unpack_result [PkInt 1; PkInt 7; PkInt 0] [] s) = 0.
Proof.
  intros cfg info s.
  assert (H0 : task_type cfg = 0) by reflexivity.
  assert (Hf : Forall (fun x => Z.of_nat (String.length x) < BUFFER_SIZE)
                 ["maple";
                  "-tc " ++ dquote ++ "taskId:=" ++ sprintf_d 7 ++ dquote;
                  "-c " ++ dquote ++ "taskArgs:=[" ++ "5,6" ++ "]" ++ dquote;
                  inp_programFile cfg]%string)
    by (repeat constructor).
  assert (H1 : MSG_GREETING <> MSG_STOP) by (intros E; discriminate E).
  assert (H2 : 0 <> 1) by (intros E; discriminate E).
  assert (H3 : 0 < 4242) by reflexivity.
  repeat (split; [assumption|]).
  exact (master_messages_reach_worker cfg 1 7 "5,6" worker_vars 0 4242
           info [] s H0 Hf H1 H2 H3).
Defined.

Lemma summed_time_is_printed_witness :
  let cfg := two_cores 3 in
  let evs := fst (fst three_tasks) in
  let s' := snd three_tasks in
  let s := start [line "1,5,6"; line "2,7,8"; line "3,9,10"]
             [full_result 1 2 ST_TASK_KILLED "7,8" quarter one;
              full_result 0 1 0 "5,6" half two;
              full_result 1 3 0 "9,10" half four] in
  main cfg s = (evs, Return 0, s')
  /\ E_IO <> 0
  /\ total_total_time s'
     = fold_left dadd (lifetimes evs) (total_total_time s)
  /\ (Return 0 = Return 0 :> outcome unit ->
      In (Stdout (END_OF_EXECUTION (total_total_time s'))) evs).
Proof.
  intros cfg evs s' s.
  assert (H1 : main cfg s = (evs, Return 0, s')) by (vm_compute; reflexivity).
  assert (H2 : E_IO <> 0) by (intros E; discriminate E).
  repeat (split; [assumption|]).
  exact (summed_time_is_printed cfg s evs (Return 0) s' H1 H2).
Defined.

Lemma unfinished_file_kept_iff_some_failed_witness :
  let cfg := two_cores 3 in
  let evs := fst (fst three_tasks) in
  let s' := snd three_tasks in
  let s := start [line "1,5,6"; line "2,7,8"; line "3,9,10"]
             [full_result 1 2 ST_TASK_KILLED "7,8" quarter one;
              full_result 0 1 0 "5,6" half two;
              full_result 1 3 0 "9,10" half four] in
  main cfg s = (evs, Return 0, s')
  /\ E_IO <> 0
  /\ (unfinishedTasks s' = None
      <-> filter not_ok (results evs) = [] /\ rm_removes cfg = true).
Proof.
  intros cfg evs s' s.
  assert (H1 : main cfg s = (evs, Return 0, s')) by (vm_compute; reflexivity).
  assert (H2 : E_IO <> 0) by (intros E; discriminate E).
  repeat (split; [assumption|]).
  exact (unfinished_file_kept_iff_some_failed cfg s evs s' H1 H2).
Defined.

Lemma one_result_per_line_witness :
  let cfg := two_cores 3 in
  let evs := fst (fst three_tasks) in
  let s' := snd three_tasks in
  let s := start [line "1,5,6"; line "2,7,8"; line "3,9,10"]
             [full_result 1 2 ST_TASK_KILLED "7,8" quarter one;
              full_result 0 1 0 "5,6" half two;
              full_result 1 3 0 "9,10" half four] in
  main cfg s = (evs, Return 0, s')
  /\ E_IO <> 0
  /\ nTasks cfg = Z.of_nat (List.length (f_data s))
  /\ 0 <= maxConcurrentTasks cfg
  /\ List.length (results evs) = List.length (f_data s).
Proof.
  intros cfg evs s' s.
  assert (H1 : main cfg s = (evs, Return 0, s')) by (vm_compute; reflexivity).
  assert (H2 : E_IO <> 0) by (intros E; discriminate E).
  assert (H3 : nTasks cfg = Z.of_nat (List.length (f_data s))) by reflexivity.
  assert (H4 : 0 <= maxConcurrentTasks cfg) by (intros E; discriminate E).
  repeat (split; [assumption|]).
  exact (one_result_per_line cfg s evs s' H1 H2 H3 H4).
Defined.

Lemma argp_parse_returns_witness :
  Args.argp_parse command_line = Args.Parsed accepted
  /\ (let pos := Args.positionals command_line in
      Args.args accepted
      = map Some pos ++ repeat None (5 - List.length pos)
      /\ (List.length pos <= 5)%nat
      /\ (Args.kill accepted = 1
          /\ In (Args.chr "k") (Args.keys command_line)
          \/ Args.kill accepted = 0
             /\ ~ In (Args.chr "k") (Args.keys command_line)
             /\ List.length pos = 5%nat)).
Proof.
  assert (H : Args.argp_parse command_line = Args.Parsed accepted)
    by (vm_compute; reflexivity).
  split; [assumption|].
  exact (argp_parse_returns command_line accepted H).
Defined.

Lemma argp_parse_accepts_witness :
  Args.paths_fit command_line
  /\ ~ In Args.ARGP_KEY_END (Args.keys command_line)
  /\ (List.length (Args.positionals command_line) = 5%nat
      \/ ((List.length (Args.positionals command_line) < 5)%nat
          /\ In (Args.chr "k") (Args.keys command_line)))
  /\ exists a, Args.argp_parse command_line = Args.Parsed a.
Proof.
  assert (H1 : Args.paths_fit command_line)
    by (repeat constructor; intros E; discriminate E).
  assert (H2 : ~ In Args.ARGP_KEY_END (Args.keys command_line))
    by (cbn; intros [E|[E|[E|[E|[E|[E|[]]]]]]]; discriminate E).
  assert (H3 : List.length (Args.positionals command_line) = 5%nat
               \/ ((List.length (Args.positionals command_line) < 5)%nat
                   /\ In (Args.chr "k") (Args.keys command_line)))
    by (left; reflexivity).
  repeat (split; [assumption|]).
  exact (argp_parse_accepts command_line H1 H2 H3).
Defined.

Lemma startup_reads_set_arguments_witness :
  Args.argp_parse command_line = Args.Parsed accepted
  /\ snd (Boot.startup (system 3) accepted) <> Boot.Fault UnsetArg.
Proof.
  assert (H : Args.argp_parse command_line = Args.Parsed accepted)
    by (vm_compute; reflexivity).
  split; [assumption|].
  exact (startup_reads_set_arguments (system 3) command_line accepted H).
Defined.

Lemma maple_library_rewritten_before_type_check_witness :
  let w := system 3 in
  Args.kill with_maple = 0
  /\ Args.maple_single_cpu with_maple <> 0
  /\ Boot.scan_arguments with_maple
     = ([], Boot.Go (Some (7, "lib.mpl", "data.txt", "nodes.txt", "out")))
  /\ ~ 0 <= 7 <= 5
  /\ Boot.startup w with_maple
     = if Boot.mapleSingleCPU w "lib.mpl" =? 0
       then ([Boot.MapleSingleCPU "lib.mpl";
              Boot.Stderr Boot.ERROR_wrong_task_type], Boot.Exit E_WRONG_TASK)
       else ([Boot.MapleSingleCPU "lib.mpl"], Boot.Exit E_MPL).
Proof.
  intros w.
  assert (H1 : Args.kill with_maple = 0) by reflexivity.
  assert (H2 : Args.maple_single_cpu with_maple <> 0)
    by (intros E; discriminate E).
  assert (H3 : Boot.scan_arguments with_maple
               = ([], Boot.Go (Some (7, "lib.mpl", "data.txt", "nodes.txt",
                                     "out"))))
    by (vm_compute; reflexivity).
  assert (H4 : ~ 0 <= 7 <= 5) by lia.
  repeat (split; [assumption|]).
  exact (maple_library_rewritten_before_type_check w with_maple 7 "lib.mpl"
           "data.txt" "nodes.txt" "out" H1 H2 H3 H4).
Defined.

Lemma variables_at_line_346_witness :
  let w := system 3 in
  let evs := fst (Boot.startup w accepted) in
  Boot.startup w accepted = (evs, Boot.Go ready)
  /\ Args.kill accepted = 0 /\ Boot.arguments_ ready = accepted
  /\ 0 <= Boot.task_type ready <= 5
  /\ Boot.nodes ready <> []
  /\ Z.of_nat (List.length (Boot.nodes ready))
     = Boot.getLineCount w (Boot.inp_nodes ready)
  /\ (forall cfg : setup,
        Master.nodes cfg = Boot.nodes ready ->
        Master.maxConcurrentTasks cfg = Boot.maxConcurrentTasks ready)
  /\ INT_MIN <= Boot.maxConcurrentTasks ready <= INT_MAX
  /\ Boot.nTasks ready = Boot.getLineCount w (Boot.inp_dataFile ready)
  /\ Boot.nTasks ready <> -1
  /\ 0 <= Boot.mytid ready
  /\ (0 <= Boot.myparent ready \/ Boot.myparent ready = PvmNoParent).
Proof.
  intros w evs.
  assert (H : Boot.startup w accepted = (evs, Boot.Go ready))
    by (vm_compute; reflexivity).
  split; [assumption|].
  exact (variables_at_line_346 w accepted evs ready H).
Defined.

End MoreRuns.

(** ** The stop message *)

Section Stop.
Import Protocol.
Context {K : Macros} {Hw : Headers}.
Variable cfg : setup.
Hypothesis work_is_no_greeting : MSG_WORK <> MSG_GREETING.
Hypothesis work_is_no_stop : MSG_WORK <> MSG_STOP.

Lemma coded_bind {A C} (m : M A) (k : A -> M C) :
  (forall s, Forall work_coded (fst (fst (m s)))) ->
  (forall a s, Forall work_coded (fst (fst (k a s)))) ->
  forall s, Forall work_coded (fst (fst (bind m k s))).
Proof.
  intros Hm Hk s. unfold bind. specialize (Hm s).
  destruct (m s) as [[e1 [a|c| |]] s1]; cbn [fst] in *; try exact Hm.
  specialize (Hk a s1). destruct (k a s1) as [[e2 o2] s2]. cbn [fst] in *.
  apply Forall_app. now split.
Qed.

Lemma coded_for (body : Z -> M unit) (n : nat) :
  (forall i s, Forall work_coded (fst (fst (body i s)))) ->
  forall from s, Forall work_coded (fst (fst (for_ n from body s))).
Proof.
  intros Hb. induction n as [|n IH]; intros from; cbn [for_].
  - intros s. constructor.
  - apply coded_bind; [apply Hb | intros _; apply IH].
Qed.

Lemma coded_times (body : M unit) (n : nat) :
  (forall s, Forall work_coded (fst (fst (body s)))) ->
  forall s, Forall work_coded (fst (fst (times n body s))).
Proof.
  intros Hb. induction n as [|n IH]; cbn [times].
  - intros s. constructor.
  - apply coded_bind; [apply Hb | intros _; apply IH].
Qed.

Lemma coded_emit (e : event) :
  work_coded e -> forall s, Forall work_coded (fst (fst (emit e s))).
Proof. intros He s. cbn. now constructor. Qed.

#[local] Ltac coded :=
  repeat first
    [ apply coded_emit; cbn [work_coded];
      first [ exact I
            | intros E; first [ now destruct work_is_no_greeting
                              | now destruct work_is_no_stop ]
            | intros _; unfold work_msg; eexists; reflexivity ]
    | apply coded_bind; [|intros ?]
    | apply coded_for; intros ?
    | apply coded_times
    | match goal with
      | |- forall s, Forall _ (fst (fst ((if ?c then _ else _) s))) =>
          destruct c
      | |- forall s, Forall _ (fst (fst (match ?c with _ => _ end s))) =>
          destruct c
      end
    | (intros ?; constructor) ].

Lemma coded_taskId (i : Z) :
  forall s, Forall work_coded (fst (fst (taskId cfg i s))).
Proof. unfold taskId. coded. Qed.

Lemma coded_dispatch (slot : Z) (buffer : string) :
  forall s, Forall work_coded (fst (fst (dispatch cfg slot buffer s))).
Proof. unfold dispatch, send_task, write_script, taskId. coded. Qed.

Lemma coded_fgets : forall s, Forall work_coded (fst (fst (fgets s))).
Proof. intros s. unfold fgets. destruct (f_data s); constructor. Qed.

Lemma coded_receive : forall s, Forall work_coded (fst (fst (receive s))).
Proof.
  unfold receive. apply coded_bind.
  - intros s. unfold recv_result. destruct (inbox s); repeat constructor.
  - intros _. unfold classify, append_unfinished. coded.
Qed.

Lemma coded_spawn_all (l : list (string * Z)) :
  forall s, Forall work_coded (fst (fst (spawn_all cfg l s))).
Proof.
  induction l as [|[host cores] l IH]; cbn [spawn_all]; [coded|].
  apply coded_bind; [|intros _; exact IH].
  apply coded_times. unfold spawn_one, taskId. coded.
Qed.

(** Whatever the master sends with tag MSG_WORK carries MSG_GREETING. *)
Lemma coded_main : forall s, Forall work_coded (fst (fst (main cfg s))).
Proof.
  unfold main, schedule.
  apply coded_bind; [|intros _; unfold finish; coded].
  apply coded_bind; [coded | intros _].
  apply coded_bind; [apply coded_spawn_all | intros _].
  apply coded_bind.
  { unfold first_batch. apply coded_for. intros i.
    apply coded_bind; [apply coded_fgets | intros [b|]];
      [apply coded_dispatch | coded]. }
  intros _. apply coded_bind; [unfold create_unfinished; coded | intros _].
  apply coded_bind.
  { unfold steady. destruct (_ >? _); [|coded].
    apply coded_for. intros i.
    apply coded_bind; [apply coded_receive | intros _].
    apply coded_bind; [apply coded_fgets | intros [b|]]; [|coded].
    apply coded_bind; [coded | intros j]. apply coded_dispatch. }
  intros _. unfold drain. apply coded_for. intros i.
  apply coded_bind; [apply coded_receive | intros _].
  unfold taskId. coded.
Qed.

Lemma sent_with_In (tag slot : Z) (msg : buffer) (evs : list event) :
  In msg (sent_with tag slot evs) -> In (PvmSend slot tag msg) evs.
Proof.
  induction evs as [|e evs IH]; [intros []|].
  destruct e as [|i t m| | | | | | | |]; cbn [sent_with];
    try (intros H; right; now apply IH).
  destruct (Z.eqb_spec i slot) as [->|Hi];
    destruct (Z.eqb_spec t tag) as [->|Ht]; cbn [andb];
    try (intros H; right; now apply IH).
  intros [->|H]; [now left | right; now apply IH].
Qed.

(** The worker leaves its loop with [exit(0)] only for a message whose
    work code is MSG_STOP. *)
Lemma worker_goes_on (ts : list Worker.turn) :
  MSG_GREETING <> MSG_STOP ->
  forall v,
    Forall (fun t => exists rest,
              Worker.work_msg t = PkInt MSG_GREETING :: rest) ts ->
    snd (Worker.work ts v) <> Worker.Exit 0.
Proof.
  intros Hd. induction ts as [|t ts IH]; intros v HF; [discriminate|].
  inversion HF as [|t' ts' [rest Ht] HF']; subst. cbn [Worker.work].
  destruct (Worker.memcheck_ret t =? 1).
  { specialize (IH v HF'). now destruct (Worker.work ts v). }
  rewrite Ht. cbn [pvm_upkint].
  destruct (Z.eqb_spec MSG_GREETING MSG_STOP) as [?|_]; [contradiction|].
  destruct (pvm_upkint (Worker.taskNumber v) rest) as [n b2].
  destruct (pvm_upkstr (Worker.inp_programFile v) b2) as [f b3].
  destruct (pvm_upkstr (Worker.out_dir v) b3) as [d b4].
  destruct (pvm_upkstr (Worker.arguments v) b4) as [a b5].
  destruct (Worker.fork_pid t <? 0); [discriminate|].
  destruct (Worker.fork_pid t =? 0);
    [cbn [snd]; destruct (Worker.calls_program _); discriminate|].
  match goal with |- context [Worker.work ts ?v'] =>
    specialize (IH v' HF'); now destruct (Worker.work ts v') end.
Qed.

End Stop.

Section Stopped.
Context {Hw : Headers}.

(** X19.  The stop message never reaches a worker.  The master sends it
    with tag MSG_STOP (line 671), the worker waits for tag MSG_WORK (line
    78 of task_fork.c), and every message the master sends with tag
    MSG_WORK carries MSG_GREETING as its work code (lines 397, 409, 518);
    so a worker that is given messages of the master never takes the
    branch of line 80 and never exits with 0.  The three tags are macros of
    a header that is not among the sources: that they differ is asked. *)
Theorem stop_message_never_received {K : Macros} (cfg : setup) (s : state)
  (slot : Z) :
  MSG_WORK <> MSG_GREETING ->
  MSG_WORK <> MSG_STOP ->
  MSG_GREETING <> MSG_STOP ->
  let evs := fst (fst (main cfg s)) in
  (forall msg,
     In msg (Protocol.sent_with MSG_WORK slot evs) ->
     exists rest, msg = PkInt MSG_GREETING :: rest)
  /\ (forall (ts : list Worker.turn) (v0 : Worker.vars) (g : buffer),
        Forall (fun t =>
          In (Worker.work_msg t) (Protocol.sent_with MSG_WORK slot evs)) ts ->
        snd (Worker.main v0 g ts) <> Worker.Exit 0).
Proof.
  intros Hg Hs Hd evs.
  assert (Hm : forall msg,
            In msg (Protocol.sent_with MSG_WORK slot evs) ->
            exists rest, msg = PkInt MSG_GREETING :: rest).
  { intros msg Hin. apply sent_with_In in Hin.
    pose proof (coded_main cfg Hg Hs s) as HF.
    rewrite Forall_forall in HF. exact (HF _ Hin eq_refl). }
  split; [exact Hm|].
  intros ts v0 g HF. unfold Worker.main. apply worker_goes_on; [exact Hd|].
  rewrite Forall_forall in *. intros t Ht. now apply Hm, HF.
Qed.

End Stopped.

Section StopRun.
Import Demo.

Lemma stop_message_never_received_witness :
  let evs := fst (fst three_tasks) in
  MSG_WORK <> MSG_GREETING
  /\ MSG_WORK <> MSG_STOP
  /\ MSG_GREETING <> MSG_STOP
  /\ (forall msg,
        In msg (Protocol.sent_with MSG_WORK 1 evs) ->
        exists rest, msg = PkInt MSG_GREETING :: rest)
  /\ (forall (ts : list Worker.turn) (v0 : Worker.vars) (g : buffer),
        Forall (fun t =>
          In (Worker.work_msg t) (Protocol.sent_with MSG_WORK 1 evs)) ts ->
        snd (Worker.main v0 g ts) <> Worker.Exit 0).
Proof.
  intros evs.
  assert (H1 : MSG_WORK <> MSG_GREETING) by (intros E; discriminate E).
  assert (H2 : MSG_WORK <> MSG_STOP) by (intros E; discriminate E).
  assert (H3 : MSG_GREETING <> MSG_STOP) by (intros E; discriminate E).
  repeat (split; [assumption|]).
  exact (stop_message_never_received (two_cores 3)
           (start [line "1,5,6"; line "2,7,8"; line "3,9,10"]
              [full_result 1 2 ST_TASK_KILLED "7,8" quarter one;
               full_result 0 1 0 "5,6" half two;
               full_result 1 3 0 "9,10" half four]) 1 H1 H2 H3).
Defined.

End StopRun.
